(** * Desired-state computation of the cluster topology controller

    A shallow embedding of [controllers/topology/desired_state.go] and the
    properties of its specification.

    Conventions of the embedding:
    - a Go pointer is an [option] ([nil] is [None]); dereferencing [nil]
      panics, which the execution monad [M] records as [Panics];
    - a Go [map[string]string] is an [option (gmap string string)]: the [nil]
      map reads like the empty map, and assigning into it panics;
    - a Go function returning [(T, error)] returns the pair
      [(option T * option error)], exactly as the source writes its
      [return nil, err] and [return x, nil];
    - the random source behind [names.SimpleNameGenerator] is threaded through
      [M] as explicit state;
    - the objects that the source assumes to be provided (the pointers inside
      the blueprint that it dereferences without any check, see the NOTE on
      [computeDesiredState]) are plain records; every pointer that the source
      tests against [nil] or reads under a guard of the blueprint, and every
      pointer of the cluster state, whose fields start out [nil] in the
      desired state, is an [option]. *)

From Stdlib Require Import ZArith Ascii String.
From stdpp Require Import base option list gmap strings fin_maps.

#[local] Set Warnings "-register-all".
#[local] Open Scope Z_scope.
#[local] Open Scope string_scope.

(** ** Go values *)

(** A Go [error], observed through its message. *)
Definition error := string.

(** [errors.Errorf] after formatting. *)
Definition Errorf (msg : string) : error := msg.

(** [errors.Wrap]/[errors.Wrapf] of a non-nil error: the message is
    ["msg: cause"]. *)
Definition Wrap (err : error) (msg : string) : error := msg +:+ ": " +:+ err.

(** [map[string]string]. *)
Abbreviation gomap := (option (gmap string string)).

(** Reading a key of a possibly nil map. *)
Definition mapindex (m : gomap) (k : string) : option string :=
  match m with
  | Some m => m !! k
  | None => None
  end.

(** [len(s) > 0] on a string. *)
Definition nonempty (s : string) : bool := Nat.ltb 0 (String.length s).

(** The dynamic content of an unstructured object ([interface{}] values
    reachable from [map[string]interface{}]). *)
Inductive value :=
  | VNull
  | VBool (b : bool)
  | VInt (n : Z)
  | VString (s : string)
  | VList (l : list value)
  | VMap (m : gmap string value).

(** ** API types (only the fields the source reads or writes) *)

(** [corev1.ObjectReference]. *)
Module ObjectReference.
Record t := mk {
  Kind : string;
  Namespace : string;
  Name : string;
  APIVersion : string }.
End ObjectReference.

(** [clusterv1.ObjectMeta]. *)
Module ObjectMeta.
Record t := mk {
  Labels : gomap;
  Annotations : gomap }.
End ObjectMeta.

(** [unstructured.Unstructured]: type meta and object meta are typed, the
    rest of the object (spec, status, ...) is the dynamic [content]. *)
Module Unstructured.
Record t := mk {
  apiVersion : string;
  kind : string;
  name : string;
  namespace : string;
  labels : gomap;
  annotations : gomap;
  resourceVersion : string;
  uid : string;
  selfLink : string;
  finalizers : list string;
  content : gmap string value }.

(** [&unstructured.Unstructured{}]. *)
Definition empty : t := mk "" "" "" "" None None "" "" "" [] ∅.

Definition GetKind (u : t) : string := kind u.
Definition GetAPIVersion (u : t) : string := apiVersion u.
Definition GetName (u : t) : string := name u.
Definition GetNamespace (u : t) : string := namespace u.
Definition GetLabels (u : t) : gomap := labels u.
Definition GetAnnotations (u : t) : gomap := annotations u.
Definition GetResourceVersion (u : t) : string := resourceVersion u.
Definition GetUID (u : t) : string := uid u.
Definition GetSelfLink (u : t) : string := selfLink u.
Definition GetFinalizers (u : t) : list string := finalizers u.

Definition SetName (v : string) (u : t) : t :=
  mk (apiVersion u) (kind u) v (namespace u) (labels u) (annotations u)
     (resourceVersion u) (uid u) (selfLink u) (finalizers u) (content u).
Definition SetLabels (v : gomap) (u : t) : t :=
  mk (apiVersion u) (kind u) (name u) (namespace u) v (annotations u)
     (resourceVersion u) (uid u) (selfLink u) (finalizers u) (content u).
Definition SetAnnotations (v : gomap) (u : t) : t :=
  mk (apiVersion u) (kind u) (name u) (namespace u) (labels u) v
     (resourceVersion u) (uid u) (selfLink u) (finalizers u) (content u).
Definition SetResourceVersion (v : string) (u : t) : t :=
  mk (apiVersion u) (kind u) (name u) (namespace u) (labels u) (annotations u)
     v (uid u) (selfLink u) (finalizers u) (content u).
Definition SetUID (v : string) (u : t) : t :=
  mk (apiVersion u) (kind u) (name u) (namespace u) (labels u) (annotations u)
     (resourceVersion u) v (selfLink u) (finalizers u) (content u).
Definition SetSelfLink (v : string) (u : t) : t :=
  mk (apiVersion u) (kind u) (name u) (namespace u) (labels u) (annotations u)
     (resourceVersion u) (uid u) v (finalizers u) (content u).
Definition SetFinalizers (v : list string) (u : t) : t :=
  mk (apiVersion u) (kind u) (name u) (namespace u) (labels u) (annotations u)
     (resourceVersion u) (uid u) (selfLink u) v (content u).
Definition SetContent (v : gmap string value) (u : t) : t :=
  mk (apiVersion u) (kind u) (name u) (namespace u) (labels u) (annotations u)
     (resourceVersion u) (uid u) (selfLink u) (finalizers u) v.
End Unstructured.

(** [clusterv1.Cluster]; [Spec_X] is the field [Spec.X]. *)
Module Cluster.
Record t := mk {
  Name : string;
  Namespace : string;
  Labels : gomap;
  Annotations : gomap;
  Spec_InfrastructureRef : option ObjectReference.t;
  Spec_ControlPlaneRef : option ObjectReference.t }.

Definition SetLabels (v : gomap) (c : t) : t :=
  mk (Name c) (Namespace c) v (Annotations c)
     (Spec_InfrastructureRef c) (Spec_ControlPlaneRef c).
Definition SetInfrastructureRef (v : option ObjectReference.t) (c : t) : t :=
  mk (Name c) (Namespace c) (Labels c) (Annotations c) v (Spec_ControlPlaneRef c).
Definition SetControlPlaneRef (v : option ObjectReference.t) (c : t) : t :=
  mk (Name c) (Namespace c) (Labels c) (Annotations c) (Spec_InfrastructureRef c) v.
End Cluster.

(** [clusterv1.MachineDeploymentTopology]. *)
Module MachineDeploymentTopology.
Record t := mk {
  Metadata : ObjectMeta.t;
  Class : string;
  Name : string;
  Replicas : option Z }.
End MachineDeploymentTopology.

(** [clusterv1.Topology]; [Workers] is the pointer to the
    [WorkersTopology], whose only field is the list of machine deployments. *)
Module Topology.
Record t := mk {
  Version : string;
  ControlPlane_Metadata : ObjectMeta.t;
  ControlPlane_Replicas : option Z;
  Workers : option (list MachineDeploymentTopology.t) }.
End Topology.

(** [clusterv1.LocalObjectTemplate]. *)
Module LocalObjectTemplate.
Record t := mk { Ref : option ObjectReference.t }.
End LocalObjectTemplate.

(** [clusterv1.ClusterClass]. *)
Module ClusterClass.
Record t := mk {
  Name : string;
  Spec_Infrastructure_Ref : option ObjectReference.t;
  Spec_ControlPlane_Metadata : ObjectMeta.t;
  Spec_ControlPlane_Ref : option ObjectReference.t;
  Spec_ControlPlane_MachineInfrastructure : option LocalObjectTemplate.t }.
End ClusterClass.

(** [clusterv1.MachineDeployment]. *)
Module MachineDeployment.
Record t := mk {
  Kind : string;
  APIVersion : string;
  Name : string;
  Namespace : string;
  Labels : gomap;
  Spec_ClusterName : string;
  Spec_Replicas : option Z;
  Spec_Template_Labels : gomap;
  Spec_Template_Annotations : gomap;
  Spec_Template_Spec_ClusterName : string;
  Spec_Template_Spec_Version : option string;
  Spec_Template_Spec_Bootstrap_ConfigRef : option ObjectReference.t;
  Spec_Template_Spec_InfrastructureRef : ObjectReference.t }.

Definition SetName (v : string) (d : t) : t :=
  mk (Kind d) (APIVersion d) v (Namespace d) (Labels d) (Spec_ClusterName d)
     (Spec_Replicas d) (Spec_Template_Labels d) (Spec_Template_Annotations d)
     (Spec_Template_Spec_ClusterName d) (Spec_Template_Spec_Version d)
     (Spec_Template_Spec_Bootstrap_ConfigRef d)
     (Spec_Template_Spec_InfrastructureRef d).
Definition SetLabels (v : gomap) (d : t) : t :=
  mk (Kind d) (APIVersion d) (Name d) (Namespace d) v (Spec_ClusterName d)
     (Spec_Replicas d) (Spec_Template_Labels d) (Spec_Template_Annotations d)
     (Spec_Template_Spec_ClusterName d) (Spec_Template_Spec_Version d)
     (Spec_Template_Spec_Bootstrap_ConfigRef d)
     (Spec_Template_Spec_InfrastructureRef d).
Definition SetTemplateLabels (v : gomap) (d : t) : t :=
  mk (Kind d) (APIVersion d) (Name d) (Namespace d) (Labels d) (Spec_ClusterName d)
     (Spec_Replicas d) v (Spec_Template_Annotations d)
     (Spec_Template_Spec_ClusterName d) (Spec_Template_Spec_Version d)
     (Spec_Template_Spec_Bootstrap_ConfigRef d)
     (Spec_Template_Spec_InfrastructureRef d).
Definition SetReplicas (v : option Z) (d : t) : t :=
  mk (Kind d) (APIVersion d) (Name d) (Namespace d) (Labels d) (Spec_ClusterName d)
     v (Spec_Template_Labels d) (Spec_Template_Annotations d)
     (Spec_Template_Spec_ClusterName d) (Spec_Template_Spec_Version d)
     (Spec_Template_Spec_Bootstrap_ConfigRef d)
     (Spec_Template_Spec_InfrastructureRef d).
End MachineDeployment.

(** ** The scope of a reconcile pass (package [scope]) *)

Module MachineDeploymentBlueprint.
Record t := mk {
  Metadata : ObjectMeta.t;
  BootstrapTemplate : Unstructured.t;
  InfrastructureMachineTemplate : Unstructured.t }.
End MachineDeploymentBlueprint.

Module ClusterBlueprint.
Record t := mk {
  Topology : Topology.t;
  ClusterClass : ClusterClass.t;
  InfrastructureClusterTemplate : Unstructured.t;
  ControlPlane_Template : Unstructured.t;
  ControlPlane_InfrastructureMachineTemplate : option Unstructured.t;
  MachineDeployments : gmap string MachineDeploymentBlueprint.t }.
End ClusterBlueprint.

Module ControlPlaneState.
Record t := mk {
  Object : option Unstructured.t;
  InfrastructureMachineTemplate : option Unstructured.t }.

Definition SetObject (v : option Unstructured.t) (c : t) : t :=
  mk v (InfrastructureMachineTemplate c).
Definition SetInfrastructureMachineTemplate (v : option Unstructured.t) (c : t) : t :=
  mk (Object c) v.
End ControlPlaneState.

Module MachineDeploymentState.
Record t := mk {
  Object : option MachineDeployment.t;
  BootstrapTemplate : option Unstructured.t;
  InfrastructureMachineTemplate : option Unstructured.t }.

Definition SetObject (v : option MachineDeployment.t) (c : t) : t :=
  mk v (BootstrapTemplate c) (InfrastructureMachineTemplate c).
Definition SetBootstrapTemplate (v : option Unstructured.t) (c : t) : t :=
  mk (Object c) v (InfrastructureMachineTemplate c).
Definition SetInfrastructureMachineTemplate (v : option Unstructured.t) (c : t) : t :=
  mk (Object c) (BootstrapTemplate c) v.
End MachineDeploymentState.

(** [scope.ClusterState], the type of both the current and the desired
    state; the values of [MachineDeployments] are pointers. *)
Module ClusterState.
Record t := mk {
  Cluster : option Cluster.t;
  InfrastructureCluster : option Unstructured.t;
  ControlPlane : option ControlPlaneState.t;
  MachineDeployments : option (gmap string (option MachineDeploymentState.t)) }.

Definition SetCluster (v : option Cluster.t) (c : t) : t :=
  mk v (InfrastructureCluster c) (ControlPlane c) (MachineDeployments c).
Definition SetInfrastructureCluster (v : option Unstructured.t) (c : t) : t :=
  mk (Cluster c) v (ControlPlane c) (MachineDeployments c).
Definition SetControlPlane (v : option ControlPlaneState.t) (c : t) : t :=
  mk (Cluster c) (InfrastructureCluster c) v (MachineDeployments c).
Definition SetMachineDeployments
    (v : option (gmap string (option MachineDeploymentState.t))) (c : t) : t :=
  mk (Cluster c) (InfrastructureCluster c) (ControlPlane c) v.
End ClusterState.

Module Scope.
Record t := mk {
  Blueprint : ClusterBlueprint.t;
  Current : ClusterState.t }.
End Scope.

(** [external.GenerateTemplateInput] (the owner reference is never set by the
    source). *)
Module GenerateTemplateInput.
Record t := mk {
  Template : option Unstructured.t;
  TemplateRef : option ObjectReference.t;
  Namespace : string;
  Labels : gomap;
  ClusterName : string }.
End GenerateTemplateInput.

(** The source's [templateToInput]. *)
Module templateToInput.
Record t := mk {
  template : option Unstructured.t;
  templateClonedFromRef : option ObjectReference.t;
  cluster : option Cluster.t;
  namePrefix : string;
  currentObjectRef : option ObjectReference.t }.
End templateToInput.

(** ** Collaborators outside the source file *)

(** What the source imports and this development does not define: the random
    name generator ([names.SimpleNameGenerator], with the state [Rand] of its
    random source), the template generator ([external.GenerateTemplate], which
    draws a name itself), the label and annotation keys and the group/version
    of package [clusterv1], and the name prefixes defined next to the source. *)
Class Collaborators := {
  Rand : Type;
  GenerateName : string → Rand → string * Rand;
  GenerateTemplate :
    GenerateTemplateInput.t → Rand → (Unstructured.t + error) * Rand;
  ClusterLabelName : string;
  ClusterTopologyOwnedLabel : string;
  ClusterTopologyMachineDeploymentLabelName : string;
  TemplateClonedFromNameAnnotation : string;
  TemplateClonedFromGroupKindAnnotation : string;
  GroupVersion_Group : string;
  GroupVersion_Version : string;
  controlPlaneInfrastructureMachineTemplateNamePrefix : string → string;
  bootstrapTemplateNamePrefix : string → string → string;
  infrastructureMachineTemplateNamePrefix : string → string → string }.

(** ** Group and kind of a reference (k8s.io/apimachinery) *)

Module schema.
(** [strings.Count(s, "/")]. *)
Fixpoint countSlash (s : string) : nat :=
  match s with
  | EmptyString => O
  | String c rest =>
      if Ascii.eqb c "/"%char then S (countSlash rest) else countSlash rest
  end.

(** [s[:strings.Index(s, "/")]]. *)
Fixpoint beforeSlash (s : string) : string :=
  match s with
  | EmptyString => EmptyString
  | String c rest =>
      if Ascii.eqb c "/"%char then EmptyString else String c (beforeSlash rest)
  end.

(** The group of [schema.ParseGroupVersion]; a string that does not parse
    leaves the group empty ([schema.FromAPIVersionAndKind]). *)
Definition group (apiVersion : string) : string :=
  match countSlash apiVersion with
  | 1%nat => beforeSlash apiVersion
  | _ => ""
  end.

(** [GroupKind.String]. *)
Definition GroupKind_String (g k : string) : string :=
  if nonempty g then k +:+ "." +:+ g else k.

(** [GroupVersion.String]. *)
Definition GroupVersion_String (g v : string) : string :=
  if nonempty g then g +:+ "/" +:+ v else v.

(** [ref.GroupVersionKind().GroupKind().String()]. *)
Definition refGroupKind (ref : ObjectReference.t) : string :=
  GroupKind_String (group (ObjectReference.APIVersion ref)) (ObjectReference.Kind ref).
End schema.

(** ** Typed accessors of package [contract] *)

Module contract.
(** The typed field accessors of package [contract] are not part of the
    source file; they are modelled from the specification: an accessor gets
    or sets one well-known field path of the dynamic content of an object,
    and fails when the object does not expose the path, that is when a field
    on the way exists and is not a map. The paths are the ones the source
    names in its error messages. *)

(** Modelled from the spec: reading the field at a path of nested maps. *)
Fixpoint NestedField (fields : list string) (m : gmap string value) : option value :=
  match fields with
  | [] => None
  | f :: rest =>
      match rest with
      | [] => m !! f
      | _ => match m !! f with
             | Some (VMap sub) => NestedField rest sub
             | _ => None
             end
      end
  end.

(** Modelled from the spec: writing the field at a path of nested maps,
    creating the maps that are missing on the way; [None] when a field on the
    way is not a map. *)
Fixpoint SetNestedField (fields : list string) (v : value) (m : gmap string value)
    : option (gmap string value) :=
  match fields with
  | [] => None
  | f :: rest =>
      match rest with
      | [] => Some (<[f := v]> m)
      | _ => match m !! f with
             | None =>
                 match SetNestedField rest v ∅ with
                 | Some sub' => Some (<[f := VMap sub']> m)
                 | None => None
                 end
             | Some (VMap sub) =>
                 match SetNestedField rest v sub with
                 | Some sub' => Some (<[f := VMap sub']> m)
                 | None => None
                 end
             | Some _ => None
             end
      end
  end.

(** The field paths of the control-plane contract. *)
Definition replicasPath : list string := ["spec"; "replicas"].
Definition versionPath : list string := ["spec"; "version"].
Definition infrastructureRefPath : list string :=
  ["spec"; "machineTemplate"; "infrastructureRef"].
Definition metadataPath : list string := ["spec"; "machineTemplate"; "metadata"].

(** Modelled from the spec: setting a path of an object; the object after
    the call and the error. *)
Definition setPath (fields : list string) (path : string) (v : value)
    (obj : Unstructured.t) : Unstructured.t * option error :=
  match SetNestedField fields v (Unstructured.content obj) with
  | Some c => (Unstructured.SetContent c obj, None)
  | None => (obj, Some (Errorf ("failed to set " +:+ path)))
  end.

(** A string map as a dynamic value. *)
Definition stringMap (m : gomap) : value :=
  match m with
  | Some m => VMap (VString <$> m)
  | None => VNull
  end.

(** A reference as a dynamic value. *)
Definition refValue (ref : ObjectReference.t) : value :=
  VMap (<["apiVersion" := VString (ObjectReference.APIVersion ref)]>
       (<["kind" := VString (ObjectReference.Kind ref)]>
       (<["name" := VString (ObjectReference.Name ref)]>
       (<["namespace" := VString (ObjectReference.Namespace ref)]> ∅)))).

(** Modelled from the spec: [contract.ObjToRef], the reference constructor
    (group/version, kind, name, namespace of the object). *)
Definition ObjToRef (obj : Unstructured.t) : ObjectReference.t :=
  ObjectReference.mk (Unstructured.GetKind obj) (Unstructured.GetNamespace obj)
    (Unstructured.GetName obj) (Unstructured.GetAPIVersion obj).

(** Modelled from the spec: [contract.ControlPlane().Replicas().Set]. *)
Definition Replicas_Set (obj : Unstructured.t) (n : Z) :=
  setPath replicasPath "spec.replicas" (VInt n) obj.

(** Modelled from the spec: [contract.ControlPlane().Version().Set]. *)
Definition Version_Set (obj : Unstructured.t) (v : string) :=
  setPath versionPath "spec.version" (VString v) obj.

(** Modelled from the spec:
    [contract.ControlPlane().MachineTemplate().InfrastructureRef().Set]. *)
Definition InfrastructureRef_Set (obj ref : Unstructured.t) :=
  setPath infrastructureRefPath "spec.machineTemplate.infrastructureRef"
    (refValue (ObjToRef ref)) obj.

(** Modelled from the spec:
    [contract.ControlPlane().MachineTemplate().Metadata().Set]. *)
Definition Metadata_Set (obj : Unstructured.t) (meta : ObjectMeta.t) :=
  setPath metadataPath "spec.machineTemplate.metadata"
    (VMap (<["labels" := stringMap (ObjectMeta.Labels meta)]>
          (<["annotations" := stringMap (ObjectMeta.Annotations meta)]> ∅))) obj.

(** A field of a map that holds a string. *)
Definition stringField (f : string) (m : gmap string value) : option string :=
  match m !! f with
  | Some (VString s) => Some s
  | _ => None
  end.

(** Modelled from the spec:
    [contract.ControlPlane().MachineTemplate().InfrastructureRef().Get]; it
    fails when the object holds no complete reference at the path. *)
Definition InfrastructureRef_Get (obj : Unstructured.t)
    : option ObjectReference.t * option error :=
  match NestedField infrastructureRefPath (Unstructured.content obj) with
  | Some (VMap m) =>
      match stringField "kind" m, stringField "namespace" m,
            stringField "name" m, stringField "apiVersion" m with
      | Some k, Some ns, Some n, Some av =>
          (Some (ObjectReference.mk k ns n av), None)
      | _, _, _, _ =>
          (None, Some (Errorf "failed to get spec.machineTemplate.infrastructureRef"))
      end
  | _ => (None, Some (Errorf "failed to get spec.machineTemplate.infrastructureRef"))
  end.
End contract.

(** ** Predicates of the blueprint (package [scope]) *)

(** Modelled from the spec: [HasControlPlaneInfrastructureMachine], defined
    in package [scope]: the cluster class mandates infrastructure machines for
    the control plane, that is it carries a machine-infrastructure template
    reference. *)
Definition HasControlPlaneInfrastructureMachine (b : ClusterBlueprint.t) : bool :=
  match ClusterClass.Spec_ControlPlane_MachineInfrastructure (ClusterBlueprint.ClusterClass b) with
  | Some mi => bool_decide (is_Some (LocalObjectTemplate.Ref mi))
  | None => false
  end.

(** Modelled from the spec: [HasMachineDeployments], defined in package
    [scope]: the topology declares worker machine deployments, if any. *)
Definition HasMachineDeployments (b : ClusterBlueprint.t) : bool :=
  match Topology.Workers (ClusterBlueprint.Topology b) with
  | Some mds => Nat.ltb 0 (length mds)
  | None => false
  end.

(** ** The execution monad *)

(** A call either returns or panics. *)
Inductive exec (A : Type) : Type :=
  | Returns (a : A)
  | Panics.
Arguments Returns {A} a.
Arguments Panics {A}.

Section Monad.
Context {C : Collaborators}.

Definition M (A : Type) : Type := Rand → exec (A * Rand).

Definition ret {A} (a : A) : M A := λ r, Returns (a, r).

Definition bind {A B} (k : A → M B) (m : M A) : M B :=
  λ r, match m r with
       | Returns (a, r') => k a r'
       | Panics => Panics
       end.

(** [x ← m; k] is stdpp's notation for [bind (λ x, k) m]. *)
#[global] Instance M_ret : MRet M := @ret.
#[global] Instance M_bind : MBind M := @bind.

Definition panic {A} : M A := λ _, Panics.

(** Dereferencing a pointer. *)
Definition deref {A} (p : option A) : M A :=
  match p with
  | Some a => ret a
  | None => panic
  end.

(** [m[k] = v]. *)
Definition mapassign (m : gomap) (k v : string) : M gomap :=
  match m with
  | Some m => ret (Some (<[k := v]> m))
  | None => panic
  end.

(** [names.SimpleNameGenerator.GenerateName]. *)
Definition names_GenerateName (base : string) : M string :=
  λ r, Returns (GenerateName base r).

(** [external.GenerateTemplate]. *)
Definition external_GenerateTemplate (i : GenerateTemplateInput.t)
    : M (Unstructured.t + error) :=
  λ r, Returns (GenerateTemplate i r).
End Monad.

(** The outcome of a block of statements inside a function body: control
    falls through to the next statement with the updated locals, or the
    function returns. *)
Inductive flow (A R : Type) : Type :=
  | Next (a : A)
  | Return (r : R).
Arguments Next {A R} a.
Arguments Return {A R} r.

(** ** The source file *)

Section Topology.
Context {C : Collaborators}.

(** [for k, v := range src { m[k] = v }] on a map [m] that is not nil. *)
Definition rangeAssign (src : gomap) (m : gmap string string) : gmap string string :=
  match src with
  | Some src => map_fold (λ k v acc, <[k := v]> acc) m src
  | None => m
  end.

Definition mergeMap (a b : gomap) : gomap :=
  let m : gmap string string := ∅ in
  let m := rangeAssign b m in
  let m := rangeAssign a m in
  Some m.

(** The name rule shared by the two cloners: the generated name, overridden
    by the name of the current reference when there is one. *)
Definition reuseName (currentObjectRef : option ObjectReference.t)
    (object : Unstructured.t) : Unstructured.t :=
  match currentObjectRef with
  | Some ref =>
      if nonempty (ObjectReference.Name ref)
      then Unstructured.SetName (ObjectReference.Name ref) object
      else object
  | None => object
  end.

Definition templateToObject (i : templateToInput.t)
    : M (option Unstructured.t * option error) :=
  cluster ← deref (templateToInput.cluster i);
  let labels : gomap := Some ∅ in
  labels ← mapassign labels ClusterLabelName (Cluster.Name cluster);
  labels ← mapassign labels ClusterTopologyOwnedLabel "";
  gen ← external_GenerateTemplate
    {| GenerateTemplateInput.Template := templateToInput.template i;
       GenerateTemplateInput.TemplateRef := templateToInput.templateClonedFromRef i;
       GenerateTemplateInput.Namespace := Cluster.Namespace cluster;
       GenerateTemplateInput.Labels := labels;
       GenerateTemplateInput.ClusterName := Cluster.Name cluster |};
  match gen with
  | inr err => mret (None, Some err)
  | inl object =>
      name ← names_GenerateName (templateToInput.namePrefix i);
      let object := Unstructured.SetName name object in
      let object := reuseName (templateToInput.currentObjectRef i) object in
      mret (Some object, None)
  end.

Definition templateToTemplate (i : templateToInput.t) : M Unstructured.t :=
  source ← deref (templateToInput.template i);
  let template := source in
  let template := Unstructured.SetResourceVersion "" template in
  let template := Unstructured.SetFinalizers [] template in
  let template := Unstructured.SetUID "" template in
  let template := Unstructured.SetSelfLink "" template in
  let labels := Unstructured.GetLabels template in
  let labels := match labels with None => Some ∅ | Some _ => labels end in
  cluster ← deref (templateToInput.cluster i);
  labels ← mapassign labels ClusterLabelName (Cluster.Name cluster);
  labels ← mapassign labels ClusterTopologyOwnedLabel "";
  let template := Unstructured.SetLabels labels template in
  let annotations := Unstructured.GetAnnotations template in
  let annotations := match annotations with None => Some ∅ | Some _ => annotations end in
  ref ← deref (templateToInput.templateClonedFromRef i);
  annotations ← mapassign annotations TemplateClonedFromNameAnnotation
    (ObjectReference.Name ref);
  annotations ← mapassign annotations TemplateClonedFromGroupKindAnnotation
    (schema.refGroupKind ref);
  let template := Unstructured.SetAnnotations annotations template in
  name ← names_GenerateName (templateToInput.namePrefix i);
  let template := Unstructured.SetName name template in
  let template := reuseName (templateToInput.currentObjectRef i) template in
  mret template.

Definition computeInfrastructureCluster (s : Scope.t)
    : M (option Unstructured.t * option error) :=
  let template := ClusterBlueprint.InfrastructureClusterTemplate (Scope.Blueprint s) in
  let templateClonedFromref :=
    ClusterClass.Spec_Infrastructure_Ref (ClusterBlueprint.ClusterClass (Scope.Blueprint s)) in
  let cluster := ClusterState.Cluster (Scope.Current s) in
  c ← deref cluster;
  let currentRef := Cluster.Spec_InfrastructureRef c in
  '(infrastructureCluster, err) ← templateToObject
    {| templateToInput.template := Some template;
       templateToInput.templateClonedFromRef := templateClonedFromref;
       templateToInput.cluster := cluster;
       templateToInput.namePrefix := Cluster.Name c +:+ "-";
       templateToInput.currentObjectRef := currentRef |};
  match err with
  | Some err =>
      mret (None, Some (Wrap err
        ("failed to generate the InfrastructureCluster object from the "
           +:+ Unstructured.GetKind template)))
  | None => mret (infrastructureCluster, None)
  end.

Definition computeControlPlaneInfrastructureMachineTemplate (s : Scope.t)
    : M (option Unstructured.t * option error) :=
  let template :=
    ClusterBlueprint.ControlPlane_InfrastructureMachineTemplate (Scope.Blueprint s) in
  machineInfrastructure ← deref (ClusterClass.Spec_ControlPlane_MachineInfrastructure
    (ClusterBlueprint.ClusterClass (Scope.Blueprint s)));
  let templateClonedFromRef := LocalObjectTemplate.Ref machineInfrastructure in
  let cluster := ClusterState.Cluster (Scope.Current s) in
  let '(currentRef, err) :=
    match ClusterState.ControlPlane (Scope.Current s) with
    | Some currentControlPlane =>
        match ControlPlaneState.Object currentControlPlane with
        | Some object => contract.InfrastructureRef_Get object
        | None => (None, None)
        end
    | None => (None, None)
    end in
  match err with
  | Some err =>
      mret (None, Some (Wrap err
        "failed to get spec.machineTemplate.infrastructureRef for the current ControlPlane object"))
  | None =>
      c ← deref cluster;
      controlPlaneInfrastructureMachineTemplate ← templateToTemplate
        {| templateToInput.template := template;
           templateToInput.templateClonedFromRef := templateClonedFromRef;
           templateToInput.cluster := cluster;
           templateToInput.namePrefix :=
             controlPlaneInfrastructureMachineTemplateNamePrefix (Cluster.Name c);
           templateToInput.currentObjectRef := currentRef |};
      mret (Some controlPlaneInfrastructureMachineTemplate, None)
  end.

Definition computeControlPlane (s : Scope.t)
    (infrastructureMachineTemplate : option Unstructured.t)
    : M (option Unstructured.t * option error) :=
  let template := ClusterBlueprint.ControlPlane_Template (Scope.Blueprint s) in
  let templateClonedFromRef :=
    ClusterClass.Spec_ControlPlane_Ref (ClusterBlueprint.ClusterClass (Scope.Blueprint s)) in
  let cluster := ClusterState.Cluster (Scope.Current s) in
  c ← deref cluster;
  let currentRef := Cluster.Spec_ControlPlaneRef c in
  '(controlPlane, err) ← templateToObject
    {| templateToInput.template := Some template;
       templateToInput.templateClonedFromRef := templateClonedFromRef;
       templateToInput.cluster := cluster;
       templateToInput.namePrefix := Cluster.Name c +:+ "-";
       templateToInput.currentObjectRef := currentRef |};
  match err with
  | Some err =>
      mret (None, Some (Wrap err
        ("failed to generate the ControlPlane object from the "
           +:+ Unstructured.GetKind template)))
  | None =>
  controlPlane ← deref controlPlane;
  (* if s.Blueprint.HasControlPlaneInfrastructureMachine() { ... } *)
  block ←
    (if HasControlPlaneInfrastructureMachine (Scope.Blueprint s) then
       infrastructureMachineTemplate ← deref infrastructureMachineTemplate;
       let '(controlPlane, err) :=
         contract.InfrastructureRef_Set controlPlane infrastructureMachineTemplate in
       match err with
       | Some err =>
           mret (Return (None, Some (Wrap err
             "failed to spec.machineTemplate.infrastructureRef in the ControlPlane object")))
       | None =>
           let topologyMetadata :=
             Topology.ControlPlane_Metadata (ClusterBlueprint.Topology (Scope.Blueprint s)) in
           let clusterClassMetadata :=
             ClusterClass.Spec_ControlPlane_Metadata
               (ClusterBlueprint.ClusterClass (Scope.Blueprint s)) in
           let machineLabels :=
             mergeMap (ObjectMeta.Labels topologyMetadata)
                      (ObjectMeta.Labels clusterClassMetadata) in
           machineLabels ← mapassign machineLabels ClusterLabelName (Cluster.Name c);
           machineLabels ← mapassign machineLabels ClusterTopologyOwnedLabel "";
           let '(controlPlane, err) :=
             contract.Metadata_Set controlPlane
               {| ObjectMeta.Labels := machineLabels;
                  ObjectMeta.Annotations :=
                    mergeMap (ObjectMeta.Annotations topologyMetadata)
                             (ObjectMeta.Annotations clusterClassMetadata) |} in
           match err with
           | Some err =>
               mret (Return (None, Some (Wrap err
                 "failed to spec.machineTemplate.metadata in the ControlPlane object")))
           | None => mret (Next controlPlane)
           end
       end
     else mret (Next controlPlane));
  match block with
  | Return r => mret r
  | Next controlPlane =>
  (* if s.Blueprint.Topology.ControlPlane.Replicas != nil { ... } *)
  let block :=
    match Topology.ControlPlane_Replicas (ClusterBlueprint.Topology (Scope.Blueprint s)) with
    | Some replicas =>
        let '(controlPlane, err) := contract.Replicas_Set controlPlane replicas in
        match err with
        | Some err =>
            Return (None, Some (Wrap err
              "failed to set spec.replicas in the ControlPlane object"))
        | None => Next controlPlane
        end
    | None => Next controlPlane
    end in
  match block with
  | Return r => mret r
  | Next controlPlane =>
  let '(controlPlane, err) :=
    contract.Version_Set controlPlane
      (Topology.Version (ClusterBlueprint.Topology (Scope.Blueprint s))) in
  match err with
  | Some err =>
      mret (None, Some (Wrap err "failed to set spec.version in the ControlPlane object"))
  | None => mret (Some controlPlane, None)
  end
  end
  end
  end.

Definition computeCluster (s : Scope.t)
    (infrastructureCluster controlPlane : option Unstructured.t) : M Cluster.t :=
  (* s.Current.Cluster.DeepCopy() *)
  cluster ← deref (ClusterState.Cluster (Scope.Current s));
  let cluster :=
    match Cluster.Labels cluster with
    | None => Cluster.SetLabels (Some ∅) cluster
    | Some _ => cluster
    end in
  labels ← mapassign (Cluster.Labels cluster) ClusterLabelName (Cluster.Name cluster);
  let cluster := Cluster.SetLabels labels cluster in
  labels ← mapassign (Cluster.Labels cluster) ClusterTopologyOwnedLabel "";
  let cluster := Cluster.SetLabels labels cluster in
  infrastructureCluster ← deref infrastructureCluster;
  let cluster :=
    Cluster.SetInfrastructureRef (Some (contract.ObjToRef infrastructureCluster)) cluster in
  controlPlane ← deref controlPlane;
  let cluster :=
    Cluster.SetControlPlaneRef (Some (contract.ObjToRef controlPlane)) cluster in
  mret cluster.

(** [s.Current.MachineDeployments[name]]: [nil] when the map is nil or has
    no such key. *)
Definition currentMachineDeploymentOf (s : Scope.t) (name : string)
    : option MachineDeploymentState.t :=
  match ClusterState.MachineDeployments (Scope.Current s) with
  | Some m => default None (m !! name)
  | None => None
  end.

Definition computeMachineDeployment (s : Scope.t)
    (machineDeploymentTopology : MachineDeploymentTopology.t)
    : M (option MachineDeploymentState.t * option error) :=
  let desiredMachineDeployment := MachineDeploymentState.mk None None None in
  let className := MachineDeploymentTopology.Class machineDeploymentTopology in
  match ClusterBlueprint.MachineDeployments (Scope.Blueprint s) !! className with
  | None =>
      mret (None, Some (Errorf
        ("MachineDeployment blueprint " +:+ className +:+ " not found in ClusterClass "
           +:+ ClusterClass.Name (ClusterBlueprint.ClusterClass (Scope.Blueprint s)))))
  | Some machineDeploymentBlueprint =>
  let mdName := MachineDeploymentTopology.Name machineDeploymentTopology in
  (* the bootstrap template *)
  let currentMachineDeployment := currentMachineDeploymentOf s mdName in
  currentBootstrapTemplateRef ←
    match currentMachineDeployment with
    | Some current =>
        match MachineDeploymentState.BootstrapTemplate current with
        | Some _ =>
            object ← deref (MachineDeploymentState.Object current);
            mret (MachineDeployment.Spec_Template_Spec_Bootstrap_ConfigRef object)
        | None => mret None
        end
    | None => mret None
    end;
  cluster ← deref (ClusterState.Cluster (Scope.Current s));
  bootstrapTemplate ← templateToTemplate
    {| templateToInput.template :=
         Some (MachineDeploymentBlueprint.BootstrapTemplate machineDeploymentBlueprint);
       templateToInput.templateClonedFromRef :=
         Some (contract.ObjToRef
           (MachineDeploymentBlueprint.BootstrapTemplate machineDeploymentBlueprint));
       templateToInput.cluster := ClusterState.Cluster (Scope.Current s);
       templateToInput.namePrefix := bootstrapTemplateNamePrefix (Cluster.Name cluster) mdName;
       templateToInput.currentObjectRef := currentBootstrapTemplateRef |};
  let desiredMachineDeployment :=
    MachineDeploymentState.SetBootstrapTemplate (Some bootstrapTemplate)
      desiredMachineDeployment in
  bootstrapTemplate ← deref (MachineDeploymentState.BootstrapTemplate desiredMachineDeployment);
  let bootstrapTemplateLabels := Unstructured.GetLabels bootstrapTemplate in
  let bootstrapTemplateLabels :=
    match bootstrapTemplateLabels with
    | None => Some ∅
    | Some _ => bootstrapTemplateLabels
    end in
  bootstrapTemplateLabels ← mapassign bootstrapTemplateLabels
    ClusterTopologyMachineDeploymentLabelName mdName;
  let desiredMachineDeployment :=
    MachineDeploymentState.SetBootstrapTemplate
      (Some (Unstructured.SetLabels bootstrapTemplateLabels bootstrapTemplate))
      desiredMachineDeployment in
  (* the infrastructure machine template *)
  currentInfraMachineTemplateRef ←
    match currentMachineDeployment with
    | Some current =>
        match MachineDeploymentState.InfrastructureMachineTemplate current with
        | Some _ =>
            object ← deref (MachineDeploymentState.Object current);
            mret (Some (MachineDeployment.Spec_Template_Spec_InfrastructureRef object))
        | None => mret None
        end
    | None => mret None
    end;
  infraMachineTemplate ← templateToTemplate
    {| templateToInput.template :=
         Some (MachineDeploymentBlueprint.InfrastructureMachineTemplate
                 machineDeploymentBlueprint);
       templateToInput.templateClonedFromRef :=
         Some (contract.ObjToRef
           (MachineDeploymentBlueprint.InfrastructureMachineTemplate
              machineDeploymentBlueprint));
       templateToInput.cluster := ClusterState.Cluster (Scope.Current s);
       templateToInput.namePrefix :=
         infrastructureMachineTemplateNamePrefix (Cluster.Name cluster) mdName;
       templateToInput.currentObjectRef := currentInfraMachineTemplateRef |};
  let desiredMachineDeployment :=
    MachineDeploymentState.SetInfrastructureMachineTemplate (Some infraMachineTemplate)
      desiredMachineDeployment in
  infraMachineTemplate ←
    deref (MachineDeploymentState.InfrastructureMachineTemplate desiredMachineDeployment);
  let infraMachineTemplateLabels := Unstructured.GetLabels infraMachineTemplate in
  let infraMachineTemplateLabels :=
    match infraMachineTemplateLabels with
    | None => Some ∅
    | Some _ => infraMachineTemplateLabels
    end in
  infraMachineTemplateLabels ← mapassign infraMachineTemplateLabels
    ClusterTopologyMachineDeploymentLabelName mdName;
  let desiredMachineDeployment :=
    MachineDeploymentState.SetInfrastructureMachineTemplate
      (Some (Unstructured.SetLabels infraMachineTemplateLabels infraMachineTemplate))
      desiredMachineDeployment in
  (* the MachineDeployment object *)
  name ← names_GenerateName (Cluster.Name cluster +:+ "-" +:+ mdName +:+ "-");
  bootstrapTemplate ← deref (MachineDeploymentState.BootstrapTemplate desiredMachineDeployment);
  infraMachineTemplate ←
    deref (MachineDeploymentState.InfrastructureMachineTemplate desiredMachineDeployment);
  let desiredMachineDeploymentObj :=
    {| MachineDeployment.Kind := "MachineDeployment";
       MachineDeployment.APIVersion :=
         schema.GroupVersion_String GroupVersion_Group GroupVersion_Version;
       MachineDeployment.Name := name;
       MachineDeployment.Namespace := Cluster.Namespace cluster;
       MachineDeployment.Labels := None;
       MachineDeployment.Spec_ClusterName := Cluster.Name cluster;
       MachineDeployment.Spec_Replicas := None;
       MachineDeployment.Spec_Template_Labels :=
         mergeMap
           (ObjectMeta.Labels (MachineDeploymentTopology.Metadata machineDeploymentTopology))
           (ObjectMeta.Labels (MachineDeploymentBlueprint.Metadata machineDeploymentBlueprint));
       MachineDeployment.Spec_Template_Annotations :=
         mergeMap
           (ObjectMeta.Annotations
              (MachineDeploymentTopology.Metadata machineDeploymentTopology))
           (ObjectMeta.Annotations
              (MachineDeploymentBlueprint.Metadata machineDeploymentBlueprint));
       MachineDeployment.Spec_Template_Spec_ClusterName := Cluster.Name cluster;
       MachineDeployment.Spec_Template_Spec_Version :=
         Some (Topology.Version (ClusterBlueprint.Topology (Scope.Blueprint s)));
       MachineDeployment.Spec_Template_Spec_Bootstrap_ConfigRef :=
         Some (contract.ObjToRef bootstrapTemplate);
       MachineDeployment.Spec_Template_Spec_InfrastructureRef :=
         contract.ObjToRef infraMachineTemplate |} in
  let desiredMachineDeploymentObj :=
    match currentMachineDeployment with
    | Some current =>
        match MachineDeploymentState.Object current with
        | Some object =>
            MachineDeployment.SetName (MachineDeployment.Name object)
              desiredMachineDeploymentObj
        | None => desiredMachineDeploymentObj
        end
    | None => desiredMachineDeploymentObj
    end in
  let labels : gomap := Some ∅ in
  labels ← mapassign labels ClusterLabelName (Cluster.Name cluster);
  labels ← mapassign labels ClusterTopologyOwnedLabel "";
  labels ← mapassign labels ClusterTopologyMachineDeploymentLabelName mdName;
  let desiredMachineDeploymentObj :=
    MachineDeployment.SetLabels labels desiredMachineDeploymentObj in
  templateLabels ← mapassign
    (MachineDeployment.Spec_Template_Labels desiredMachineDeploymentObj)
    ClusterLabelName (Cluster.Name cluster);
  templateLabels ← mapassign templateLabels ClusterTopologyOwnedLabel "";
  templateLabels ← mapassign templateLabels
    ClusterTopologyMachineDeploymentLabelName mdName;
  let desiredMachineDeploymentObj :=
    MachineDeployment.SetTemplateLabels templateLabels desiredMachineDeploymentObj in
  let desiredMachineDeploymentObj :=
    MachineDeployment.SetReplicas
      (MachineDeploymentTopology.Replicas machineDeploymentTopology)
      desiredMachineDeploymentObj in
  let desiredMachineDeployment :=
    MachineDeploymentState.SetObject (Some desiredMachineDeploymentObj)
      desiredMachineDeployment in
  mret (Some desiredMachineDeployment, None)
  end.

(** The [for ... range] loop of [computeDesiredState] over the machine
    deployments that are still to compute. *)
Fixpoint computeDesiredState_range (s : Scope.t)
    (machineDeployments : list MachineDeploymentTopology.t)
    (desiredState : ClusterState.t) : M (option ClusterState.t * option error) :=
  match machineDeployments with
  | [] => mret (Some desiredState, None)
  | mdTopology :: rest =>
      '(desiredMachineDeployment, err) ← computeMachineDeployment s mdTopology;
      match err with
      | Some err => mret (None, Some err)
      | None =>
          m ← deref (ClusterState.MachineDeployments desiredState);
          let desiredState :=
            ClusterState.SetMachineDeployments
              (Some (<[MachineDeploymentTopology.Name mdTopology := desiredMachineDeployment]> m))
              desiredState in
          computeDesiredState_range s rest desiredState
      end
  end.

Definition computeDesiredState (s : Scope.t)
    : M (option ClusterState.t * option error) :=
  let desiredState :=
    {| ClusterState.Cluster := None;
       ClusterState.InfrastructureCluster := None;
       ClusterState.ControlPlane := Some (ControlPlaneState.mk None None);
       ClusterState.MachineDeployments := None |} in
  '(infrastructureCluster, err) ← computeInfrastructureCluster s;
  let desiredState :=
    ClusterState.SetInfrastructureCluster infrastructureCluster desiredState in
  match err with
  | Some err => mret (None, Some err)
  | None =>
  (* if s.Blueprint.HasControlPlaneInfrastructureMachine() { ... } *)
  block ←
    (if HasControlPlaneInfrastructureMachine (Scope.Blueprint s) then
       '(template, err) ← computeControlPlaneInfrastructureMachineTemplate s;
       controlPlaneState ← deref (ClusterState.ControlPlane desiredState);
       let desiredState :=
         ClusterState.SetControlPlane
           (Some (ControlPlaneState.SetInfrastructureMachineTemplate template
                    controlPlaneState)) desiredState in
       match err with
       | Some err => mret (Return (None, Some err))
       | None => mret (Next desiredState)
       end
     else mret (Next desiredState));
  match block with
  | Return r => mret r
  | Next desiredState =>
  controlPlaneState ← deref (ClusterState.ControlPlane desiredState);
  '(object, err) ← computeControlPlane s
    (ControlPlaneState.InfrastructureMachineTemplate controlPlaneState);
  let desiredState :=
    ClusterState.SetControlPlane
      (Some (ControlPlaneState.SetObject object controlPlaneState)) desiredState in
  match err with
  | Some err => mret (None, Some err)
  | None =>
  controlPlaneState ← deref (ClusterState.ControlPlane desiredState);
  cluster ← computeCluster s (ClusterState.InfrastructureCluster desiredState)
    (ControlPlaneState.Object controlPlaneState);
  let desiredState := ClusterState.SetCluster (Some cluster) desiredState in
  if negb (HasMachineDeployments (Scope.Blueprint s))
  then mret (Some desiredState, None)
  else
    let desiredState := ClusterState.SetMachineDeployments (Some ∅) desiredState in
    workers ← deref (Topology.Workers (ClusterBlueprint.Topology (Scope.Blueprint s)));
    computeDesiredState_range s workers desiredState
  end
  end
  end.
End Topology.

(** ** The template cloner on a store of objects

    [templateToTemplate] receives its template by pointer and returns a
    pointer. To state that the source template is left alone, the same body
    is written here over a store that maps addresses to objects: [in_template]
    is the address held by [in.template], the other fields of the input are
    those of [i]. *)

(** The store: the objects by address. *)
Abbreviation store := (gmap positive Unstructured.t).

Section Store.
Context {C : Collaborators}.

(** Reading through a pointer. *)
Definition load (p : positive) (h : store) : M Unstructured.t := deref (h !! p).

(** A setter method called on a pointer. *)
Definition update (p : positive) (f : Unstructured.t → Unstructured.t) (h : store)
    : M store :=
  match h !! p with
  | Some u => mret (<[p := f u]> h)
  | None => panic
  end.

Definition templateToTemplate_store (in_template : option positive)
    (i : templateToInput.t) (h : store) : M (positive * store) :=
  (* template := &unstructured.Unstructured{} *)
  let template := fresh (dom h) in
  let h := <[template := Unstructured.empty]> h in
  (* in.template.DeepCopyInto(template) *)
  p ← deref in_template;
  source ← load p h;
  let h := <[template := source]> h in
  h ← update template (Unstructured.SetResourceVersion "") h;
  h ← update template (Unstructured.SetFinalizers []) h;
  h ← update template (Unstructured.SetUID "") h;
  h ← update template (Unstructured.SetSelfLink "") h;
  t ← load template h;
  let labels := Unstructured.GetLabels t in
  let labels := match labels with None => Some ∅ | Some _ => labels end in
  cluster ← deref (templateToInput.cluster i);
  labels ← mapassign labels ClusterLabelName (Cluster.Name cluster);
  labels ← mapassign labels ClusterTopologyOwnedLabel "";
  h ← update template (Unstructured.SetLabels labels) h;
  t ← load template h;
  let annotations := Unstructured.GetAnnotations t in
  let annotations := match annotations with None => Some ∅ | Some _ => annotations end in
  ref ← deref (templateToInput.templateClonedFromRef i);
  annotations ← mapassign annotations TemplateClonedFromNameAnnotation
    (ObjectReference.Name ref);
  annotations ← mapassign annotations TemplateClonedFromGroupKindAnnotation
    (schema.refGroupKind ref);
  h ← update template (Unstructured.SetAnnotations annotations) h;
  name ← names_GenerateName (templateToInput.namePrefix i);
  h ← update template (Unstructured.SetName name) h;
  h ← update template (reuseName (templateToInput.currentObjectRef i)) h;
  mret (template, h).
End Store.

(** ** Notions used by the properties *)

Section Notions.
Context {C : Collaborators}.

(** A label map carries the cluster-identity label with the name of the
    cluster and the topology-ownership label with the empty value. *)
Definition topologyLabelled (labels : gomap) (clusterName : string) : Prop :=
  mapindex labels ClusterLabelName = Some clusterName
  ∧ mapindex labels ClusterTopologyOwnedLabel = Some "".

(** The three label keys are different strings. *)
Definition labelKeysDistinct : Prop :=
  ClusterLabelName ≠ ClusterTopologyOwnedLabel
  ∧ ClusterLabelName ≠ ClusterTopologyMachineDeploymentLabelName
  ∧ ClusterTopologyOwnedLabel ≠ ClusterTopologyMachineDeploymentLabelName.




(** The second step of a pass: the control-plane infrastructure machine
    template, computed only when the cluster class mandates it. *)
Definition controlPlaneTemplateStep (s : Scope.t)
    : M (option Unstructured.t * option error) :=
  if HasControlPlaneInfrastructureMachine (Scope.Blueprint s)
  then computeControlPlaneInfrastructureMachineTemplate s
  else mret (None, None).

(** The machine deployments of a list are computed one after the other
    without error, from one state of the random source to another. *)
Inductive computedAll (s : Scope.t)
    : list MachineDeploymentTopology.t → Rand → Rand → Prop :=
  | computedAll_nil r : computedAll s [] r r
  | computedAll_cons md mds x r r1 r2 :
      computeMachineDeployment s md r = Returns ((x, None), r1) →
      computedAll s mds r1 r2 →
      computedAll s (md :: mds) r r2.


(** The error of [computeMachineDeployment] for a class that the blueprint
    does not have. *)
Definition blueprintNotFound (s : Scope.t) (className : string) : error :=
  Errorf ("MachineDeployment blueprint " +:+ className +:+ " not found in ClusterClass "
            +:+ ClusterClass.Name (ClusterBlueprint.ClusterClass (Scope.Blueprint s))).

(** The reference of the current bootstrap template of a machine
    deployment, as [computeMachineDeployment] reads it. *)
Definition currentBootstrapTemplateRefOf (s : Scope.t) (name : string)
    : option ObjectReference.t :=
  match currentMachineDeploymentOf s name with
  | Some current =>
      match MachineDeploymentState.BootstrapTemplate current,
            MachineDeploymentState.Object current with
      | Some _, Some object => MachineDeployment.Spec_Template_Spec_Bootstrap_ConfigRef object
      | _, _ => None
      end
  | None => None
  end.

(** The same for the current infrastructure machine template. *)
Definition currentInfraMachineTemplateRefOf (s : Scope.t) (name : string)
    : option ObjectReference.t :=
  match currentMachineDeploymentOf s name with
  | Some current =>
      match MachineDeploymentState.InfrastructureMachineTemplate current,
            MachineDeploymentState.Object current with
      | Some _, Some object =>
          Some (MachineDeployment.Spec_Template_Spec_InfrastructureRef object)
      | _, _ => None
      end
  | None => None
  end.

(** The current MachineDeployment object of a machine deployment. *)
Definition currentObjectOf (s : Scope.t) (name : string) : option MachineDeployment.t :=
  match currentMachineDeploymentOf s name with
  | Some current => MachineDeploymentState.Object current
  | None => None
  end.
End Notions.

(** ** Closed forms of the results *)

Section ClosedForms.
Context {C : Collaborators}.

(** The template that [templateToTemplate] returns, given the objects
    behind the pointers of its input and the generated name. *)
Definition clonedTemplate (i : templateToInput.t) (source : Unstructured.t)
    (cluster : Cluster.t) (ref : ObjectReference.t) (generated : string)
    : Unstructured.t :=
  reuseName (templateToInput.currentObjectRef i)
    {| Unstructured.apiVersion := Unstructured.apiVersion source;
       Unstructured.kind := Unstructured.kind source;
       Unstructured.name := generated;
       Unstructured.namespace := Unstructured.namespace source;
       Unstructured.labels :=
         Some (<[ClusterTopologyOwnedLabel := ""]>
                 (<[ClusterLabelName := Cluster.Name cluster]>
                    (default ∅ (Unstructured.labels source))));
       Unstructured.annotations :=
         Some (<[TemplateClonedFromGroupKindAnnotation := schema.refGroupKind ref]>
                 (<[TemplateClonedFromNameAnnotation := ObjectReference.Name ref]>
                    (default ∅ (Unstructured.annotations source))));
       Unstructured.resourceVersion := "";
       Unstructured.uid := "";
       Unstructured.selfLink := "";
       Unstructured.finalizers := [];
       Unstructured.content := Unstructured.content source |}.

(** A cloned template after [computeMachineDeployment] has added the label
    of the machine deployment. *)
Definition withDeploymentLabel (mdName : string) (t : Unstructured.t) : Unstructured.t :=
  Unstructured.SetLabels
    (Some (<[ClusterTopologyMachineDeploymentLabelName := mdName]>
             (default ∅ (Unstructured.labels t)))) t.

(** The inputs of the two clonings of [computeMachineDeployment]. *)
Definition bootstrapInput (s : Scope.t) (md : MachineDeploymentTopology.t)
    (bp : MachineDeploymentBlueprint.t) (cluster : Cluster.t) : templateToInput.t :=
  {| templateToInput.template := Some (MachineDeploymentBlueprint.BootstrapTemplate bp);
     templateToInput.templateClonedFromRef :=
       Some (contract.ObjToRef (MachineDeploymentBlueprint.BootstrapTemplate bp));
     templateToInput.cluster := ClusterState.Cluster (Scope.Current s);
     templateToInput.namePrefix :=
       bootstrapTemplateNamePrefix (Cluster.Name cluster) (MachineDeploymentTopology.Name md);
     templateToInput.currentObjectRef :=
       currentBootstrapTemplateRefOf s (MachineDeploymentTopology.Name md) |}.

Definition infraMachineInput (s : Scope.t) (md : MachineDeploymentTopology.t)
    (bp : MachineDeploymentBlueprint.t) (cluster : Cluster.t) : templateToInput.t :=
  {| templateToInput.template :=
       Some (MachineDeploymentBlueprint.InfrastructureMachineTemplate bp);
     templateToInput.templateClonedFromRef :=
       Some (contract.ObjToRef (MachineDeploymentBlueprint.InfrastructureMachineTemplate bp));
     templateToInput.cluster := ClusterState.Cluster (Scope.Current s);
     templateToInput.namePrefix :=
       infrastructureMachineTemplateNamePrefix (Cluster.Name cluster)
         (MachineDeploymentTopology.Name md);
     templateToInput.currentObjectRef :=
       currentInfraMachineTemplateRefOf s (MachineDeploymentTopology.Name md) |}.

(** The name prefix of a MachineDeployment object. *)
Definition machineDeploymentNamePrefix (cluster : Cluster.t)
    (md : MachineDeploymentTopology.t) : string :=
  Cluster.Name cluster +:+ "-" +:+ MachineDeploymentTopology.Name md +:+ "-".

(** The MachineDeployment object that [computeMachineDeployment] builds
    from the two finished templates and the generated name. *)
Definition desiredMachineDeploymentObject (s : Scope.t) (md : MachineDeploymentTopology.t)
    (bp : MachineDeploymentBlueprint.t) (cluster : Cluster.t)
    (bootstrapTemplate infraMachineTemplate : Unstructured.t) (generated : string)
    : MachineDeployment.t :=
  {| MachineDeployment.Kind := "MachineDeployment";
     MachineDeployment.APIVersion :=
       schema.GroupVersion_String GroupVersion_Group GroupVersion_Version;
     MachineDeployment.Name :=
       match currentObjectOf s (MachineDeploymentTopology.Name md) with
       | Some object => MachineDeployment.Name object
       | None => generated
       end;
     MachineDeployment.Namespace := Cluster.Namespace cluster;
     MachineDeployment.Labels :=
       Some (<[ClusterTopologyMachineDeploymentLabelName := MachineDeploymentTopology.Name md]>
               (<[ClusterTopologyOwnedLabel := ""]>
                  (<[ClusterLabelName := Cluster.Name cluster]> ∅)));
     MachineDeployment.Spec_ClusterName := Cluster.Name cluster;
     MachineDeployment.Spec_Replicas := MachineDeploymentTopology.Replicas md;
     MachineDeployment.Spec_Template_Labels :=
       Some (<[ClusterTopologyMachineDeploymentLabelName := MachineDeploymentTopology.Name md]>
               (<[ClusterTopologyOwnedLabel := ""]>
                  (<[ClusterLabelName := Cluster.Name cluster]>
                     (default ∅ (ObjectMeta.Labels (MachineDeploymentTopology.Metadata md))
                        ∪ default ∅ (ObjectMeta.Labels
                                       (MachineDeploymentBlueprint.Metadata bp))))));
     MachineDeployment.Spec_Template_Annotations :=
       Some (default ∅ (ObjectMeta.Annotations (MachineDeploymentTopology.Metadata md))
               ∪ default ∅ (ObjectMeta.Annotations (MachineDeploymentBlueprint.Metadata bp)));
     MachineDeployment.Spec_Template_Spec_ClusterName := Cluster.Name cluster;
     MachineDeployment.Spec_Template_Spec_Version :=
       Some (Topology.Version (ClusterBlueprint.Topology (Scope.Blueprint s)));
     MachineDeployment.Spec_Template_Spec_Bootstrap_ConfigRef :=
       Some (contract.ObjToRef bootstrapTemplate);
     MachineDeployment.Spec_Template_Spec_InfrastructureRef :=
       contract.ObjToRef infraMachineTemplate |}.

(** The current state of a machine deployment can be read without a nil
    dereference: it holds its object whenever it holds a template. *)
Definition currentReadable (s : Scope.t) (name : string) : bool :=
  match currentMachineDeploymentOf s name with
  | Some current =>
      match MachineDeploymentState.Object current with
      | Some _ => true
      | None =>
          match MachineDeploymentState.BootstrapTemplate current,
                MachineDeploymentState.InfrastructureMachineTemplate current with
          | None, None => true
          | _, _ => false
          end
      end
  | None => true
  end.

(** The input that [templateToObject] hands to the template generator. *)
Definition generateInput (i : templateToInput.t) (cluster : Cluster.t)
    : GenerateTemplateInput.t :=
  {| GenerateTemplateInput.Template := templateToInput.template i;
     GenerateTemplateInput.TemplateRef := templateToInput.templateClonedFromRef i;
     GenerateTemplateInput.Namespace := Cluster.Namespace cluster;
     GenerateTemplateInput.Labels :=
       Some (<[ClusterTopologyOwnedLabel := ""]>
               (<[ClusterLabelName := Cluster.Name cluster]> ∅));
     GenerateTemplateInput.ClusterName := Cluster.Name cluster |}.

(** The inputs of the clonings of the first three steps of a pass. *)
Definition infrastructureClusterInput (s : Scope.t) (cluster : Cluster.t)
    : templateToInput.t :=
  {| templateToInput.template :=
       Some (ClusterBlueprint.InfrastructureClusterTemplate (Scope.Blueprint s));
     templateToInput.templateClonedFromRef :=
       ClusterClass.Spec_Infrastructure_Ref (ClusterBlueprint.ClusterClass (Scope.Blueprint s));
     templateToInput.cluster := ClusterState.Cluster (Scope.Current s);
     templateToInput.namePrefix := Cluster.Name cluster +:+ "-";
     templateToInput.currentObjectRef := Cluster.Spec_InfrastructureRef cluster |}.

Definition controlPlaneInput (s : Scope.t) (cluster : Cluster.t) : templateToInput.t :=
  {| templateToInput.template :=
       Some (ClusterBlueprint.ControlPlane_Template (Scope.Blueprint s));
     templateToInput.templateClonedFromRef :=
       ClusterClass.Spec_ControlPlane_Ref (ClusterBlueprint.ClusterClass (Scope.Blueprint s));
     templateToInput.cluster := ClusterState.Cluster (Scope.Current s);
     templateToInput.namePrefix := Cluster.Name cluster +:+ "-";
     templateToInput.currentObjectRef := Cluster.Spec_ControlPlaneRef cluster |}.

(** The reference to the current control-plane infrastructure machine
    template, as [computeControlPlaneInfrastructureMachineTemplate] reads
    it off the current control-plane object. *)
Definition currentControlPlaneTemplateRef (s : Scope.t)
    : option ObjectReference.t * option error :=
  match ClusterState.ControlPlane (Scope.Current s) with
  | Some currentControlPlane =>
      match ControlPlaneState.Object currentControlPlane with
      | Some object => contract.InfrastructureRef_Get object
      | None => (None, None)
      end
  | None => (None, None)
  end.

Definition controlPlaneTemplateInput (s : Scope.t)
    (machineInfrastructure : LocalObjectTemplate.t) (cluster : Cluster.t)
    : templateToInput.t :=
  {| templateToInput.template :=
       ClusterBlueprint.ControlPlane_InfrastructureMachineTemplate (Scope.Blueprint s);
     templateToInput.templateClonedFromRef := LocalObjectTemplate.Ref machineInfrastructure;
     templateToInput.cluster := ClusterState.Cluster (Scope.Current s);
     templateToInput.namePrefix :=
       controlPlaneInfrastructureMachineTemplateNamePrefix (Cluster.Name cluster);
     templateToInput.currentObjectRef := (currentControlPlaneTemplateRef s).1 |}.

(** The cluster that [computeCluster] returns. *)
Definition desiredCluster (current : Cluster.t)
    (infrastructureCluster controlPlane : Unstructured.t) : Cluster.t :=
  {| Cluster.Name := Cluster.Name current;
     Cluster.Namespace := Cluster.Namespace current;
     Cluster.Labels :=
       Some (<[ClusterTopologyOwnedLabel := ""]>
               (<[ClusterLabelName := Cluster.Name current]>
                  (default ∅ (Cluster.Labels current))));
     Cluster.Annotations := Cluster.Annotations current;
     Cluster.Spec_InfrastructureRef := Some (contract.ObjToRef infrastructureCluster);
     Cluster.Spec_ControlPlaneRef := Some (contract.ObjToRef controlPlane) |}.
End ClosedForms.

(** Two field paths part ways: at some position both have a field and the
    fields differ, so neither path leads into the other. *)
Fixpoint diverge (p q : list string) : bool :=
  match p, q with
  | f :: p', g :: q' => if decide (f = g) then diverge p' q' else true
  | _, _ => false
  end.

Section Rules.
Context {C : Collaborators}.

(** [name] is drawn from the name generator with the given prefix, and the
    draw leaves the random source in state [r']. *)
Definition generatedFrom (prefix name : string) (r' : Rand) : Prop :=
  ∃ r, GenerateName prefix r = (name, r').

(** The name rule of the two cloners: the name of the current reference
    when there is one with a non-empty name, a generated name otherwise. *)
Definition clonerNameRule (i : templateToInput.t) (name : string) (r' : Rand) : Prop :=
  match templateToInput.currentObjectRef i with
  | Some ref =>
      if nonempty (ObjectReference.Name ref)
      then name = ObjectReference.Name ref
      else generatedFrom (templateToInput.namePrefix i) name r'
  | None => generatedFrom (templateToInput.namePrefix i) name r'
  end.

(** The input of a cloning whose template pointer leads to [source]. *)
Definition withTemplate (source : Unstructured.t) (i : templateToInput.t)
    : templateToInput.t :=
  {| templateToInput.template := Some source;
     templateToInput.templateClonedFromRef := templateToInput.templateClonedFromRef i;
     templateToInput.cluster := templateToInput.cluster i;
     templateToInput.namePrefix := templateToInput.namePrefix i;
     templateToInput.currentObjectRef := templateToInput.currentObjectRef i |}.

(** [clone] is a clone of the template [source]: it has the kind, the API
    version, the namespace and the content of [source], and its provenance
    annotations name [source]. *)
Definition clonedFrom (source clone : Unstructured.t) : Prop :=
  Unstructured.GetKind clone = Unstructured.GetKind source
  ∧ Unstructured.GetAPIVersion clone = Unstructured.GetAPIVersion source
  ∧ Unstructured.GetNamespace clone = Unstructured.GetNamespace source
  ∧ Unstructured.content clone = Unstructured.content source
  ∧ mapindex (Unstructured.GetAnnotations clone) TemplateClonedFromNameAnnotation
      = Some (Unstructured.GetName source)
  ∧ mapindex (Unstructured.GetAnnotations clone) TemplateClonedFromGroupKindAnnotation
      = Some (schema.GroupKind_String (schema.group (Unstructured.GetAPIVersion source))
                (Unstructured.GetKind source)).
End Rules.

(** ** A concrete instance

    Collaborators and scopes on which the definitions can be run: the names
    are generated from a counter, the template generator takes the object
    under [spec.template] of its template and rejects a template without it,
    and the keys are those of the v1alpha4 API. *)

Module Example.
Definition suffix (n : nat) : string :=
  match n with
  | 0%nat => "aaaaa"
  | 1%nat => "bbbbb"
  | 2%nat => "ccccc"
  | 3%nat => "ddddd"
  | 4%nat => "eeeee"
  | 5%nat => "fffff"
  | 6%nat => "ggggg"
  | 7%nat => "hhhhh"
  | _ => "zzzzz"
  end.

Definition generateName (base : string) (n : nat) : string * nat :=
  (base +:+ suffix n, S n).

Definition generateTemplate (i : GenerateTemplateInput.t) (n : nat)
    : (Unstructured.t + error) * nat :=
  match GenerateTemplateInput.Template i with
  | Some template =>
      match contract.NestedField ["spec"; "template"] (Unstructured.content template) with
      | Some (VMap object) =>
          (inl (Unstructured.mk (Unstructured.apiVersion template)
                  (Unstructured.kind template)
                  (Unstructured.name template +:+ "-" +:+ suffix n)
                  (GenerateTemplateInput.Namespace i)
                  (GenerateTemplateInput.Labels i) None "" "" "" [] object),
           S n)
      | _ => (inr "missing Spec.Template", n)
      end
  | None => (inr "missing template", n)
  end.

Definition collaborators : Collaborators :=
  {| Rand := nat;
     GenerateName := generateName;
     GenerateTemplate := generateTemplate;
     ClusterLabelName := "cluster.x-k8s.io/cluster-name";
     ClusterTopologyOwnedLabel := "topology.cluster.x-k8s.io/owned";
     ClusterTopologyMachineDeploymentLabelName :=
       "topology.cluster.x-k8s.io/deployment-name";
     TemplateClonedFromNameAnnotation := "cluster.x-k8s.io/cloned-from-name";
     TemplateClonedFromGroupKindAnnotation := "cluster.x-k8s.io/cloned-from-groupkind";
     GroupVersion_Group := "cluster.x-k8s.io";
     GroupVersion_Version := "v1alpha4";
     controlPlaneInfrastructureMachineTemplateNamePrefix :=
       λ clusterName, clusterName +:+ "-control-plane-";
     bootstrapTemplateNamePrefix :=
       λ clusterName name, clusterName +:+ "-" +:+ name +:+ "-bootstrap-";
     infrastructureMachineTemplateNamePrefix :=
       λ clusterName name, clusterName +:+ "-" +:+ name +:+ "-infra-" |}.

(** A template as the API server stores it, with server-assigned fields. *)
Definition template (kind name : string) : Unstructured.t :=
  {| Unstructured.apiVersion := "infrastructure.cluster.x-k8s.io/v1alpha4";
     Unstructured.kind := kind;
     Unstructured.name := name;
     Unstructured.namespace := "default";
     Unstructured.labels := None;
     Unstructured.annotations := Some {["note" := "kept"]};
     Unstructured.resourceVersion := "42";
     Unstructured.uid := "5f1c";
     Unstructured.selfLink := "/apis/templates/" +:+ name;
     Unstructured.finalizers := ["protect"];
     Unstructured.content :=
       {["spec" := VMap {["template" := VMap {["spec" := VMap ∅]}]}]} |}.

(** A template that the generator rejects. *)
Definition brokenTemplate (kind name : string) : Unstructured.t :=
  Unstructured.SetContent ∅ (template kind name).

Definition cluster : Cluster.t :=
  {| Cluster.Name := "c1";
     Cluster.Namespace := "default";
     Cluster.Labels := None;
     Cluster.Annotations := None;
     Cluster.Spec_InfrastructureRef := None;
     Cluster.Spec_ControlPlaneRef := None |}.

Definition worker (class name : string) : MachineDeploymentTopology.t :=
  {| MachineDeploymentTopology.Metadata := ObjectMeta.mk (Some {["tier" := "topology"]}) None;
     MachineDeploymentTopology.Class := class;
     MachineDeploymentTopology.Name := name;
     MachineDeploymentTopology.Replicas := Some 3 |}.

Definition topology (replicas : option Z) (workers : list MachineDeploymentTopology.t)
    : Topology.t :=
  {| Topology.Version := "v1.21.2";
     Topology.ControlPlane_Metadata := ObjectMeta.mk None None;
     Topology.ControlPlane_Replicas := replicas;
     Topology.Workers := Some workers |}.

Definition clusterClass : ClusterClass.t :=
  {| ClusterClass.Name := "class1";
     ClusterClass.Spec_Infrastructure_Ref :=
       Some (contract.ObjToRef (template "InfraClusterTemplate" "ict"));
     ClusterClass.Spec_ControlPlane_Metadata := ObjectMeta.mk None None;
     ClusterClass.Spec_ControlPlane_Ref :=
       Some (contract.ObjToRef (template "ControlPlaneTemplate" "cpt"));
     ClusterClass.Spec_ControlPlane_MachineInfrastructure :=
       Some (LocalObjectTemplate.mk
               (Some (contract.ObjToRef (template "InfraMachineTemplate" "cpimt")))) |}.

Definition machineDeploymentBlueprint : MachineDeploymentBlueprint.t :=
  {| MachineDeploymentBlueprint.Metadata :=
       ObjectMeta.mk (Some {["tier" := "class"; "zone" := "a"]}) None;
     MachineDeploymentBlueprint.BootstrapTemplate := template "BootstrapTemplate" "bt";
     MachineDeploymentBlueprint.InfrastructureMachineTemplate :=
       template "InfraMachineTemplate" "imt" |}.

Definition blueprint (infrastructureClusterTemplate : Unstructured.t)
    (replicas : option Z) (workers : list MachineDeploymentTopology.t)
    : ClusterBlueprint.t :=
  {| ClusterBlueprint.Topology := topology replicas workers;
     ClusterBlueprint.ClusterClass := clusterClass;
     ClusterBlueprint.InfrastructureClusterTemplate := infrastructureClusterTemplate;
     ClusterBlueprint.ControlPlane_Template := template "ControlPlaneTemplate" "cpt";
     ClusterBlueprint.ControlPlane_InfrastructureMachineTemplate :=
       Some (template "InfraMachineTemplate" "cpimt");
     ClusterBlueprint.MachineDeployments := {["default" := machineDeploymentBlueprint]} |}.

Definition current
    (machineDeployments : option (gmap string (option MachineDeploymentState.t)))
    : ClusterState.t :=
  {| ClusterState.Cluster := Some cluster;
     ClusterState.InfrastructureCluster := None;
     ClusterState.ControlPlane := None;
     ClusterState.MachineDeployments := machineDeployments |}.

(** Two worker groups of the class the blueprint has, nothing current. *)
Definition scope : Scope.t :=
  {| Scope.Blueprint :=
       blueprint (template "InfraClusterTemplate" "ict") (Some 3)
         [worker "default" "wg-a"; worker "default" "wg-b"];
     Scope.Current := current None |}.

(** The cloning of the provenance example: a template with an annotation
    of its own, cloned from the reference [{Name: "t1", Kind: "FooTemplate"}]. *)
Definition cloneInput (currentObjectRef : option ObjectReference.t) : templateToInput.t :=
  {| templateToInput.template := Some (template "FooTemplate" "t1");
     templateToInput.templateClonedFromRef :=
       Some (ObjectReference.mk "FooTemplate" "" "t1" "");
     templateToInput.cluster := Some cluster;
     templateToInput.namePrefix := "c1-foo-";
     templateToInput.currentObjectRef := currentObjectRef |}.

(** A reference to an object that exists already. *)
Definition existingRef : ObjectReference.t :=
  ObjectReference.mk "FooTemplate" "default" "c1-foo-existing"
    "infrastructure.cluster.x-k8s.io/v1alpha4".

(** A current MachineDeployment object with the given name. *)
Definition currentObject (name : string) : MachineDeployment.t :=
  {| MachineDeployment.Kind := "MachineDeployment";
     MachineDeployment.APIVersion := "cluster.x-k8s.io/v1alpha4";
     MachineDeployment.Name := name;
     MachineDeployment.Namespace := "default";
     MachineDeployment.Labels := None;
     MachineDeployment.Spec_ClusterName := "c1";
     MachineDeployment.Spec_Replicas := None;
     MachineDeployment.Spec_Template_Labels := None;
     MachineDeployment.Spec_Template_Annotations := None;
     MachineDeployment.Spec_Template_Spec_ClusterName := "c1";
     MachineDeployment.Spec_Template_Spec_Version := None;
     MachineDeployment.Spec_Template_Spec_Bootstrap_ConfigRef := None;
     MachineDeployment.Spec_Template_Spec_InfrastructureRef := existingRef |}.

(** One worker group whose current MachineDeployment object has the given
    name. *)
Definition scopeWithCurrent (name : string) : Scope.t :=
  {| Scope.Blueprint :=
       blueprint (template "InfraClusterTemplate" "ict") None [worker "default" "wg-a"];
     Scope.Current :=
       current (Some {["wg-a" :=
         Some (MachineDeploymentState.mk (Some (currentObject name)) None None)]}) |}.



(** A current cluster that carries a label and an annotation of its own and
    the references to the objects of an earlier pass. *)
Definition clusterWithRefs : Cluster.t :=
  {| Cluster.Name := "c1";
     Cluster.Namespace := "default";
     Cluster.Labels := Some {["team" := "blue"]};
     Cluster.Annotations := Some {["owner" := "ops"]};
     Cluster.Spec_InfrastructureRef :=
       Some (ObjectReference.mk "InfraCluster" "default" "c1-infra-existing"
               "infrastructure.cluster.x-k8s.io/v1alpha4");
     Cluster.Spec_ControlPlaneRef :=
       Some (ObjectReference.mk "ControlPlane" "default" "c1-cp-existing"
               "controlplane.cluster.x-k8s.io/v1alpha4") |}.

(** No worker groups, on the cluster that carries references. *)
Definition scopeWithRefs : Scope.t :=
  {| Scope.Blueprint := blueprint (template "InfraClusterTemplate" "ict") None [];
     Scope.Current :=
       {| ClusterState.Cluster := Some clusterWithRefs;
          ClusterState.InfrastructureCluster := None;
          ClusterState.ControlPlane := None;
          ClusterState.MachineDeployments := None |} |}.

(** A reference to a bootstrap template that exists already. *)
Definition existingBootstrapRef : ObjectReference.t :=
  ObjectReference.mk "BootstrapTemplate" "default" "c1-wg-a-bootstrap-existing"
    "bootstrap.cluster.x-k8s.io/v1alpha4".

(** A current MachineDeployment object that references its two templates. *)
Definition currentObjectWithRefs : MachineDeployment.t :=
  {| MachineDeployment.Kind := "MachineDeployment";
     MachineDeployment.APIVersion := "cluster.x-k8s.io/v1alpha4";
     MachineDeployment.Name := "c1-wg-a-existing";
     MachineDeployment.Namespace := "default";
     MachineDeployment.Labels := None;
     MachineDeployment.Spec_ClusterName := "c1";
     MachineDeployment.Spec_Replicas := None;
     MachineDeployment.Spec_Template_Labels := None;
     MachineDeployment.Spec_Template_Annotations := None;
     MachineDeployment.Spec_Template_Spec_ClusterName := "c1";
     MachineDeployment.Spec_Template_Spec_Version := None;
     MachineDeployment.Spec_Template_Spec_Bootstrap_ConfigRef := Some existingBootstrapRef;
     MachineDeployment.Spec_Template_Spec_InfrastructureRef := existingRef |}.

(** One worker group whose current state holds the MachineDeployment object
    and the two templates that the object references. *)
Definition scopeWithTemplates : Scope.t :=
  {| Scope.Blueprint :=
       blueprint (template "InfraClusterTemplate" "ict") None [worker "default" "wg-a"];
     Scope.Current :=
       current (Some {["wg-a" :=
         Some (MachineDeploymentState.mk (Some currentObjectWithRefs)
                 (Some (template "BootstrapTemplate" "bt"))
                 (Some (template "InfraMachineTemplate" "imt")))]}) |}.

(** A worker group with the given number of replicas and no metadata. *)
Definition scaledWorker (class name : string) (replicas : Z) : MachineDeploymentTopology.t :=
  {| MachineDeploymentTopology.Metadata := ObjectMeta.mk None None;
     MachineDeploymentTopology.Class := class;
     MachineDeploymentTopology.Name := name;
     MachineDeploymentTopology.Replicas := Some replicas |}.

(** A topology that names the worker group wg-a twice, first with 3 and
    then with 5 replicas. *)
Definition scopeDuplicateNames : Scope.t :=
  {| Scope.Blueprint :=
       blueprint (template "InfraClusterTemplate" "ict") None
         [worker "default" "wg-a"; scaledWorker "default" "wg-a" 5];
     Scope.Current := current None |}.

(** A current control-plane object that holds no reference to an
    infrastructure machine template. *)
Definition scopeBrokenControlPlane : Scope.t :=
  {| Scope.Blueprint := blueprint (template "InfraClusterTemplate" "ict") None [];
     Scope.Current :=
       {| ClusterState.Cluster := Some cluster;
          ClusterState.InfrastructureCluster := None;
          ClusterState.ControlPlane :=
            Some (ControlPlaneState.mk (Some (template "ControlPlane" "cp")) None);
          ClusterState.MachineDeployments := None |} |}.

(** A blueprint whose control-plane template the generator rejects. *)
Definition scopeBrokenControlPlaneTemplate : Scope.t :=
  {| Scope.Blueprint :=
       {| ClusterBlueprint.Topology := topology None [];
          ClusterBlueprint.ClusterClass := clusterClass;
          ClusterBlueprint.InfrastructureClusterTemplate :=
            template "InfraClusterTemplate" "ict";
          ClusterBlueprint.ControlPlane_Template :=
            brokenTemplate "ControlPlaneTemplate" "cpt";
          ClusterBlueprint.ControlPlane_InfrastructureMachineTemplate :=
            Some (template "InfraMachineTemplate" "cpimt");
          ClusterBlueprint.MachineDeployments := ∅ |};
     Scope.Current := current None |}.

(** A current control-plane object that references the infrastructure
    machine template c1-foo-existing. *)
Definition scopeWithControlPlane : Scope.t :=
  {| Scope.Blueprint := blueprint (template "InfraClusterTemplate" "ict") None [];
     Scope.Current :=
       {| ClusterState.Cluster := Some cluster;
          ClusterState.InfrastructureCluster := None;
          ClusterState.ControlPlane :=
            Some (ControlPlaneState.mk
                    (Some (Unstructured.SetContent
                             {["spec" := VMap {["machineTemplate" :=
                                 VMap {["infrastructureRef" :=
                                   contract.refValue existingRef]}]}]}
                             (template "ControlPlane" "cp")))
                    None);
          ClusterState.MachineDeployments := None |} |}.
End Example.

(** ** The results of running the definitions on the concrete instance *)

Module Run.
Import Example.

Definition cloned : Unstructured.t :=
  match templateToTemplate (C := collaborators) (cloneInput None) 0%nat with
  | Returns (t, _) => t
  | Panics => Unstructured.empty
  end.

Definition clonedReusing : Unstructured.t :=
  match templateToTemplate (C := collaborators) (cloneInput (Some existingRef)) 0%nat with
  | Returns (t, _) => t
  | Panics => Unstructured.empty
  end.

Definition controlPlane : Unstructured.t :=
  match computeControlPlane (C := collaborators) scope
          (Some (template "InfraMachineTemplate" "cpimt")) 0%nat with
  | Returns ((Some object, _), _) => object
  | _ => Unstructured.empty
  end.

Definition machineDeployment (currentName : string) : MachineDeploymentState.t :=
  match computeMachineDeployment (C := collaborators) (scopeWithCurrent currentName)
          (worker "default" "wg-a") 0%nat with
  | Returns ((Some state, _), _) => state
  | _ => MachineDeploymentState.mk None None None
  end.

Definition machineDeploymentObject (currentName : string) : MachineDeployment.t :=
  match MachineDeploymentState.Object (machineDeployment currentName) with
  | Some object => object
  | None => currentObject ""
  end.

Definition desired : ClusterState.t :=
  match computeDesiredState (C := collaborators) scope 0%nat with
  | Returns ((Some state, _), _) => state
  | _ => ClusterState.mk None None None None
  end.

(** The store of the copy example: the template at address 5. *)
Definition store0 : store := {[5%positive := template "FooTemplate" "t1"]}.
(** The infrastructure cluster object generated for the example scope. *)
Definition infrastructureCluster : Unstructured.t :=
  match templateToObject (C := collaborators) (infrastructureClusterInput scope cluster)
          0%nat with
  | Returns ((Some object, _), _) => object
  | _ => Unstructured.empty
  end.

Definition desiredWithRefs : ClusterState.t :=
  match computeDesiredState (C := collaborators) scopeWithRefs 0%nat with
  | Returns ((Some state, _), _) => state
  | _ => ClusterState.mk None None None None
  end.

Definition machineDeploymentReusing : MachineDeploymentState.t :=
  match computeMachineDeployment (C := collaborators) scopeWithTemplates
          (worker "default" "wg-a") 0%nat with
  | Returns ((Some state, _), _) => state
  | _ => MachineDeploymentState.mk None None None
  end.

(** The same worker group computed again, later in the life of the random
    source. *)
Definition machineDeploymentReusingLater : MachineDeploymentState.t :=
  match computeMachineDeployment (C := collaborators) scopeWithTemplates
          (worker "default" "wg-a") 4%nat with
  | Returns ((Some state, _), _) => state
  | _ => MachineDeploymentState.mk None None None
  end.

(** The cloning that reuses a name, later in the life of the random source. *)
Definition clonedReusingLater : Unstructured.t :=
  match templateToTemplate (C := collaborators) (cloneInput (Some existingRef)) 7%nat with
  | Returns (t, _) => t
  | Panics => Unstructured.empty
  end.

Definition desiredDuplicate : ClusterState.t :=
  match computeDesiredState (C := collaborators) scopeDuplicateNames 0%nat with
  | Returns ((Some state, _), _) => state
  | _ => ClusterState.mk None None None None
  end.

Definition desiredWithControlPlane : ClusterState.t :=
  match computeDesiredState (C := collaborators) scopeWithControlPlane 0%nat with
  | Returns ((Some state, _), _) => state
  | _ => ClusterState.mk None None None None
  end.

(** The state computed for the second of the two entries named wg-a. *)
Definition machineDeploymentScaled : option MachineDeploymentState.t :=
  match computeMachineDeployment (C := collaborators) scopeDuplicateNames
          (scaledWorker "default" "wg-a" 5) 8%nat with
  | Returns ((state, _), _) => state
  | Panics => None
  end.
End Run.

(** * Properties *)

(** Running a computation of [M]: unfold the monad and simplify. *)
Ltac run :=
  repeat (unfold mbind, M_bind, bind, mret, M_ret, ret, deref, panic, mapassign,
            names_GenerateName, external_GenerateTemplate; simpl).

(** ** Equations of the source functions *)

Section Equations.
Context {C : Collaborators}.

Lemma rangeAssign_union (src : gomap) (m : gmap string string) :
  rangeAssign src m = default ∅ src ∪ m.
Proof.
  destruct src as [src|]; simpl.
  - apply (map_fold_weak_ind (λ acc src, acc = src ∪ m)).
    + by rewrite (left_id_L ∅ (∪)).
    + intros k v src' acc _ ->. by rewrite insert_union_l.
  - by rewrite (left_id_L ∅ (∪)).
Qed.

Lemma mergeMap_union (a b : gomap) :
  mergeMap a b = Some (default ∅ a ∪ default ∅ b).
Proof.
  unfold mergeMap. rewrite !rangeAssign_union. by rewrite (right_id_L ∅ (∪)).
Qed.

Lemma templateToTemplate_eq (i : templateToInput.t) (r : Rand) :
  templateToTemplate i r =
    match templateToInput.template i, templateToInput.cluster i,
          templateToInput.templateClonedFromRef i with
    | Some source, Some cluster, Some ref =>
        Returns (clonedTemplate i source cluster ref
                   (GenerateName (templateToInput.namePrefix i) r).1,
                 (GenerateName (templateToInput.namePrefix i) r).2)
    | _, _, _ => Panics
    end.
Proof.
  unfold templateToTemplate, clonedTemplate.
  destruct i as [[source|] ref [cluster|] prefix cur]; simpl; try done.
  destruct source as [av k n ns [l|] [a|] rv u sl f c]; destruct ref as [ref|]; simpl; try done.
  all: run; destruct (GenerateName prefix r); done.
Qed.

Lemma reuseName_labels cur u :
  Unstructured.labels (reuseName cur u) = Unstructured.labels u.
Proof. unfold reuseName. destruct cur as [ref|]; [destruct (nonempty _)|]; done. Qed.

Lemma clonedTemplate_labels i source cluster ref g :
  Unstructured.labels (clonedTemplate i source cluster ref g) =
    Some (<[ClusterTopologyOwnedLabel := ""]>
            (<[ClusterLabelName := Cluster.Name cluster]>
               (default ∅ (Unstructured.labels source)))).
Proof. unfold clonedTemplate. by rewrite reuseName_labels. Qed.

#[local] Arguments mergeMap : simpl never.
#[local] Arguments reuseName : simpl never.
#[local] Arguments clonedTemplate : simpl never.

Lemma computeMachineDeployment_eq (s : Scope.t) (md : MachineDeploymentTopology.t) (r : Rand) :
  computeMachineDeployment s md r =
    match ClusterBlueprint.MachineDeployments (Scope.Blueprint s)
            !! MachineDeploymentTopology.Class md with
    | None => Returns ((None, Some (blueprintNotFound s (MachineDeploymentTopology.Class md))), r)
    | Some bp =>
        match ClusterState.Cluster (Scope.Current s),
              currentReadable s (MachineDeploymentTopology.Name md) with
        | Some cluster, true =>
            let g1 := GenerateName (templateToInput.namePrefix (bootstrapInput s md bp cluster)) r in
            let g2 := GenerateName (templateToInput.namePrefix (infraMachineInput s md bp cluster)) g1.2 in
            let g3 := GenerateName (machineDeploymentNamePrefix cluster md) g2.2 in
            let bt := withDeploymentLabel (MachineDeploymentTopology.Name md)
                        (clonedTemplate (bootstrapInput s md bp cluster)
                           (MachineDeploymentBlueprint.BootstrapTemplate bp) cluster
                           (contract.ObjToRef (MachineDeploymentBlueprint.BootstrapTemplate bp))
                           g1.1) in
            let imt := withDeploymentLabel (MachineDeploymentTopology.Name md)
                        (clonedTemplate (infraMachineInput s md bp cluster)
                           (MachineDeploymentBlueprint.InfrastructureMachineTemplate bp) cluster
                           (contract.ObjToRef
                              (MachineDeploymentBlueprint.InfrastructureMachineTemplate bp))
                           g2.1) in
            Returns ((Some (MachineDeploymentState.mk
                              (Some (desiredMachineDeploymentObject s md bp cluster bt imt g3.1))
                              (Some bt) (Some imt)), None), g3.2)
        | _, _ => Panics
        end
    end.
Proof.
  unfold computeMachineDeployment, blueprintNotFound.
  destruct (ClusterBlueprint.MachineDeployments (Scope.Blueprint s) !! _) as [bp|]; [|done].
  unfold currentReadable, bootstrapInput, infraMachineInput, currentBootstrapTemplateRefOf,
    currentInfraMachineTemplateRefOf, desiredMachineDeploymentObject, currentObjectOf,
    machineDeploymentNamePrefix, withDeploymentLabel.
  rewrite !mergeMap_union.
  destruct (currentMachineDeploymentOf s (MachineDeploymentTopology.Name md))
    as [[[obj|] [cbt|] [cimt|]]|];
    destruct (ClusterState.Cluster (Scope.Current s)) as [cluster|] eqn:Hc;
    run; try done.
  all: rewrite !templateToTemplate_eq; simpl; rewrite ?Hc; simpl.
  all: try done.
  all: unfold Unstructured.GetLabels; rewrite ?clonedTemplate_labels; simpl.
  all: run.
  all: rewrite ?templateToTemplate_eq; simpl; rewrite ?Hc; simpl.
  all: rewrite ?clonedTemplate_labels; simpl.
  all: run.
  all: try (destruct (GenerateName _ _) as [g3 r3]; done).
Qed.

Lemma templateToObject_eq (i : templateToInput.t) (r : Rand) :
  templateToObject i r =
    match templateToInput.cluster i with
    | None => Panics
    | Some cluster =>
        match GenerateTemplate (generateInput i cluster) r with
        | (inr err, r1) => Returns ((None, Some err), r1)
        | (inl object, r1) =>
            Returns ((Some (reuseName (templateToInput.currentObjectRef i)
                              (Unstructured.SetName
                                 (GenerateName (templateToInput.namePrefix i) r1).1 object)),
                      None),
                     (GenerateName (templateToInput.namePrefix i) r1).2)
        end
    end.
Proof.
  unfold templateToObject, generateInput.
  destruct (templateToInput.cluster i) as [cluster|]; [|done].
  run. destruct (GenerateTemplate _ r) as [[object|err] r1]; [|done].
  run. by destruct (GenerateName _ r1).
Qed.

Lemma computeInfrastructureCluster_eq (s : Scope.t) (r : Rand) :
  computeInfrastructureCluster s r =
    match ClusterState.Cluster (Scope.Current s) with
    | None => Panics
    | Some cluster =>
        match templateToObject (infrastructureClusterInput s cluster) r with
        | Returns ((_, Some err), r1) =>
            Returns ((None, Some (Wrap err
              ("failed to generate the InfrastructureCluster object from the "
                 +:+ Unstructured.GetKind
                       (ClusterBlueprint.InfrastructureClusterTemplate (Scope.Blueprint s))))),
              r1)
        | Returns ((object, None), r1) => Returns ((object, None), r1)
        | Panics => Panics
        end
    end.
Proof.
  unfold computeInfrastructureCluster, infrastructureClusterInput.
  destruct (ClusterState.Cluster (Scope.Current s)) as [cluster|]; [|done].
  run. destruct (templateToObject _ r) as [[[object [err|]] r1]|]; done.
Qed.

(** What a call of [templateToObject] can return. *)
Lemma templateToObject_returns (i : templateToInput.t) (r : Rand) x err r1 :
  templateToObject i r = Returns ((x, err), r1) →
  (x = None ∧ is_Some err) ∨ (is_Some x ∧ err = None).
Proof.
  rewrite templateToObject_eq.
  destruct (templateToInput.cluster i); [|done].
  destruct (GenerateTemplate _ r) as [[object|e] r']; intros [= <- <- <-]; eauto.
Qed.


Lemma computeControlPlaneInfrastructureMachineTemplate_eq (s : Scope.t) (r : Rand) :
  computeControlPlaneInfrastructureMachineTemplate s r =
    match ClusterClass.Spec_ControlPlane_MachineInfrastructure
            (ClusterBlueprint.ClusterClass (Scope.Blueprint s)) with
    | None => Panics
    | Some machineInfrastructure =>
        match (currentControlPlaneTemplateRef s).2 with
        | Some err =>
            Returns ((None, Some (Wrap err
              "failed to get spec.machineTemplate.infrastructureRef for the current ControlPlane object")),
              r)
        | None =>
            match ClusterState.Cluster (Scope.Current s) with
            | None => Panics
            | Some cluster =>
                match templateToTemplate
                        (controlPlaneTemplateInput s machineInfrastructure cluster) r with
                | Returns (t, r1) => Returns ((Some t, None), r1)
                | Panics => Panics
                end
            end
        end
    end.
Proof.
  unfold computeControlPlaneInfrastructureMachineTemplate, controlPlaneTemplateInput,
    currentControlPlaneTemplateRef.
  destruct (ClusterClass.Spec_ControlPlane_MachineInfrastructure _) as [mi|]; [|done].
  run.
  destruct (match ClusterState.ControlPlane (Scope.Current s) with
            | Some _ => _ | None => _ end) as [currentRef [err|]]; simpl; [done|].
  destruct (ClusterState.Cluster (Scope.Current s)) as [cluster|]; [|done].
  run. by destruct (templateToTemplate _ r) as [[t r1]|].
Qed.

Lemma computeCluster_eq (s : Scope.t) (ic cp : option Unstructured.t) (r : Rand) :
  computeCluster s ic cp r =
    match ClusterState.Cluster (Scope.Current s), ic, cp with
    | Some current, Some ic, Some cp => Returns (desiredCluster current ic cp, r)
    | _, _, _ => Panics
    end.
Proof.
  unfold computeCluster, desiredCluster.
  destruct (ClusterState.Cluster (Scope.Current s)) as [[n ns [l|] a iref cref]|];
    destruct ic, cp; done.
Qed.


Lemma NestedField_empty fields : contract.NestedField fields ∅ = None.
Proof. destruct fields as [|f [|g rest]]; done. Qed.

Lemma NestedField_step f g rest m :
  contract.NestedField (f :: g :: rest) m =
    match m !! f with
    | Some (VMap sub) => contract.NestedField (g :: rest) sub
    | _ => None
    end.
Proof. done. Qed.

Lemma SetNestedField_step f g rest v m :
  contract.SetNestedField (f :: g :: rest) v m =
    match m !! f with
    | None =>
        match contract.SetNestedField (g :: rest) v ∅ with
        | Some sub' => Some (<[f := VMap sub']> m)
        | None => None
        end
    | Some (VMap sub) =>
        match contract.SetNestedField (g :: rest) v sub with
        | Some sub' => Some (<[f := VMap sub']> m)
        | None => None
        end
    | Some _ => None
    end.
Proof. done. Qed.

(** A set field path leads into a map that holds the new value under the
    first field, and leaves the other fields of the map alone. *)
Lemma SetNestedField_first f rest v m m' :
  contract.SetNestedField (f :: rest) v m = Some m' →
  (∀ g, f ≠ g → m' !! g = m !! g)
  ∧ match rest with
    | [] => m' !! f = Some v
    | _ => ∃ sub', m' !! f = Some (VMap sub')
             ∧ contract.SetNestedField rest v
                 (match m !! f with Some (VMap sub) => sub | _ => ∅ end) = Some sub'
    end.
Proof.
  destruct rest as [|g rest].
  - intros [= <-]. split; [intros; by rewrite lookup_insert_ne|by rewrite lookup_insert_eq].
  - rewrite SetNestedField_step. intros H.
    destruct (m !! f) as [[]|]; try done.
    all: destruct (contract.SetNestedField (g :: rest) v _) as [sub'|] eqn:Hs; [|done].
    all: injection H as <-.
    all: split; [intros; by rewrite lookup_insert_ne|rewrite lookup_insert_eq; eauto].
Qed.

Lemma NestedField_SetNestedField fields v m m' :
  contract.SetNestedField fields v m = Some m' →
  contract.NestedField fields m' = Some v.
Proof.
  revert m m'. induction fields as [|f rest IH]; intros m m' H; [done|].
  apply SetNestedField_first in H as [_ H].
  destruct rest as [|g rest]; [done|].
  destruct H as (sub' & Hf & Hs). rewrite NestedField_step, Hf. eauto.
Qed.

Lemma NestedField_SetNestedField_diverge p q v m m' :
  diverge p q = true →
  contract.SetNestedField p v m = Some m' →
  contract.NestedField q m' = contract.NestedField q m.
Proof.
  revert q m m'. induction p as [|f p IH]; intros q m m'; [done|].
  destruct q as [|g q]; [done|]. simpl diverge.
  intros Hd H. apply SetNestedField_first in H as [Hother H].
  destruct (decide (f = g)) as [<-|Hne].
  - destruct p as [|f' p]; [done|]. destruct q as [|g' q]; [done|].
    destruct H as (sub' & Hf & Hs).
    rewrite !NestedField_step, Hf, (IH _ _ _ Hd Hs).
    destruct (m !! f) as [[]|]; try done; apply NestedField_empty.
  - specialize (Hother g Hne).
    destruct q as [|g' q]; [done|]. by rewrite !NestedField_step, Hother.
Qed.

Ltac frame :=
  repeat match goal with
    | H : contract.SetNestedField ?p ?v ?m = Some ?m' |- context [contract.NestedField ?q ?m'] =>
        rewrite (NestedField_SetNestedField_diverge p q v m m' eq_refl H)
    end.

Lemma setPath_inv fields path v obj obj' err :
  contract.setPath fields path v obj = (obj', err) →
  match err with
  | None => ∃ c, contract.SetNestedField fields v (Unstructured.content obj) = Some c
                 ∧ Unstructured.content obj' = c
  | Some _ => True
  end.
Proof.
  unfold contract.setPath.
  destruct (contract.SetNestedField fields v (Unstructured.content obj)) as [c|];
    intros [= <- <-]; eauto.
Qed.

#[local] Arguments contract.setPath : simpl never.
#[local] Arguments contract.SetNestedField : simpl never.
#[local] Arguments contract.NestedField : simpl never.

(** C9. When [computeControlPlane] succeeds, the replicas field of the control
    plane is written exactly when the topology specifies a control-plane
    replica count: with [Topology.ControlPlane.Replicas] set to [n] the field
    [spec.replicas] holds [n]; with [Topology.ControlPlane.Replicas] nil the
    field is what it was in the object generated from the template, present
    or absent, and is not set to zero. The field [spec.version] always holds
    the version of the topology. *)
Theorem computeControlPlane_replicas (s : Scope.t) imt (r : Rand) cp r' :
  computeControlPlane s imt r = Returns ((Some cp, None), r') →
  ∃ cluster generated,
    ClusterState.Cluster (Scope.Current s) = Some cluster
    ∧ templateToObject (controlPlaneInput s cluster) r = Returns ((Some generated, None), r')
    ∧ contract.NestedField contract.replicasPath (Unstructured.content cp) =
        match Topology.ControlPlane_Replicas (ClusterBlueprint.Topology (Scope.Blueprint s)) with
        | Some n => Some (VInt n)
        | None => contract.NestedField contract.replicasPath (Unstructured.content generated)
        end
    ∧ contract.NestedField contract.versionPath (Unstructured.content cp) =
        Some (VString (Topology.Version (ClusterBlueprint.Topology (Scope.Blueprint s)))).
Proof.
  unfold computeControlPlane, controlPlaneInput.
  destruct (ClusterState.Cluster (Scope.Current s)) as [cluster|] eqn:Hc; [|done].
  run. rewrite mergeMap_union.
  destruct (templateToObject _ r) as [[[object [e|]] r2]|] eqn:Ht; [done| |done].
  pose proof (templateToObject_returns _ _ _ _ _ Ht) as [[_ [? [=]]]|[[generated ->] _]].
  run. intros H. exists cluster, generated. split; [done|].
  (* the object [cp1] that reaches the replicas block *)
  assert (∃ cp1 : Unstructured.t,
            contract.NestedField contract.replicasPath (Unstructured.content cp1)
              = contract.NestedField contract.replicasPath (Unstructured.content generated)
            ∧ ∃ cp2 : Unstructured.t,
                match Topology.ControlPlane_Replicas
                        (ClusterBlueprint.Topology (Scope.Blueprint s)) with
                | Some n => contract.Replicas_Set cp1 n = (cp2, None)
                | None => cp2 = cp1
                end
                ∧ contract.Version_Set cp2
                    (Topology.Version (ClusterBlueprint.Topology (Scope.Blueprint s)))
                  = (cp, None)
                ∧ r2 = r') as (cp1 & Hcp1 & cp2 & H2 & H3 & ->).
  { revert H. destruct (HasControlPlaneInfrastructureMachine (Scope.Blueprint s)).
    - destruct imt as [t|]; [|done]. run.
      destruct (contract.InfrastructureRef_Set generated t) as [cpa [e|]] eqn:Ha; [done|].
      run. destruct (contract.Metadata_Set cpa _) as [cpb [e|]] eqn:Hb; [done|].
      intros H. exists cpb. split.
      + apply setPath_inv in Ha as (ca & Ha & Hca), Hb as (cb & Hb & Hcb).
        rewrite Hcb. rewrite Hca in Hb. by frame.
      + revert H. destruct (Topology.ControlPlane_Replicas _) as [n|].
        * destruct (contract.Replicas_Set cpb n) as [cp2 [e|]] eqn:H2; [done|].
          destruct (contract.Version_Set cp2 _) as [cp3 [e|]] eqn:H3; [done|].
          intros [= -> ->]. eauto.
        * destruct (contract.Version_Set cpb _) as [cp3 [e|]] eqn:H3; [done|].
          intros [= -> ->]. eauto.
    - run. intros H. exists generated. split; [done|].
      revert H. destruct (Topology.ControlPlane_Replicas _) as [n|].
      + destruct (contract.Replicas_Set generated n) as [cp2 [e|]] eqn:H2; [done|].
        destruct (contract.Version_Set cp2 _) as [cp3 [e|]] eqn:H3; [done|].
        intros [= -> ->]. eauto.
      + destruct (contract.Version_Set generated _) as [cp3 [e|]] eqn:H3; [done|].
        intros [= -> ->]. eauto. }
  clear H. split; [done|].
  apply setPath_inv in H3 as (c3 & H3 & Hc3). rewrite Hc3.
  destruct (Topology.ControlPlane_Replicas _) as [n|].
  - apply setPath_inv in H2 as (c2 & H2 & Hc2). rewrite Hc2 in H3. split.
    + frame. by eapply NestedField_SetNestedField.
    + by eapply NestedField_SetNestedField.
  - subst cp2. split.
    + by frame.
    + by eapply NestedField_SetNestedField.
Qed.


Lemma computeDesiredState_eq (s : Scope.t) (r : Rand) :
  computeDesiredState s r =
    match computeInfrastructureCluster s r with
    | Panics => Panics
    | Returns ((_, Some err), r1) => Returns ((None, Some err), r1)
    | Returns ((ic, None), r1) =>
        match controlPlaneTemplateStep s r1 with
        | Panics => Panics
        | Returns ((_, Some err), r2) => Returns ((None, Some err), r2)
        | Returns ((imt, None), r2) =>
            match computeControlPlane s imt r2 with
            | Panics => Panics
            | Returns ((_, Some err), r3) => Returns ((None, Some err), r3)
            | Returns ((cp, None), r3) =>
                match computeCluster s ic cp r3 with
                | Panics => Panics
                | Returns (cluster, r4) =>
                    let desired :=
                      {| ClusterState.Cluster := Some cluster;
                         ClusterState.InfrastructureCluster := ic;
                         ClusterState.ControlPlane := Some (ControlPlaneState.mk cp imt);
                         ClusterState.MachineDeployments := None |} in
                    if HasMachineDeployments (Scope.Blueprint s)
                    then
                      match Topology.Workers (ClusterBlueprint.Topology (Scope.Blueprint s)) with
                      | Some workers =>
                          computeDesiredState_range s workers
                            (ClusterState.SetMachineDeployments (Some ∅) desired) r4
                      | None => Panics
                      end
                    else Returns ((Some desired, None), r4)
                end
            end
        end
    end.
Proof.
  unfold computeDesiredState, controlPlaneTemplateStep. run.
  destruct (computeInfrastructureCluster s r) as [[[ic [e|]] r1]|]; [done| |done].
  run. destruct (HasControlPlaneInfrastructureMachine (Scope.Blueprint s)).
  - run.
    destruct (computeControlPlaneInfrastructureMachineTemplate s r1) as [[[imt [e|]] r2]|];
      [done| |done].
    run. destruct (computeControlPlane s imt r2) as [[[cp [e|]] r3]|]; [done| |done].
    run. destruct (computeCluster s ic cp r3) as [[cluster r4]|]; [|done].
    run. destruct (HasMachineDeployments (Scope.Blueprint s)); [|done].
    run. by destruct (Topology.Workers _).
  - run. destruct (computeControlPlane s None r1) as [[[cp [e|]] r3]|]; [done| |done].
    run. destruct (computeCluster s ic cp r3) as [[cluster r4]|]; [|done].
    run. destruct (HasMachineDeployments (Scope.Blueprint s)); [|done].
    run. by destruct (Topology.Workers _).
Qed.

Lemma computeDesiredState_range_cons (s : Scope.t) md mds desired (r : Rand) :
  computeDesiredState_range s (md :: mds) desired r =
    match computeMachineDeployment s md r with
    | Panics => Panics
    | Returns ((_, Some err), r1) => Returns ((None, Some err), r1)
    | Returns ((x, None), r1) =>
        match ClusterState.MachineDeployments desired with
        | Some m =>
            computeDesiredState_range s mds
              (ClusterState.SetMachineDeployments
                 (Some (<[MachineDeploymentTopology.Name md := x]> m)) desired) r1
        | None => Panics
        end
    end.
Proof.
  simpl. run.
  destruct (computeMachineDeployment s md r) as [[[x [e|]] r1]|]; [done| |done].
  run. by destruct (ClusterState.MachineDeployments desired).
Qed.

Lemma range_success (s : Scope.t) mds : ∀ desired0 m0 (r : Rand) desired r',
  ClusterState.MachineDeployments desired0 = Some m0 →
  computeDesiredState_range s mds desired0 r = Returns ((Some desired, None), r') →
  ∃ m, desired = ClusterState.SetMachineDeployments (Some m) desired0
       ∧ computedAll s mds r r'
       ∧ dom m = dom m0 ∪ list_to_set (MachineDeploymentTopology.Name <$> mds)
       ∧ ∀ k state, m !! k = Some state →
           m0 !! k = Some state
           ∨ ∃ md r1 r2, md ∈ mds ∧ MachineDeploymentTopology.Name md = k
                         ∧ computeMachineDeployment s md r1 = Returns ((state, None), r2).
Proof.
  induction mds as [|md mds IH]; intros desired0 m0 r desired r' Hm0.
  - intros [= <- <-]. exists m0. split; [|split; [|split]].
    + destruct desired0; simpl in *; by subst.
    + constructor.
    + simpl. by rewrite (right_id_L ∅ (∪)).
    + eauto.
  - rewrite computeDesiredState_range_cons.
    destruct (computeMachineDeployment s md r) as [[[x [e|]] r1]|] eqn:Hmd; [done| |done].
    rewrite Hm0. intros H.
    apply (IH _ (<[MachineDeploymentTopology.Name md := x]> m0)) in H
      as (m & -> & Hall & Hdom & Hlook); [|done].
    exists m. split; [done|]. split; [by econstructor|]. split.
    + rewrite Hdom, dom_insert_L. simpl.
      by rewrite (comm_L (∪) {[MachineDeploymentTopology.Name md]} (dom m0)), (assoc_L (∪)).
    + intros k state Hk. apply Hlook in Hk as [Hk|(md' & r2 & r3 & Hin & <- & Hk)].
      * destruct (decide (MachineDeploymentTopology.Name md = k)) as [<-|Hne].
        -- rewrite lookup_insert_eq in Hk. simplify_eq.
           right. exists md, r, r1. split; [apply list_elem_of_here|done].
        -- rewrite lookup_insert_ne in Hk by done. eauto.
      * right. exists md', r2, r3. split; [by apply list_elem_of_further|done].
Qed.





Lemma controlPlaneTemplateStep_returns (s : Scope.t) (r : Rand) x err r1 :
  controlPlaneTemplateStep s r = Returns ((x, err), r1) →
  (x = None ∧ is_Some err)
  ∨ (err = None
     ∧ (is_Some x ↔ HasControlPlaneInfrastructureMachine (Scope.Blueprint s) = true)).
Proof.
  unfold controlPlaneTemplateStep.
  destruct (HasControlPlaneInfrastructureMachine (Scope.Blueprint s)).
  - rewrite computeControlPlaneInfrastructureMachineTemplate_eq.
    repeat case_match; try done; intros [= <- <- <-];
      first [by left; eauto | right; split; [done|]; by split; eauto].
  - intros [= <- <- <-]. right. split; [done|]. split; [by intros []|done].
Qed.








Lemma computeDesiredState_success (s : Scope.t) (r : Rand) desired r' :
  computeDesiredState s r = Returns ((Some desired, None), r') →
  ∃ current ic r1 imt r2 cp r3,
    ClusterState.Cluster (Scope.Current s) = Some current
    ∧ computeInfrastructureCluster s r = Returns ((Some ic, None), r1)
    ∧ controlPlaneTemplateStep s r1 = Returns ((imt, None), r2)
    ∧ computeControlPlane s imt r2 = Returns ((Some cp, None), r3)
    ∧ ClusterState.Cluster desired = Some (desiredCluster current ic cp)
    ∧ ClusterState.InfrastructureCluster desired = Some ic
    ∧ ClusterState.ControlPlane desired = Some (ControlPlaneState.mk (Some cp) imt)
    ∧ if HasMachineDeployments (Scope.Blueprint s)
      then ∃ workers m,
             Topology.Workers (ClusterBlueprint.Topology (Scope.Blueprint s)) = Some workers
             ∧ ClusterState.MachineDeployments desired = Some m
             ∧ computedAll s workers r3 r'
             ∧ dom m = list_to_set (MachineDeploymentTopology.Name <$> workers)
             ∧ ∀ k state, m !! k = Some state →
                 ∃ md r4 r5, md ∈ workers ∧ MachineDeploymentTopology.Name md = k
                   ∧ computeMachineDeployment s md r4 = Returns ((state, None), r5)
      else ClusterState.MachineDeployments desired = None ∧ r' = r3.
Proof.
  rewrite computeDesiredState_eq.
  destruct (computeInfrastructureCluster s r) as [[[ic [e|]] r1]|] eqn:H1; [done| |done].
  destruct (controlPlaneTemplateStep s r1) as [[[imt [e|]] r2]|] eqn:H2; [done| |done].
  destruct (computeControlPlane s imt r2) as [[[cp [e|]] r3]|] eqn:H3; [done| |done].
  rewrite computeCluster_eq.
  destruct (ClusterState.Cluster (Scope.Current s)) as [current|] eqn:Hc; [|done].
  destruct ic as [ic|]; [|done]. destruct cp as [cp|]; [|done]. simpl.
  intros H. exists current, ic, r1, imt, r2, cp, r3.
  destruct (HasMachineDeployments (Scope.Blueprint s)).
  - destruct (Topology.Workers _) as [workers|]; [|done].
    apply (range_success _ _ _ ∅) in H as (m & -> & Hall & Hdom & Hlook); [|done].
    do 7 (split; [done|]). exists workers, m. do 3 (split; [done|]). split.
    + rewrite Hdom, dom_empty_L. by rewrite (left_id_L ∅ (∪)).
    + intros k state Hk. by apply Hlook in Hk as [Hk|Hk].
  - by injection H as <- <-.
Qed.
End Equations.

(** ** The properties of the specification *)

Section Properties.
Context {C : Collaborators}.

Lemma reuseName_fields cur u :
  Unstructured.resourceVersion (reuseName cur u) = Unstructured.resourceVersion u
  ∧ Unstructured.uid (reuseName cur u) = Unstructured.uid u
  ∧ Unstructured.selfLink (reuseName cur u) = Unstructured.selfLink u
  ∧ Unstructured.finalizers (reuseName cur u) = Unstructured.finalizers u
  ∧ Unstructured.annotations (reuseName cur u) = Unstructured.annotations u.
Proof. unfold reuseName. destruct cur as [ref|]; [destruct (nonempty _)|]; done. Qed.

Lemma templateToTemplate_inv (i : templateToInput.t) (r : Rand) t r' :
  templateToTemplate i r = Returns (t, r') →
  ∃ source cluster ref,
    templateToInput.template i = Some source
    ∧ templateToInput.cluster i = Some cluster
    ∧ templateToInput.templateClonedFromRef i = Some ref
    ∧ GenerateName (templateToInput.namePrefix i) r
        = ((GenerateName (templateToInput.namePrefix i) r).1, r')
    ∧ t = clonedTemplate i source cluster ref
            (GenerateName (templateToInput.namePrefix i) r).1.
Proof.
  rewrite templateToTemplate_eq.
  destruct (templateToInput.template i) as [source|]; [|done].
  destruct (templateToInput.cluster i) as [cluster|]; [|done].
  destruct (templateToInput.templateClonedFromRef i) as [ref|]; [|done].
  intros [= <- <-]. exists source, cluster, ref.
  by destruct (GenerateName _ r).
Qed.

(** C10. For every input template, the template returned by
    [templateToTemplate] has an empty self-link, whatever self-link the
    source template carried. *)
Theorem templateToTemplate_clears_selfLink (i : templateToInput.t) (r : Rand) t r' :
  templateToTemplate i r = Returns (t, r') →
  Unstructured.GetSelfLink t = "".
Proof.
  intros (source & cluster & ref & _ & _ & _ & _ & ->)%templateToTemplate_inv.
  unfold Unstructured.GetSelfLink, clonedTemplate.
  by rewrite (proj1 (proj2 (proj2 (reuseName_fields _ _)))).
Qed.

Lemma update_insert p f u (h : store) (r : Rand) :
  update p f (<[p := u]> h) r = Returns (<[p := f u]> h, r).
Proof. unfold update. rewrite lookup_insert_eq. run. by rewrite insert_insert_eq. Qed.

Lemma load_insert p u (h : store) (r : Rand) :
  load p (<[p := u]> h) r = Returns (u, r).
Proof. unfold load. by rewrite lookup_insert_eq. Qed.

Lemma templateToTemplate_store_eq in_template i (h : store) (r : Rand) :
  templateToTemplate_store in_template i h r =
    match in_template with
    | None => Panics
    | Some p =>
        match (<[fresh (dom h) := Unstructured.empty]> h) !! p with
        | None => Panics
        | Some source =>
            match templateToTemplate (withTemplate source i) r with
            | Returns (t, r') => Returns ((fresh (dom h), <[fresh (dom h) := t]> h), r')
            | Panics => Panics
            end
        end
    end.
Proof.
  unfold templateToTemplate_store.
  destruct in_template as [p|]; [|done]. run. unfold load at 1.
  destruct (<[fresh (dom h) := Unstructured.empty]> h !! p) as [source|]; [|done].
  run. rewrite insert_insert_eq.
  rewrite templateToTemplate_eq. unfold clonedTemplate. simpl.
  repeat (rewrite ?update_insert, ?load_insert; run).
  destruct source as [av k n ns [l|] [a|] rv u sl f c]; simpl;
    destruct (templateToInput.cluster i) as [cluster|]; simpl; try done;
    destruct (templateToInput.templateClonedFromRef i) as [ref|]; simpl; try done.
  all: repeat (rewrite ?update_insert, ?load_insert; run).
  all: try done.
  all: destruct (GenerateName (templateToInput.namePrefix i) r) as [g r1]; simpl.
  all: repeat (rewrite ?update_insert, ?load_insert; run).
  all: done.
Qed.

(** C7. For every input template, the template returned by
    [templateToTemplate] has its resource version, UID and finalizers cleared,
    whatever the source template carried; and the source template is not
    modified: the result is a new object of the store (a deep copy), the
    object at the address of the source and every other object are what they
    were. [templateToTemplate_store] is the function on pointers; its result
    is the one the function on values, [templateToTemplate], computes from
    the source. *)
Theorem templateToTemplate_strips_and_copies (p : positive) (source : Unstructured.t)
    (i : templateToInput.t) (h : store) (r : Rand) q h' r' :
  h !! p = Some source →
  templateToTemplate_store (Some p) i h r = Returns ((q, h'), r') →
  h' !! p = Some source
  ∧ h !! q = None
  ∧ (∀ a, a ≠ q → h' !! a = h !! a)
  ∧ ∃ t, h' !! q = Some t
         ∧ templateToTemplate (withTemplate source i) r = Returns (t, r')
         ∧ Unstructured.GetResourceVersion t = ""
         ∧ Unstructured.GetUID t = ""
         ∧ Unstructured.GetFinalizers t = [].
Proof.
  intros Hp. rewrite templateToTemplate_store_eq.
  assert (fresh (dom h) ≠ p) as Hne.
  { intros <-. apply (is_fresh (dom h)). apply elem_of_dom. by eexists. }
  rewrite lookup_insert_ne, Hp by done.
  destruct (templateToTemplate (withTemplate source i) r) as [[t r1]|] eqn:Ht; [|done].
  intros [= <- <- <-].
  assert (h !! fresh (dom h) = None) as Hfresh.
  { apply not_elem_of_dom, is_fresh. }
  split; [by rewrite lookup_insert_ne|]. split; [done|].
  split; [intros a Ha; by rewrite lookup_insert_ne|].
  exists t. split; [by rewrite lookup_insert_eq|]. split; [done|].
  apply templateToTemplate_inv in Ht as (src & cluster & ref & _ & _ & _ & _ & ->).
  unfold Unstructured.GetResourceVersion, Unstructured.GetUID, Unstructured.GetFinalizers,
    clonedTemplate.
  pose proof (reuseName_fields (templateToInput.currentObjectRef (withTemplate source i)))
    as Hf.
  by rewrite (proj1 (Hf _)), (proj1 (proj2 (Hf _))), (proj1 (proj2 (proj2 (proj2 (Hf _))))).
Qed.

(** C8, amended. For every cloning input with cloned-from reference [ref],
    the template returned by [templateToTemplate] carries the provenance
    annotations: the cloned-from-name key mapped to the name of [ref] and
    the cloned-from-group-kind key mapped to the group-kind string of [ref]
    (kind, dot, group when the API version of [ref] has a group; the kind
    alone otherwise); every other annotation is the one of the source
    template. The two annotation keys are assumed to be different strings. *)
Theorem templateToTemplate_provenance (i : templateToInput.t) (r : Rand) t r' :
  TemplateClonedFromNameAnnotation ≠ TemplateClonedFromGroupKindAnnotation →
  templateToTemplate i r = Returns (t, r') →
  ∃ source ref,
    templateToInput.template i = Some source
    ∧ templateToInput.templateClonedFromRef i = Some ref
    ∧ mapindex (Unstructured.GetAnnotations t) TemplateClonedFromNameAnnotation
        = Some (ObjectReference.Name ref)
    ∧ mapindex (Unstructured.GetAnnotations t) TemplateClonedFromGroupKindAnnotation
        = Some (if nonempty (schema.group (ObjectReference.APIVersion ref))
                then ObjectReference.Kind ref +:+ "." +:+
                     schema.group (ObjectReference.APIVersion ref)
                else ObjectReference.Kind ref)
    ∧ ∀ k, k ≠ TemplateClonedFromNameAnnotation →
           k ≠ TemplateClonedFromGroupKindAnnotation →
           mapindex (Unstructured.GetAnnotations t) k
             = mapindex (Unstructured.GetAnnotations source) k.
Proof.
  intros Hne (source & cluster & ref & Hs & _ & Href & _ & ->)%templateToTemplate_inv.
  exists source, ref. split; [done|]. split; [done|].
  unfold Unstructured.GetAnnotations, clonedTemplate.
  rewrite (proj2 (proj2 (proj2 (proj2 (reuseName_fields _ _))))). simpl.
  split; [|split].
  - by rewrite lookup_insert_ne, lookup_insert_eq.
  - by rewrite lookup_insert_eq.
  - intros k Hk1 Hk2. rewrite !lookup_insert_ne by done.
    destruct (Unstructured.annotations source); [done|]. apply lookup_empty.
Qed.

Lemma reuseName_name cur u :
  Unstructured.name (reuseName cur u) =
    match cur with
    | Some ref =>
        if nonempty (ObjectReference.Name ref) then ObjectReference.Name ref
        else Unstructured.name u
    | None => Unstructured.name u
    end.
Proof. unfold reuseName. destruct cur as [ref|]; [destruct (nonempty _)|]; done. Qed.

Lemma computeMachineDeployment_success (s : Scope.t) md (r : Rand) state r' :
  computeMachineDeployment s md r = Returns ((state, None), r') →
  ∃ bp cluster g1 r1 g2 r2 g3,
    ClusterBlueprint.MachineDeployments (Scope.Blueprint s)
      !! MachineDeploymentTopology.Class md = Some bp
    ∧ ClusterState.Cluster (Scope.Current s) = Some cluster
    ∧ GenerateName (templateToInput.namePrefix (bootstrapInput s md bp cluster)) r = (g1, r1)
    ∧ GenerateName (templateToInput.namePrefix (infraMachineInput s md bp cluster)) r1 = (g2, r2)
    ∧ GenerateName (machineDeploymentNamePrefix cluster md) r2 = (g3, r')
    ∧ state =
        let bt := withDeploymentLabel (MachineDeploymentTopology.Name md)
                    (clonedTemplate (bootstrapInput s md bp cluster)
                       (MachineDeploymentBlueprint.BootstrapTemplate bp) cluster
                       (contract.ObjToRef (MachineDeploymentBlueprint.BootstrapTemplate bp))
                       g1) in
        let imt := withDeploymentLabel (MachineDeploymentTopology.Name md)
                     (clonedTemplate (infraMachineInput s md bp cluster)
                        (MachineDeploymentBlueprint.InfrastructureMachineTemplate bp) cluster
                        (contract.ObjToRef
                           (MachineDeploymentBlueprint.InfrastructureMachineTemplate bp))
                        g2) in
        Some (MachineDeploymentState.mk
                (Some (desiredMachineDeploymentObject s md bp cluster bt imt g3))
                (Some bt) (Some imt)).
Proof.
  rewrite computeMachineDeployment_eq.
  destruct (ClusterBlueprint.MachineDeployments _ !! _) as [bp|] eqn:Hbp; [|done].
  destruct (ClusterState.Cluster (Scope.Current s)) as [cluster|] eqn:Hc; [|done].
  destruct (currentReadable s _); [|done]. simpl.
  destruct (GenerateName _ r) as [g1 r1] eqn:H1. simpl.
  destruct (GenerateName _ r1) as [g2 r2] eqn:H2. simpl.
  destruct (GenerateName _ r2) as [g3 r3] eqn:H3. simpl.
  intros [= <- <-]. by exists bp, cluster, g1, r1, g2, r2, g3.
Qed.

(** C4, amended. For [templateToObject] and [templateToTemplate]: if the
    current object reference is non-nil and carries a non-empty name, the
    name of the computed object is exactly that name; otherwise it is a name
    generated from the name prefix of the input. For the MachineDeployment
    object of [computeMachineDeployment]: if the current state holds a
    MachineDeployment object for the worker group, the computed object has
    the name of that object, whatever it is; otherwise its name is generated
    from the prefix made of the cluster name and the worker group name. *)
Theorem names_reused_or_generated :
  (∀ (i : templateToInput.t) (r : Rand) object r',
     templateToObject i r = Returns ((Some object, None), r') →
     clonerNameRule i (Unstructured.GetName object) r')
  ∧ (∀ (i : templateToInput.t) (r : Rand) t r',
       templateToTemplate i r = Returns (t, r') →
       clonerNameRule i (Unstructured.GetName t) r')
  ∧ (∀ (s : Scope.t) (md : MachineDeploymentTopology.t) (r : Rand) state object r',
       computeMachineDeployment s md r = Returns ((Some state, None), r') →
       MachineDeploymentState.Object state = Some object →
       ∃ cluster, ClusterState.Cluster (Scope.Current s) = Some cluster
         ∧ match currentObjectOf s (MachineDeploymentTopology.Name md) with
           | Some current => MachineDeployment.Name object = MachineDeployment.Name current
           | None =>
               generatedFrom (machineDeploymentNamePrefix cluster md)
                 (MachineDeployment.Name object) r'
           end).
Proof.
  split; [|split].
  - intros i r object r'. rewrite templateToObject_eq.
    destruct (templateToInput.cluster i) as [cluster|]; [|done].
    destruct (GenerateTemplate _ r) as [[generated|err] r1]; [|done].
    intros [= <- <-]. unfold clonerNameRule, Unstructured.GetName.
    rewrite reuseName_name. simpl.
    assert (generatedFrom (templateToInput.namePrefix i)
              (GenerateName (templateToInput.namePrefix i) r1).1
              (GenerateName (templateToInput.namePrefix i) r1).2) as Hg.
    { exists r1. by destruct (GenerateName _ r1). }
    destruct (templateToInput.currentObjectRef i) as [ref|]; [|done].
    by destruct (nonempty _).
  - intros i r t r' (source & cluster & ref & _ & _ & _ & Hg & ->)%templateToTemplate_inv.
    unfold clonerNameRule, Unstructured.GetName, clonedTemplate.
    rewrite reuseName_name. simpl.
    assert (generatedFrom (templateToInput.namePrefix i)
              (GenerateName (templateToInput.namePrefix i) r).1 r') as Hg' by by exists r.
    destruct (templateToInput.currentObjectRef i) as [ref'|]; [|done].
    by destruct (nonempty _).
  - intros s md r state object r'
      (bp & cluster & g1 & r1 & g2 & r2 & g3 & _ & Hc & _ & _ & Hg & [= ->])%computeMachineDeployment_success.
    simpl. intros [= <-]. exists cluster. split; [done|]. simpl.
    destruct (currentObjectOf s _); [done|]. by exists r2.
Qed.

(** C6. For all string maps [primary] and [secondary], nil or not,
    [mergeMap primary secondary] is the union of the two maps in which a key
    of both takes the value of [primary] and a key of [secondary] alone keeps
    its value; [mergeMap {"a":"1"} {"a":"2","b":"3"}] is [{"a":"1","b":"3"}].
    [mergeMap] is a total function that returns a map and no error. *)
Theorem mergeMap_primary_wins (primary secondary : gomap) :
  mergeMap primary secondary = Some (default ∅ primary ∪ default ∅ secondary)
  ∧ (∀ k, mapindex (mergeMap primary secondary) k =
          match mapindex primary k with
          | Some v => Some v
          | None => mapindex secondary k
          end)
  ∧ mergeMap (Some {["a" := "1"]}) (Some {["a" := "2"; "b" := "3"]})
      = Some {["a" := "1"; "b" := "3"]}.
Proof.
  split; [apply mergeMap_union|]. split.
  - intros k. rewrite mergeMap_union.
    destruct primary as [a|], secondary as [b|]; simpl;
      rewrite (lookup_union (M := gmap string)), ?lookup_empty.
    + by destruct (a !! k), (b !! k).
    + by destruct (a !! k).
    + by destruct (b !! k).
    + done.
  - vm_compute. reflexivity.
Qed.

Lemma topologyLabelled_base (m : gmap string string) (clusterName : string) :
  ClusterLabelName ≠ ClusterTopologyOwnedLabel →
  topologyLabelled
    (Some (<[ClusterTopologyOwnedLabel := ""]> (<[ClusterLabelName := clusterName]> m)))
    clusterName.
Proof.
  intros Hne. split; simpl.
  - by rewrite lookup_insert_ne, lookup_insert_eq.
  - by rewrite lookup_insert_eq.
Qed.

Lemma topologyLabelled_insert (m : gmap string string) (clusterName k v : string) :
  ClusterLabelName ≠ k → ClusterTopologyOwnedLabel ≠ k →
  topologyLabelled (Some m) clusterName →
  topologyLabelled (Some (<[k := v]> m)) clusterName.
Proof. intros H1 H2 [Ha Hb]. split; simpl in *; by rewrite lookup_insert_ne. Qed.

Lemma clonedTemplate_labelled i source cluster ref g :
  ClusterLabelName ≠ ClusterTopologyOwnedLabel →
  topologyLabelled (Unstructured.labels (clonedTemplate i source cluster ref g))
    (Cluster.Name cluster).
Proof. intros Hne. rewrite clonedTemplate_labels. by apply topologyLabelled_base. Qed.

Lemma withDeploymentLabel_labelled mdName i source cluster ref g :
  labelKeysDistinct →
  topologyLabelled
    (Unstructured.labels (withDeploymentLabel mdName (clonedTemplate i source cluster ref g)))
    (Cluster.Name cluster).
Proof.
  intros (H1 & H2 & H3). unfold withDeploymentLabel. simpl.
  rewrite clonedTemplate_labels. simpl.
  apply topologyLabelled_insert; [done..|]. by apply topologyLabelled_base.
Qed.

(** C3. In the desired state of a successful pass the objects of the claim
    are there and labelled: the cluster object; the control-plane
    infrastructure machine template, when the cluster class mandates one; and,
    for every machine deployment of the topology, an entry that holds the
    MachineDeployment object, the bootstrap template and the infrastructure
    machine template. Each of them, and every template and object that the
    desired state holds at all, has a label map in which the cluster-identity
    key holds the name of the cluster and the topology-ownership key holds the
    empty string. The three label keys of the API are assumed to be different
    strings. *)
Theorem computed_objects_labelled (s : Scope.t) (r : Rand) desired r' :
  labelKeysDistinct →
  computeDesiredState s r = Returns ((Some desired, None), r') →
  ∃ current,
    ClusterState.Cluster (Scope.Current s) = Some current
    ∧ (∃ cluster, ClusterState.Cluster desired = Some cluster
         ∧ Cluster.Name cluster = Cluster.Name current
         ∧ topologyLabelled (Cluster.Labels cluster) (Cluster.Name current))
    ∧ (HasControlPlaneInfrastructureMachine (Scope.Blueprint s) = true →
       ∃ controlPlane template,
         ClusterState.ControlPlane desired = Some controlPlane
         ∧ ControlPlaneState.InfrastructureMachineTemplate controlPlane = Some template
         ∧ topologyLabelled (Unstructured.GetLabels template) (Cluster.Name current))
    ∧ (∀ md,
         md ∈ default [] (Topology.Workers (ClusterBlueprint.Topology (Scope.Blueprint s))) →
         ∃ m state object bootstrapTemplate infraMachineTemplate,
           ClusterState.MachineDeployments desired = Some m
           ∧ m !! MachineDeploymentTopology.Name md = Some (Some state)
           ∧ MachineDeploymentState.Object state = Some object
           ∧ MachineDeploymentState.BootstrapTemplate state = Some bootstrapTemplate
           ∧ MachineDeploymentState.InfrastructureMachineTemplate state
               = Some infraMachineTemplate
           ∧ topologyLabelled (Unstructured.GetLabels bootstrapTemplate) (Cluster.Name current)
           ∧ topologyLabelled (Unstructured.GetLabels infraMachineTemplate)
               (Cluster.Name current)
           ∧ topologyLabelled (MachineDeployment.Labels object) (Cluster.Name current))
    ∧ (∀ controlPlane template,
         ClusterState.ControlPlane desired = Some controlPlane →
         ControlPlaneState.InfrastructureMachineTemplate controlPlane = Some template →
         topologyLabelled (Unstructured.GetLabels template) (Cluster.Name current))
    ∧ (∀ m name entry,
         ClusterState.MachineDeployments desired = Some m →
         m !! name = Some entry →
         ∃ state object bootstrapTemplate infraMachineTemplate,
           entry = Some state
           ∧ MachineDeploymentState.Object state = Some object
           ∧ MachineDeploymentState.BootstrapTemplate state = Some bootstrapTemplate
           ∧ MachineDeploymentState.InfrastructureMachineTemplate state
               = Some infraMachineTemplate
           ∧ topologyLabelled (Unstructured.GetLabels bootstrapTemplate) (Cluster.Name current)
           ∧ topologyLabelled (Unstructured.GetLabels infraMachineTemplate)
               (Cluster.Name current)
           ∧ topologyLabelled (MachineDeployment.Labels object) (Cluster.Name current)).
Proof.
  intros Hkeys H. pose proof Hkeys as (Hk1 & Hk2 & Hk3).
  apply computeDesiredState_success
    in H as (current & ic & r1 & imt & r2 & cp & r3 & Hc & _ & H2 & _ & Hcl & _ & Hcp & Hmd).
  (* the control-plane infrastructure machine template *)
  assert (∀ template, imt = Some template →
            topologyLabelled (Unstructured.GetLabels template) (Cluster.Name current))
    as Htemplate.
  { intros template ->. unfold controlPlaneTemplateStep in H2.
    destruct (HasControlPlaneInfrastructureMachine (Scope.Blueprint s)); [|done].
    rewrite computeControlPlaneInfrastructureMachineTemplate_eq in H2.
    destruct (ClusterClass.Spec_ControlPlane_MachineInfrastructure _) as [mi|]; [|done].
    destruct ((currentControlPlaneTemplateRef s).2); [done|].
    rewrite Hc in H2.
    destruct (templateToTemplate _ r1) as [[t r2']|] eqn:Ht; [|done].
    injection H2 as -> ->.
    apply templateToTemplate_inv in Ht as (source & cluster & ref & _ & Hcluster & _ & _ & ->).
    simpl in Hcluster. rewrite Hc in Hcluster. injection Hcluster as <-.
    by apply clonedTemplate_labelled. }
  (* the entries of the map *)
  assert (∀ m name entry,
            ClusterState.MachineDeployments desired = Some m →
            m !! name = Some entry →
            ∃ state object bootstrapTemplate infraMachineTemplate,
              entry = Some state
              ∧ MachineDeploymentState.Object state = Some object
              ∧ MachineDeploymentState.BootstrapTemplate state = Some bootstrapTemplate
              ∧ MachineDeploymentState.InfrastructureMachineTemplate state
                  = Some infraMachineTemplate
              ∧ topologyLabelled (Unstructured.GetLabels bootstrapTemplate)
                  (Cluster.Name current)
              ∧ topologyLabelled (Unstructured.GetLabels infraMachineTemplate)
                  (Cluster.Name current)
              ∧ topologyLabelled (MachineDeployment.Labels object) (Cluster.Name current))
    as Hentries.
  { intros m name entry Hm Hentry.
    destruct (HasMachineDeployments (Scope.Blueprint s)).
    2: { destruct Hmd as [Hnone _]. by rewrite Hnone in Hm. }
    destruct Hmd as (workers & m' & _ & Hm' & _ & _ & Hlook).
    rewrite Hm' in Hm. injection Hm as ->.
    apply Hlook in Hentry as (md & r4 & r5 & _ & _ & Hentry).
    apply computeMachineDeployment_success
      in Hentry as (bp & cluster & g1 & ra & g2 & rb & g3 & _ & Hcluster & _ & _ & _ & ->).
    rewrite Hc in Hcluster. injection Hcluster as <-.
    eexists _, _, _, _. split; [done|]. do 3 (split; [done|]).
    split; [by apply withDeploymentLabel_labelled|].
    split; [by apply withDeploymentLabel_labelled|]. simpl.
    apply topologyLabelled_insert; [done..|]. by apply topologyLabelled_base. }
  exists current. split; [done|]. split; [|split; [|split; [|split]]].
  - eexists. split; [done|]. split; [done|]. simpl. by apply topologyLabelled_base.
  - intros Hhas.
    apply controlPlaneTemplateStep_returns in H2 as [[_ [? [=]]]|[_ Himt]].
    destruct (proj2 Himt Hhas) as [template ->].
    eexists _, template. split; [done|]. split; [done|]. by apply Htemplate.
  - intros md Hin.
    destruct (HasMachineDeployments (Scope.Blueprint s)) eqn:Hhas.
    2: { unfold HasMachineDeployments in Hhas.
         destruct (Topology.Workers _) as [[|? ?]|]; simpl in *;
           [by apply elem_of_nil in Hin|done|by apply elem_of_nil in Hin]. }
    destruct Hmd as (workers & m & Hw & Hm & _ & Hdom & _).
    rewrite Hw in Hin. simpl in Hin.
    assert (MachineDeploymentTopology.Name md ∈ dom m) as [entry Hentry]%elem_of_dom.
    { rewrite Hdom. apply elem_of_list_to_set, list_elem_of_fmap. by exists md. }
    destruct (Hentries _ _ _ Hm Hentry) as (state & object & bt & it & -> & H).
    by exists m, state, object, bt, it.
  - intros controlPlane template. rewrite Hcp. intros [= <-]. simpl. apply Htemplate.
  - exact Hentries.
Qed.

(** C2. Whenever [computeDesiredState] succeeds, the key set of the
    [MachineDeployments] map of the desired state is exactly the set of the
    names of the machine deployments of the topology, whatever the current
    state contains (a nil map has no key). *)
Theorem machineDeployments_keys (s : Scope.t) (r : Rand) desired r' :
  computeDesiredState s r = Returns ((Some desired, None), r') →
  dom (default ∅ (ClusterState.MachineDeployments desired)) =
    list_to_set (MachineDeploymentTopology.Name <$>
                   default [] (Topology.Workers (ClusterBlueprint.Topology (Scope.Blueprint s)))).
Proof.
  intros H.
  apply computeDesiredState_success
    in H as (current & ic & r1 & imt & r2 & cp & r3 & _ & _ & _ & _ & _ & _ & _ & Hmd).
  unfold HasMachineDeployments in Hmd.
  destruct (Topology.Workers _) as [[|md mds]|]; simpl in Hmd.
  - destruct Hmd as [-> _]. simpl. by rewrite dom_empty_L.
  - destruct Hmd as (workers & m & [= <-] & -> & _ & Hdom & _). done.
  - destruct Hmd as [-> _]. simpl. by rewrite dom_empty_L.
Qed.








End Properties.

(** ** Further properties of the source *)

(** *** The components of a pass *)

Section Components.
Context {C : Collaborators}.

(** Reading a key of a map after the assignments of the topology labels. *)
Lemma mapindex_insert_other (m : gmap string string) (k k' v : string) :
  k ≠ k' → mapindex (Some (<[k' := v]> m)) k = mapindex (Some m) k.
Proof. intros Hne. simpl. by rewrite lookup_insert_ne. Qed.

Lemma mapindex_default (m : gomap) (k : string) :
  mapindex (Some (default ∅ m)) k = mapindex m k.
Proof. by destruct m. Qed.

Lemma mapindex_union (a b : gomap) (k : string) :
  mapindex (Some (default ∅ a ∪ default ∅ b)) k =
    match mapindex a k with
    | Some v => Some v
    | None => mapindex b k
    end.
Proof.
  simpl. rewrite (lookup_union (M := gmap string)).
  destruct a as [a|], b as [b|]; simpl; rewrite ?lookup_empty;
    try destruct (a !! k); try destruct (b !! k); done.
Qed.

Lemma reuseName_kept cur u :
  Unstructured.apiVersion (reuseName cur u) = Unstructured.apiVersion u
  ∧ Unstructured.kind (reuseName cur u) = Unstructured.kind u
  ∧ Unstructured.namespace (reuseName cur u) = Unstructured.namespace u
  ∧ Unstructured.content (reuseName cur u) = Unstructured.content u.
Proof. destruct cur as [ref|]; simpl; [destruct (nonempty _)|]; done. Qed.

(** With a current reference of non-empty name, the clone does not depend on
    the generated name. *)
Lemma clonedTemplate_reused i source cluster ref cur g g' :
  templateToInput.currentObjectRef i = Some cur →
  nonempty (ObjectReference.Name cur) = true →
  clonedTemplate i source cluster ref g = clonedTemplate i source cluster ref g'.
Proof. unfold clonedTemplate, reuseName. by intros -> ->. Qed.

(** With current references of non-empty names and a current object, the
    state of a machine deployment does not depend on the generated names. *)
Lemma machineDeploymentState_reused (s : Scope.t) md bp cluster bootstrapRef infraRef object
    g1 g2 g3 g1' g2' g3' :
  currentBootstrapTemplateRefOf s (MachineDeploymentTopology.Name md) = Some bootstrapRef →
  nonempty (ObjectReference.Name bootstrapRef) = true →
  currentInfraMachineTemplateRefOf s (MachineDeploymentTopology.Name md) = Some infraRef →
  nonempty (ObjectReference.Name infraRef) = true →
  currentObjectOf s (MachineDeploymentTopology.Name md) = Some object →
  let bt g := withDeploymentLabel (MachineDeploymentTopology.Name md)
                (clonedTemplate (bootstrapInput s md bp cluster)
                   (MachineDeploymentBlueprint.BootstrapTemplate bp) cluster
                   (contract.ObjToRef (MachineDeploymentBlueprint.BootstrapTemplate bp)) g) in
  let imt g := withDeploymentLabel (MachineDeploymentTopology.Name md)
                 (clonedTemplate (infraMachineInput s md bp cluster)
                    (MachineDeploymentBlueprint.InfrastructureMachineTemplate bp) cluster
                    (contract.ObjToRef
                       (MachineDeploymentBlueprint.InfrastructureMachineTemplate bp)) g) in
  MachineDeploymentState.mk
    (Some (desiredMachineDeploymentObject s md bp cluster (bt g1) (imt g2) g3))
    (Some (bt g1)) (Some (imt g2))
  = MachineDeploymentState.mk
      (Some (desiredMachineDeploymentObject s md bp cluster (bt g1') (imt g2') g3'))
      (Some (bt g1')) (Some (imt g2')).
Proof.
  intros Hb Hbn Hi Hin Hobject bt imt. subst bt imt. cbv beta.
  rewrite (clonedTemplate_reused (bootstrapInput s md bp cluster) _ _ _ bootstrapRef g1 g1')
    by done.
  rewrite (clonedTemplate_reused (infraMachineInput s md bp cluster) _ _ _ infraRef g2 g2')
    by done.
  unfold desiredMachineDeploymentObject. by rewrite Hobject.
Qed.

(** X1. In the desired state of a successful pass, the Cluster object
    references the objects computed in the same pass: its infrastructure
    reference is the reference to the desired InfrastructureCluster object,
    and its control-plane reference is the reference to the desired
    ControlPlane object. *)
Theorem cluster_references_computed_objects (s : Scope.t) (r : Rand) desired r' :
  computeDesiredState s r = Returns ((Some desired, None), r') →
  ∃ cluster infrastructureCluster controlPlaneState controlPlane,
    ClusterState.Cluster desired = Some cluster
    ∧ ClusterState.InfrastructureCluster desired = Some infrastructureCluster
    ∧ ClusterState.ControlPlane desired = Some controlPlaneState
    ∧ ControlPlaneState.Object controlPlaneState = Some controlPlane
    ∧ Cluster.Spec_InfrastructureRef cluster
        = Some (contract.ObjToRef infrastructureCluster)
    ∧ Cluster.Spec_ControlPlaneRef cluster = Some (contract.ObjToRef controlPlane).
Proof.
  intros H. apply computeDesiredState_success in H
    as (current & ic & r1 & imt & r2 & cp & r3 & _ & _ & _ & _ & Hc & Hic & Hcp & _).
  by exists (desiredCluster current ic cp), ic, (ControlPlaneState.mk (Some cp) imt), cp.
Qed.

(** X2. [computeCluster] works on a copy of the current Cluster: the
    computed Cluster has the name, the namespace and the annotations of the
    current one, and every label of the current one other than the two
    topology labels, which it sets. It draws no name from the random source. *)
Theorem computeCluster_keeps_current (s : Scope.t) ic cp (r : Rand) cluster r' :
  computeCluster s ic cp r = Returns (cluster, r') →
  ∃ current,
    ClusterState.Cluster (Scope.Current s) = Some current
    ∧ r' = r
    ∧ Cluster.Name cluster = Cluster.Name current
    ∧ Cluster.Namespace cluster = Cluster.Namespace current
    ∧ Cluster.Annotations cluster = Cluster.Annotations current
    ∧ ∀ k, k ≠ ClusterLabelName → k ≠ ClusterTopologyOwnedLabel →
        mapindex (Cluster.Labels cluster) k = mapindex (Cluster.Labels current) k.
Proof.
  rewrite computeCluster_eq.
  destruct (ClusterState.Cluster (Scope.Current s)) as [current|]; [|done].
  destruct ic as [ic|]; [|done]. destruct cp as [cp|]; [|done].
  intros [= <- <-]. exists current. repeat (split; [done|]).
  intros k H1 H2. cbn [desiredCluster Cluster.Labels].
  by rewrite !mapindex_insert_other, mapindex_default.
Qed.

(** X3. In the state that [computeMachineDeployment] returns, the
    MachineDeployment object references the two templates of that state: its
    bootstrap config reference is the reference to the bootstrap template, and
    its infrastructure reference is the reference to the infrastructure
    machine template, both as they are returned, named and labelled. *)
Theorem machineDeployment_references_templates (s : Scope.t) md (r : Rand) state r' :
  computeMachineDeployment s md r = Returns ((Some state, None), r') →
  ∃ object bootstrapTemplate infraMachineTemplate,
    MachineDeploymentState.Object state = Some object
    ∧ MachineDeploymentState.BootstrapTemplate state = Some bootstrapTemplate
    ∧ MachineDeploymentState.InfrastructureMachineTemplate state = Some infraMachineTemplate
    ∧ MachineDeployment.Spec_Template_Spec_Bootstrap_ConfigRef object
        = Some (contract.ObjToRef bootstrapTemplate)
    ∧ MachineDeployment.Spec_Template_Spec_InfrastructureRef object
        = contract.ObjToRef infraMachineTemplate.
Proof.
  intros H. apply computeMachineDeployment_success in H
    as (bp & cluster & g1 & r1 & g2 & r2 & g3 & _ & _ & _ & _ & _ & [= ->]).
  by eexists _, _, _.
Qed.

(** X4. [computeMachineDeployment] puts the name that the machine
    deployment has in the topology, under the deployment-name label, on the
    bootstrap template, on the infrastructure machine template, on the
    MachineDeployment object and on the machine template of the object
    ([spec.template.labels]). The object itself carries no label besides the
    three topology labels. *)
Theorem machineDeployment_deployment_label (s : Scope.t) md (r : Rand) state r' :
  computeMachineDeployment s md r = Returns ((Some state, None), r') →
  ∃ object bootstrapTemplate infraMachineTemplate,
    MachineDeploymentState.Object state = Some object
    ∧ MachineDeploymentState.BootstrapTemplate state = Some bootstrapTemplate
    ∧ MachineDeploymentState.InfrastructureMachineTemplate state = Some infraMachineTemplate
    ∧ mapindex (Unstructured.GetLabels bootstrapTemplate)
        ClusterTopologyMachineDeploymentLabelName
        = Some (MachineDeploymentTopology.Name md)
    ∧ mapindex (Unstructured.GetLabels infraMachineTemplate)
        ClusterTopologyMachineDeploymentLabelName
        = Some (MachineDeploymentTopology.Name md)
    ∧ mapindex (MachineDeployment.Labels object) ClusterTopologyMachineDeploymentLabelName
        = Some (MachineDeploymentTopology.Name md)
    ∧ mapindex (MachineDeployment.Spec_Template_Labels object)
        ClusterTopologyMachineDeploymentLabelName
        = Some (MachineDeploymentTopology.Name md)
    ∧ ∀ k, k ≠ ClusterLabelName → k ≠ ClusterTopologyOwnedLabel →
           k ≠ ClusterTopologyMachineDeploymentLabelName →
           mapindex (MachineDeployment.Labels object) k = None.
Proof.
  intros H. apply computeMachineDeployment_success in H
    as (bp & cluster & g1 & r1 & g2 & r2 & g3 & _ & _ & _ & _ & _ & [= ->]).
  eexists _, _, _. repeat (split; [done|]).
  repeat (split; [by apply lookup_insert_eq|]).
  intros k H1 H2 H3. cbn [desiredMachineDeploymentObject MachineDeployment.Labels].
  by rewrite !mapindex_insert_other.
Qed.

(** X5. The labels of the machine template of the computed
    MachineDeployment object are, apart from the three topology labels, the
    labels of the topology merged over those of the class: for a key that
    both give, the value of the topology. Its annotations are the annotations
    of the topology merged over those of the class. *)
Theorem machineDeployment_template_metadata (s : Scope.t) md (r : Rand) state r' :
  computeMachineDeployment s md r = Returns ((Some state, None), r') →
  ∃ class object,
    ClusterBlueprint.MachineDeployments (Scope.Blueprint s)
      !! MachineDeploymentTopology.Class md = Some class
    ∧ MachineDeploymentState.Object state = Some object
    ∧ (∀ k, k ≠ ClusterLabelName → k ≠ ClusterTopologyOwnedLabel →
            k ≠ ClusterTopologyMachineDeploymentLabelName →
            mapindex (MachineDeployment.Spec_Template_Labels object) k =
              match mapindex (ObjectMeta.Labels (MachineDeploymentTopology.Metadata md)) k with
              | Some v => Some v
              | None => mapindex (ObjectMeta.Labels (MachineDeploymentBlueprint.Metadata class)) k
              end)
    ∧ (∀ k, mapindex (MachineDeployment.Spec_Template_Annotations object) k =
              match mapindex (ObjectMeta.Annotations (MachineDeploymentTopology.Metadata md)) k
              with
              | Some v => Some v
              | None =>
                  mapindex (ObjectMeta.Annotations (MachineDeploymentBlueprint.Metadata class)) k
              end).
Proof.
  intros H. apply computeMachineDeployment_success in H
    as (bp & cluster & g1 & r1 & g2 & r2 & g3 & Hbp & _ & _ & _ & _ & [= ->]).
  eexists bp, _. repeat (split; [done|]). split.
  - intros k H1 H2 H3.
    cbn [desiredMachineDeploymentObject MachineDeployment.Spec_Template_Labels
         MachineDeploymentState.Object].
    rewrite !mapindex_insert_other by done. apply mapindex_union.
  - intros k. apply mapindex_union.
Qed.

(** X6. The computed MachineDeployment object has the kind
    MachineDeployment and the API version of [clusterv1.GroupVersion]; it
    lives in the namespace of the current cluster, names the current cluster
    at [spec.clusterName] and at [spec.template.spec.clusterName], asks for
    the version of the topology, and its replicas are those of the machine
    deployment in the topology, nil when the topology gives none. *)
Theorem machineDeployment_spec (s : Scope.t) md (r : Rand) state r' :
  computeMachineDeployment s md r = Returns ((Some state, None), r') →
  ∃ cluster object,
    ClusterState.Cluster (Scope.Current s) = Some cluster
    ∧ MachineDeploymentState.Object state = Some object
    ∧ MachineDeployment.Kind object = "MachineDeployment"
    ∧ MachineDeployment.APIVersion object
        = schema.GroupVersion_String GroupVersion_Group GroupVersion_Version
    ∧ MachineDeployment.Namespace object = Cluster.Namespace cluster
    ∧ MachineDeployment.Spec_ClusterName object = Cluster.Name cluster
    ∧ MachineDeployment.Spec_Template_Spec_ClusterName object = Cluster.Name cluster
    ∧ MachineDeployment.Spec_Template_Spec_Version object
        = Some (Topology.Version (ClusterBlueprint.Topology (Scope.Blueprint s)))
    ∧ MachineDeployment.Spec_Replicas object = MachineDeploymentTopology.Replicas md.
Proof.
  intros H. apply computeMachineDeployment_success in H
    as (bp & cluster & g1 & r1 & g2 & r2 & g3 & _ & Hc & _ & _ & _ & [= ->]).
  by eexists cluster, _.
Qed.

(** X7. [computeMachineDeployment] returns an error in exactly one case:
    the blueprint has no class of the name that the machine deployment asks
    for. The error names the class and the cluster class, no state comes with
    it, and no name has been drawn from the random source. *)
Theorem computeMachineDeployment_error (s : Scope.t) md (r : Rand) :
  (ClusterBlueprint.MachineDeployments (Scope.Blueprint s)
     !! MachineDeploymentTopology.Class md = None →
   computeMachineDeployment s md r
     = Returns ((None, Some (Errorf
         ("MachineDeployment blueprint " +:+ MachineDeploymentTopology.Class md
            +:+ " not found in ClusterClass "
            +:+ ClusterClass.Name (ClusterBlueprint.ClusterClass (Scope.Blueprint s))))), r))
  ∧ (∀ x err r',
       computeMachineDeployment s md r = Returns ((x, Some err), r') →
       ClusterBlueprint.MachineDeployments (Scope.Blueprint s)
         !! MachineDeploymentTopology.Class md = None
       ∧ x = None ∧ r' = r).
Proof.
  rewrite computeMachineDeployment_eq. split.
  - by intros ->.
  - intros x err r'.
    destruct (ClusterBlueprint.MachineDeployments _ !! _) as [bp|]; [|by intros [= <- <- <-]].
    destruct (ClusterState.Cluster (Scope.Current s)); [|done].
    by destruct (currentReadable s _).
Qed.

(** X8. The template that [templateToTemplate] returns has the API
    version, the kind, the namespace and the content of the source template,
    and every label of the source other than the two topology labels. *)
Theorem templateToTemplate_keeps_source (i : templateToInput.t) (r : Rand) t r' :
  templateToTemplate i r = Returns (t, r') →
  ∃ source,
    templateToInput.template i = Some source
    ∧ Unstructured.GetAPIVersion t = Unstructured.GetAPIVersion source
    ∧ Unstructured.GetKind t = Unstructured.GetKind source
    ∧ Unstructured.GetNamespace t = Unstructured.GetNamespace source
    ∧ Unstructured.content t = Unstructured.content source
    ∧ ∀ k, k ≠ ClusterLabelName → k ≠ ClusterTopologyOwnedLabel →
        mapindex (Unstructured.GetLabels t) k = mapindex (Unstructured.GetLabels source) k.
Proof.
  intros H. apply templateToTemplate_inv in H
    as (source & cluster & ref & Hs & _ & _ & _ & ->).
  exists source. split; [done|].
  unfold Unstructured.GetAPIVersion, Unstructured.GetKind, Unstructured.GetNamespace,
    Unstructured.GetLabels.
  unfold clonedTemplate at 1 2 3 4.
  destruct (reuseName_kept (templateToInput.currentObjectRef i)
              {| Unstructured.apiVersion := Unstructured.apiVersion source;
                 Unstructured.kind := Unstructured.kind source;
                 Unstructured.name := (GenerateName (templateToInput.namePrefix i) r).1;
                 Unstructured.namespace := Unstructured.namespace source;
                 Unstructured.labels :=
                   Some (<[ClusterTopologyOwnedLabel := ""]>
                           (<[ClusterLabelName := Cluster.Name cluster]>
                              (default ∅ (Unstructured.labels source))));
                 Unstructured.annotations :=
                   Some (<[TemplateClonedFromGroupKindAnnotation := schema.refGroupKind ref]>
                           (<[TemplateClonedFromNameAnnotation := ObjectReference.Name ref]>
                              (default ∅ (Unstructured.annotations source))));
                 Unstructured.resourceVersion := "";
                 Unstructured.uid := "";
                 Unstructured.selfLink := "";
                 Unstructured.finalizers := [];
                 Unstructured.content := Unstructured.content source |})
    as (-> & -> & -> & ->).
  repeat (split; [done|]).
  intros k H1 H2. rewrite clonedTemplate_labels.
  by rewrite !mapindex_insert_other, mapindex_default.
Qed.

(** X9. With a current reference of non-empty name, [templateToTemplate]
    returns the same template from every state of the random source, and the
    name of the template is the name of the reference: reconciling again does
    not rename the template. *)
Theorem templateToTemplate_stable (i : templateToInput.t) (ref : ObjectReference.t)
    (r1 r2 : Rand) t1 t2 r1' r2' :
  templateToInput.currentObjectRef i = Some ref →
  nonempty (ObjectReference.Name ref) = true →
  templateToTemplate i r1 = Returns (t1, r1') →
  templateToTemplate i r2 = Returns (t2, r2') →
  t1 = t2 ∧ Unstructured.GetName t1 = ObjectReference.Name ref.
Proof.
  intros Href Hname H1 H2.
  apply templateToTemplate_inv in H1 as (source & cluster & cloned & Hs & Hc & Hr & _ & ->).
  apply templateToTemplate_inv in H2 as (? & ? & ? & ? & ? & ? & _ & ->).
  simplify_eq. split; [by eapply clonedTemplate_reused|].
  unfold clonedTemplate, reuseName. by rewrite Href, Hname.
Qed.

(** X10. For a machine deployment whose current state holds both
    templates and whose current object references them by non-empty names,
    [computeMachineDeployment] returns the same result from every state of
    the random source. *)
Theorem computeMachineDeployment_stable (s : Scope.t) md
    (bootstrapRef infraRef : ObjectReference.t) (r1 r2 : Rand) x1 x2 r1' r2' :
  currentBootstrapTemplateRefOf s (MachineDeploymentTopology.Name md) = Some bootstrapRef →
  nonempty (ObjectReference.Name bootstrapRef) = true →
  currentInfraMachineTemplateRefOf s (MachineDeploymentTopology.Name md) = Some infraRef →
  nonempty (ObjectReference.Name infraRef) = true →
  computeMachineDeployment s md r1 = Returns (x1, r1') →
  computeMachineDeployment s md r2 = Returns (x2, r2') →
  x1 = x2.
Proof.
  intros Hb Hbn Hi Hin. rewrite !computeMachineDeployment_eq.
  destruct (ClusterBlueprint.MachineDeployments _ !! _) as [bp|]; [|by intros [= <- _] [= <- _]].
  destruct (ClusterState.Cluster (Scope.Current s)) as [cluster|]; [|done].
  destruct (currentReadable s _); [|done].
  cbv zeta. intros [= <- _] [= <- _].
  assert (∃ object, currentObjectOf s (MachineDeploymentTopology.Name md) = Some object)
    as [object Hobject].
  { revert Hb. unfold currentBootstrapTemplateRefOf, currentObjectOf.
    destruct (currentMachineDeploymentOf s _) as [current|]; [|done].
    destruct (MachineDeploymentState.BootstrapTemplate current); [|done].
    destruct (MachineDeploymentState.Object current); [by eexists|done]. }
  do 2 f_equal. by eapply machineDeploymentState_reused.
Qed.

(** X11. [computeInfrastructureCluster] returns an error exactly when
    the template generator rejects the infrastructure cluster template. The
    error is the one of the generator wrapped with the kind of the template,
    no object comes with it, and the random source is as the generator left
    it: no name is drawn. *)
Theorem computeInfrastructureCluster_error (s : Scope.t) (r : Rand) x err r' :
  computeInfrastructureCluster s r = Returns ((x, Some err), r')
  ↔ ∃ cluster cause,
      ClusterState.Cluster (Scope.Current s) = Some cluster
      ∧ GenerateTemplate (generateInput (infrastructureClusterInput s cluster) cluster) r
          = (inr cause, r')
      ∧ x = None
      ∧ err = Wrap cause
          ("failed to generate the InfrastructureCluster object from the "
             +:+ Unstructured.GetKind
                   (ClusterBlueprint.InfrastructureClusterTemplate (Scope.Blueprint s))).
Proof.
  rewrite computeInfrastructureCluster_eq.
  destruct (ClusterState.Cluster (Scope.Current s)) as [cluster|] eqn:Hc.
  - rewrite templateToObject_eq. cbn [infrastructureClusterInput templateToInput.cluster].
    rewrite Hc.
    destruct (GenerateTemplate _ r) as [[object|cause] r1] eqn:Hg.
    + split; [done|]. intros (? & ? & [= <-] & Hg' & _). rewrite Hg in Hg'. done.
    + split.
      * intros [= <- <- <-]. by exists cluster, cause.
      * intros (? & ? & [= <-] & Hg' & -> & ->). rewrite Hg in Hg'. by injection Hg' as <- <-.
  - split; [done|]. by intros (? & ? & [=] & _).
Qed.

(** X12. [templateToObject] hands an error of the template generator on
    as it is, without drawing a name. When the generator returns an object,
    [templateToObject] returns that object under another name, with nothing
    else changed, after one draw of the name generator. *)
Theorem templateToObject_only_renames (i : templateToInput.t) (r : Rand) x err r' :
  templateToObject i r = Returns ((x, err), r') →
  ∃ cluster,
    templateToInput.cluster i = Some cluster
    ∧ match GenerateTemplate (generateInput i cluster) r with
      | (inr cause, r1) => x = None ∧ err = Some cause ∧ r' = r1
      | (inl generated, r1) =>
          err = None
          ∧ r' = (GenerateName (templateToInput.namePrefix i) r1).2
          ∧ ∃ object, x = Some object
              ∧ object = Unstructured.SetName (Unstructured.GetName object) generated
      end.
Proof.
  rewrite templateToObject_eq.
  destruct (templateToInput.cluster i) as [cluster|]; [|done].
  destruct (GenerateTemplate _ r) as [[generated|cause] r1] eqn:Hg.
  - intros [= <- <- <-]. exists cluster. split; [done|]. rewrite Hg.
    split; [done|]. split; [done|]. eexists. split; [done|].
    unfold reuseName. destruct (templateToInput.currentObjectRef i) as [ref|]; [|done].
    by destruct (nonempty _).
  - intros [= <- <- <-]. exists cluster. split; [done|]. by rewrite Hg.
Qed.

(** X13. The names of the two templates of a machine deployment. The
    bootstrap template takes the name of the bootstrap config reference of
    the current MachineDeployment object when the current state holds a
    bootstrap template and that reference has a non-empty name, and a name
    generated with the bootstrap prefix otherwise; the infrastructure machine
    template does the same with the infrastructure reference of the current
    object and the infrastructure prefix. *)
Theorem machineDeployment_template_names (s : Scope.t) md (r : Rand) state r' :
  computeMachineDeployment s md r = Returns ((Some state, None), r') →
  ∃ class cluster bootstrapTemplate infraMachineTemplate r1 r2,
    ClusterBlueprint.MachineDeployments (Scope.Blueprint s)
      !! MachineDeploymentTopology.Class md = Some class
    ∧ ClusterState.Cluster (Scope.Current s) = Some cluster
    ∧ MachineDeploymentState.BootstrapTemplate state = Some bootstrapTemplate
    ∧ MachineDeploymentState.InfrastructureMachineTemplate state = Some infraMachineTemplate
    ∧ match currentBootstrapTemplateRefOf s (MachineDeploymentTopology.Name md) with
      | Some ref =>
          if nonempty (ObjectReference.Name ref)
          then Unstructured.GetName bootstrapTemplate = ObjectReference.Name ref
          else generatedFrom
                 (bootstrapTemplateNamePrefix (Cluster.Name cluster)
                    (MachineDeploymentTopology.Name md))
                 (Unstructured.GetName bootstrapTemplate) r1
      | None =>
          generatedFrom
            (bootstrapTemplateNamePrefix (Cluster.Name cluster)
               (MachineDeploymentTopology.Name md))
            (Unstructured.GetName bootstrapTemplate) r1
      end
    ∧ match currentInfraMachineTemplateRefOf s (MachineDeploymentTopology.Name md) with
      | Some ref =>
          if nonempty (ObjectReference.Name ref)
          then Unstructured.GetName infraMachineTemplate = ObjectReference.Name ref
          else generatedFrom
                 (infrastructureMachineTemplateNamePrefix (Cluster.Name cluster)
                    (MachineDeploymentTopology.Name md))
                 (Unstructured.GetName infraMachineTemplate) r2
      | None =>
          generatedFrom
            (infrastructureMachineTemplateNamePrefix (Cluster.Name cluster)
               (MachineDeploymentTopology.Name md))
            (Unstructured.GetName infraMachineTemplate) r2
      end.
Proof.
  intros H. apply computeMachineDeployment_success in H
    as (bp & cluster & g1 & r1 & g2 & r2 & g3 & Hbp & Hc & H1 & H2 & _ & [= ->]).
  eexists bp, cluster, _, _, r1, r2. repeat (split; [done|]).
  unfold Unstructured.GetName, withDeploymentLabel, Unstructured.SetLabels.
  cbn [Unstructured.name]. unfold clonedTemplate. rewrite !reuseName_name.
  cbn [bootstrapInput infraMachineInput templateToInput.currentObjectRef Unstructured.name].
  split.
  - destruct (currentBootstrapTemplateRefOf s _) as [ref|]; [destruct (nonempty _)|];
      try done; by exists r.
  - destruct (currentInfraMachineTemplateRefOf s _) as [ref|]; [destruct (nonempty _)|];
      try done; by exists r1.
Qed.

(** X14. [computeControlPlaneInfrastructureMachineTemplate] fails only
    on reading the current control plane: when it returns an error, there is
    a current ControlPlane object, reading
    [spec.machineTemplate.infrastructureRef] from it has failed, the error is
    that failure wrapped, no template comes with it, and the random source is
    untouched. *)
Theorem controlPlaneTemplate_error (s : Scope.t) (r : Rand) x err r' :
  computeControlPlaneInfrastructureMachineTemplate s r = Returns ((x, Some err), r') →
  ∃ current object cause,
    ClusterState.ControlPlane (Scope.Current s) = Some current
    ∧ ControlPlaneState.Object current = Some object
    ∧ (contract.InfrastructureRef_Get object).2 = Some cause
    ∧ err = Wrap cause
        "failed to get spec.machineTemplate.infrastructureRef for the current ControlPlane object"
    ∧ x = None
    ∧ r' = r.
Proof.
  rewrite computeControlPlaneInfrastructureMachineTemplate_eq.
  destruct (ClusterClass.Spec_ControlPlane_MachineInfrastructure _) as [mi|]; [|done].
  unfold currentControlPlaneTemplateRef at 1.
  destruct (ClusterState.ControlPlane (Scope.Current s)) as [current|] eqn:Hcp.
  - destruct (ControlPlaneState.Object current) as [object|] eqn:Ho.
    + destruct (contract.InfrastructureRef_Get object).2 as [cause|] eqn:Hg.
      * intros [= <- <- <-]. by exists current, object, cause.
      * destruct (ClusterState.Cluster (Scope.Current s)); [|done].
        by destruct (templateToTemplate _ r) as [[]|].
    + cbn [snd]. destruct (ClusterState.Cluster (Scope.Current s)); [|done].
      by destruct (templateToTemplate _ r) as [[]|].
  - cbn [snd]. destruct (ClusterState.Cluster (Scope.Current s)); [|done].
    by destruct (templateToTemplate _ r) as [[]|].
Qed.

(** X15. [computeMachineDeployment] dereferences nil exactly when the
    blueprint has the class and either there is no current cluster, or the
    current state of the machine deployment holds a template and no
    MachineDeployment object. *)
Theorem computeMachineDeployment_panics (s : Scope.t) md (r : Rand) :
  computeMachineDeployment s md r = Panics
  ↔ is_Some (ClusterBlueprint.MachineDeployments (Scope.Blueprint s)
               !! MachineDeploymentTopology.Class md)
    ∧ (ClusterState.Cluster (Scope.Current s) = None
       ∨ ∃ current,
           currentMachineDeploymentOf s (MachineDeploymentTopology.Name md) = Some current
           ∧ MachineDeploymentState.Object current = None
           ∧ (is_Some (MachineDeploymentState.BootstrapTemplate current)
              ∨ is_Some (MachineDeploymentState.InfrastructureMachineTemplate current))).
Proof.
  rewrite computeMachineDeployment_eq. unfold currentReadable.
  destruct (ClusterBlueprint.MachineDeployments _ !! _) as [bp|].
  - destruct (ClusterState.Cluster (Scope.Current s)) as [cluster|].
    + destruct (currentMachineDeploymentOf s _) as [current|].
      * destruct (MachineDeploymentState.Object current) as [object|] eqn:Ho.
        -- split; [done|]. intros (_ & [[=]|(? & [= <-] & Hn & _)]). by rewrite Ho in Hn.
        -- destruct (MachineDeploymentState.BootstrapTemplate current) as [bt|] eqn:Hb.
           ++ split; [|done]. intros _. split; [by eexists|]. right. exists current.
              rewrite Hb. repeat split; try done. left. by eexists.
           ++ destruct (MachineDeploymentState.InfrastructureMachineTemplate current)
                as [imt|] eqn:Hi.
              ** split; [|done]. intros _. split; [by eexists|]. right. exists current.
                 rewrite Hi. repeat split; try done. right. by eexists.
              ** split; [done|].
                 intros (_ & [[=]|(? & [= <-] & _ & [[? Hx]|[? Hx]])]).
                 --- by rewrite Hb in Hx.
                 --- by rewrite Hi in Hx.
      * split; [done|]. by intros (_ & [[=]|(? & [=] & _)]).
    + split; [|done]. intros _. split; [by eexists|]. by left.
  - split; [done|]. by intros [[? [=]] _].
Qed.

(** A template cloned from the reference to its own source, with the label
    of a machine deployment added, is a clone of the source. *)
Lemma withDeploymentLabel_clonedFrom mdName i source cluster g :
  TemplateClonedFromNameAnnotation ≠ TemplateClonedFromGroupKindAnnotation →
  clonedFrom source
    (withDeploymentLabel mdName
       (clonedTemplate i source cluster (contract.ObjToRef source) g)).
Proof.
  intros Hne. unfold clonedFrom, withDeploymentLabel, Unstructured.SetLabels,
    Unstructured.GetKind, Unstructured.GetAPIVersion, Unstructured.GetNamespace,
    Unstructured.GetAnnotations.
  cbn [Unstructured.kind Unstructured.apiVersion Unstructured.namespace
       Unstructured.content Unstructured.annotations].
  unfold clonedTemplate.
  destruct (reuseName_kept (templateToInput.currentObjectRef i)
              {| Unstructured.apiVersion := Unstructured.apiVersion source;
                 Unstructured.kind := Unstructured.kind source;
                 Unstructured.name := g;
                 Unstructured.namespace := Unstructured.namespace source;
                 Unstructured.labels :=
                   Some (<[ClusterTopologyOwnedLabel := ""]>
                           (<[ClusterLabelName := Cluster.Name cluster]>
                              (default ∅ (Unstructured.labels source))));
                 Unstructured.annotations :=
                   Some (<[TemplateClonedFromGroupKindAnnotation :=
                             schema.refGroupKind (contract.ObjToRef source)]>
                           (<[TemplateClonedFromNameAnnotation :=
                                ObjectReference.Name (contract.ObjToRef source)]>
                              (default ∅ (Unstructured.annotations source))));
                 Unstructured.resourceVersion := "";
                 Unstructured.uid := "";
                 Unstructured.selfLink := "";
                 Unstructured.finalizers := [];
                 Unstructured.content := Unstructured.content source |})
    as (-> & -> & -> & ->).
  destruct (reuseName_fields (templateToInput.currentObjectRef i)
              {| Unstructured.apiVersion := Unstructured.apiVersion source;
                 Unstructured.kind := Unstructured.kind source;
                 Unstructured.name := g;
                 Unstructured.namespace := Unstructured.namespace source;
                 Unstructured.labels :=
                   Some (<[ClusterTopologyOwnedLabel := ""]>
                           (<[ClusterLabelName := Cluster.Name cluster]>
                              (default ∅ (Unstructured.labels source))));
                 Unstructured.annotations :=
                   Some (<[TemplateClonedFromGroupKindAnnotation :=
                             schema.refGroupKind (contract.ObjToRef source)]>
                           (<[TemplateClonedFromNameAnnotation :=
                                ObjectReference.Name (contract.ObjToRef source)]>
                              (default ∅ (Unstructured.annotations source))));
                 Unstructured.resourceVersion := "";
                 Unstructured.uid := "";
                 Unstructured.selfLink := "";
                 Unstructured.finalizers := [];
                 Unstructured.content := Unstructured.content source |})
    as (_ & _ & _ & _ & ->).
  repeat (split; [done|]). cbn [Unstructured.annotations mapindex]. split.
  - rewrite lookup_insert_ne by done. by rewrite lookup_insert_eq.
  - by rewrite lookup_insert_eq.
Qed.

(** X16. The two templates of a machine deployment are clones of the
    templates of its class: each has the kind, the API version, the namespace
    and the content of the template of the class, and its cloned-from
    annotations hold the name and the group-kind of that template. *)
Theorem machineDeployment_templates_provenance (s : Scope.t) md (r : Rand) state r' :
  TemplateClonedFromNameAnnotation ≠ TemplateClonedFromGroupKindAnnotation →
  computeMachineDeployment s md r = Returns ((Some state, None), r') →
  ∃ class bootstrapTemplate infraMachineTemplate,
    ClusterBlueprint.MachineDeployments (Scope.Blueprint s)
      !! MachineDeploymentTopology.Class md = Some class
    ∧ MachineDeploymentState.BootstrapTemplate state = Some bootstrapTemplate
    ∧ MachineDeploymentState.InfrastructureMachineTemplate state = Some infraMachineTemplate
    ∧ clonedFrom (MachineDeploymentBlueprint.BootstrapTemplate class) bootstrapTemplate
    ∧ clonedFrom (MachineDeploymentBlueprint.InfrastructureMachineTemplate class)
        infraMachineTemplate.
Proof.
  intros Hne H. apply computeMachineDeployment_success in H
    as (bp & cluster & g1 & r1 & g2 & r2 & g3 & Hbp & _ & _ & _ & _ & [= ->]).
  eexists bp, _, _. repeat (split; [done|]).
  split; by apply withDeploymentLabel_clonedFrom.
Qed.
End Components.

(** *** The control plane *)

Section ControlPlane.
Context {C : Collaborators}.

#[local] Arguments contract.setPath : simpl never.
#[local] Arguments contract.SetNestedField : simpl never.
#[local] Arguments contract.NestedField : simpl never.
#[local] Arguments mergeMap : simpl never.
#[local] Arguments reuseName : simpl never.

(** A setter of package [contract] that succeeds changes the content of the
    object and nothing else. *)
Lemma setPath_content fields path v obj obj' :
  contract.setPath fields path v obj = (obj', None) →
  obj' = Unstructured.SetContent (Unstructured.content obj') obj
  ∧ contract.SetNestedField fields v (Unstructured.content obj)
      = Some (Unstructured.content obj').
Proof.
  unfold contract.setPath.
  destruct (contract.SetNestedField fields v (Unstructured.content obj)) as [c|];
    by intros [= <-].
Qed.

(** The steps of a successful [computeControlPlane], in the order of the
    source: the generated object, the reference and the metadata when the
    cluster class mandates them, the replicas when the topology gives them,
    the version. *)
Lemma computeControlPlane_inv (s : Scope.t) imt (r : Rand) cp r' :
  computeControlPlane s imt r = Returns ((Some cp, None), r') →
  ∃ cluster generated cp1 cp2,
    ClusterState.Cluster (Scope.Current s) = Some cluster
    ∧ templateToObject (controlPlaneInput s cluster) r = Returns ((Some generated, None), r')
    ∧ (if HasControlPlaneInfrastructureMachine (Scope.Blueprint s)
       then ∃ t cpa,
              imt = Some t
              ∧ contract.InfrastructureRef_Set generated t = (cpa, None)
              ∧ contract.Metadata_Set cpa
                  {| ObjectMeta.Labels :=
                       Some (<[ClusterTopologyOwnedLabel := ""]>
                               (<[ClusterLabelName := Cluster.Name cluster]>
                                  (default ∅ (ObjectMeta.Labels
                                     (Topology.ControlPlane_Metadata
                                        (ClusterBlueprint.Topology (Scope.Blueprint s))))
                                   ∪ default ∅ (ObjectMeta.Labels
                                       (ClusterClass.Spec_ControlPlane_Metadata
                                          (ClusterBlueprint.ClusterClass
                                             (Scope.Blueprint s)))))));
                     ObjectMeta.Annotations :=
                       Some (default ∅ (ObjectMeta.Annotations
                               (Topology.ControlPlane_Metadata
                                  (ClusterBlueprint.Topology (Scope.Blueprint s))))
                             ∪ default ∅ (ObjectMeta.Annotations
                                 (ClusterClass.Spec_ControlPlane_Metadata
                                    (ClusterBlueprint.ClusterClass (Scope.Blueprint s))))) |}
                = (cp1, None)
       else cp1 = generated)
    ∧ match Topology.ControlPlane_Replicas (ClusterBlueprint.Topology (Scope.Blueprint s)) with
      | Some n => contract.Replicas_Set cp1 n = (cp2, None)
      | None => cp2 = cp1
      end
    ∧ contract.Version_Set cp2
        (Topology.Version (ClusterBlueprint.Topology (Scope.Blueprint s))) = (cp, None).
Proof.
  unfold computeControlPlane, controlPlaneInput.
  destruct (ClusterState.Cluster (Scope.Current s)) as [cluster|] eqn:Hc; [|done].
  run. rewrite !mergeMap_union.
  destruct (templateToObject _ r) as [[[object [e|]] r2]|] eqn:Ht; [done| |done].
  pose proof (templateToObject_returns _ _ _ _ _ Ht) as [[_ [? [=]]]|[[generated ->] _]].
  run. destruct (HasControlPlaneInfrastructureMachine (Scope.Blueprint s)).
  - destruct imt as [t|]; [|done]. run.
    destruct (contract.InfrastructureRef_Set generated t) as [cpa [e|]] eqn:Ha; [done|].
    run. rewrite ?rangeAssign_union, ?(right_id_L ∅ (∪)).
    destruct (contract.Metadata_Set cpa _) as [cpb [e|]] eqn:Hb; [done|].
    destruct (Topology.ControlPlane_Replicas _) as [n|].
    + destruct (contract.Replicas_Set cpb n) as [cp2 [e|]] eqn:H2; [done|].
      destruct (contract.Version_Set cp2 _) as [cp3 [e|]] eqn:H3; [done|].
      intros [= -> ->]. exists cluster, generated, cpb, cp2.
      split; [done|]. split; [done|]. split; [by exists t, cpa|done].
    + destruct (contract.Version_Set cpb _) as [cp3 [e|]] eqn:H3; [done|].
      intros [= -> ->]. exists cluster, generated, cpb, cpb.
      split; [done|]. split; [done|]. split; [by exists t, cpa|done].
  - run. destruct (Topology.ControlPlane_Replicas _) as [n|].
    + destruct (contract.Replicas_Set generated n) as [cp2 [e|]] eqn:H2; [done|].
      destruct (contract.Version_Set cp2 _) as [cp3 [e|]] eqn:H3; [done|].
      intros [= -> ->]. by exists cluster, generated, generated, cp2.
    + destruct (contract.Version_Set generated _) as [cp3 [e|]] eqn:H3; [done|].
      intros [= -> ->]. by exists cluster, generated, generated, generated.
Qed.

(** The last two setters of [computeControlPlane] leave alone every field
    that is neither the replicas nor the version. *)
Lemma replicas_version_frame (replicas : option Z) (version : string)
    (cp1 cp2 cp : Unstructured.t) (q : list string) :
  match replicas with
  | Some n => contract.Replicas_Set cp1 n = (cp2, None)
  | None => cp2 = cp1
  end →
  contract.Version_Set cp2 version = (cp, None) →
  cp = Unstructured.SetContent (Unstructured.content cp) cp1
  ∧ (diverge contract.replicasPath q = true →
     diverge contract.versionPath q = true →
     contract.NestedField q (Unstructured.content cp)
       = contract.NestedField q (Unstructured.content cp1)).
Proof.
  intros H2 H3. apply setPath_content in H3 as [E3 H3].
  destruct replicas as [n|].
  - apply setPath_content in H2 as [E2 H2]. split.
    + rewrite E3, E2. reflexivity.
    + intros Hr Hv.
      rewrite (NestedField_SetNestedField_diverge _ q _ _ _ Hv H3).
      by rewrite (NestedField_SetNestedField_diverge _ q _ _ _ Hr H2).
  - subst cp2. split; [done|]. intros _ Hv.
    by rewrite (NestedField_SetNestedField_diverge _ q _ _ _ Hv H3).
Qed.

(** Reading back a reference written by the setter. *)
Lemma InfrastructureRef_Get_refValue (obj : Unstructured.t) (ref : ObjectReference.t) :
  contract.NestedField contract.infrastructureRefPath (Unstructured.content obj)
    = Some (contract.refValue ref) →
  contract.InfrastructureRef_Get obj = (Some ref, None).
Proof.
  unfold contract.InfrastructureRef_Get. intros ->.
  unfold contract.refValue, contract.stringField.
  rewrite lookup_insert_ne by done. rewrite lookup_insert_eq.
  do 3 rewrite lookup_insert_ne by done. rewrite lookup_insert_eq.
  do 2 rewrite lookup_insert_ne by done. rewrite lookup_insert_eq.
  rewrite lookup_insert_eq. by destruct ref.
Qed.

(** X17. When the cluster class mandates infrastructure machines for
    the control plane, the ControlPlane object of the desired state references
    the infrastructure machine template of the same desired state: reading
    [spec.machineTemplate.infrastructureRef] from the object gives the
    reference to the template. The fields set afterwards (machine metadata,
    replicas, version) leave the reference alone. *)
Theorem controlPlane_references_template (s : Scope.t) (r : Rand) desired r' :
  HasControlPlaneInfrastructureMachine (Scope.Blueprint s) = true →
  computeDesiredState s r = Returns ((Some desired, None), r') →
  ∃ state object template,
    ClusterState.ControlPlane desired = Some state
    ∧ ControlPlaneState.Object state = Some object
    ∧ ControlPlaneState.InfrastructureMachineTemplate state = Some template
    ∧ contract.InfrastructureRef_Get object = (Some (contract.ObjToRef template), None).
Proof.
  intros Hhas H. apply computeDesiredState_success in H
    as (current & ic & r1 & imt & r2 & cp & r3 & _ & _ & _ & Hcp & _ & _ & Hdesired & _).
  apply computeControlPlane_inv in Hcp
    as (cluster & generated & cp1 & cp2 & _ & _ & H1 & H2 & H3).
  rewrite Hhas in H1. destruct H1 as (t & cpa & -> & Ha & Hb).
  exists (ControlPlaneState.mk (Some cp) (Some t)), cp, t. repeat (split; [done|]).
  apply InfrastructureRef_Get_refValue.
  destruct (replicas_version_frame _ _ _ _ _ contract.infrastructureRefPath H2 H3)
    as [_ Hq]. rewrite Hq by reflexivity.
  apply setPath_content in Ha as [_ Ha], Hb as [_ Hb].
  rewrite (NestedField_SetNestedField_diverge contract.metadataPath
             contract.infrastructureRefPath _ _ _ eq_refl Hb).
  by eapply NestedField_SetNestedField.
Qed.

(** X18. When the cluster class mandates infrastructure machines for
    the control plane, the computed ControlPlane object carries at
    [spec.machineTemplate.metadata] the labels of the topology merged over
    those of the cluster class, with the two topology labels set on top, and
    the annotations of the topology merged over those of the cluster class. *)
Theorem computeControlPlane_machine_metadata (s : Scope.t) imt (r : Rand) cp r' :
  HasControlPlaneInfrastructureMachine (Scope.Blueprint s) = true →
  computeControlPlane s imt r = Returns ((Some cp, None), r') →
  ∃ cluster labels annotations,
    ClusterState.Cluster (Scope.Current s) = Some cluster
    ∧ contract.NestedField contract.metadataPath (Unstructured.content cp)
        = Some (VMap (<["labels" := VMap (VString <$> labels)]>
                     (<["annotations" := VMap (VString <$> annotations)]> ∅)))
    ∧ labels !! ClusterTopologyOwnedLabel = Some ""
    ∧ (ClusterLabelName ≠ ClusterTopologyOwnedLabel →
       labels !! ClusterLabelName = Some (Cluster.Name cluster))
    ∧ (∀ k, k ≠ ClusterLabelName → k ≠ ClusterTopologyOwnedLabel →
         labels !! k =
           match mapindex (ObjectMeta.Labels (Topology.ControlPlane_Metadata
                   (ClusterBlueprint.Topology (Scope.Blueprint s)))) k with
           | Some v => Some v
           | None => mapindex (ObjectMeta.Labels (ClusterClass.Spec_ControlPlane_Metadata
                       (ClusterBlueprint.ClusterClass (Scope.Blueprint s)))) k
           end)
    ∧ (∀ k, annotations !! k =
         match mapindex (ObjectMeta.Annotations (Topology.ControlPlane_Metadata
                 (ClusterBlueprint.Topology (Scope.Blueprint s)))) k with
         | Some v => Some v
         | None => mapindex (ObjectMeta.Annotations (ClusterClass.Spec_ControlPlane_Metadata
                     (ClusterBlueprint.ClusterClass (Scope.Blueprint s)))) k
         end).
Proof.
  intros Hhas Hcp. apply computeControlPlane_inv in Hcp
    as (cluster & generated & cp1 & cp2 & Hc & _ & H1 & H2 & H3).
  rewrite Hhas in H1. destruct H1 as (t & cpa & -> & Ha & Hb).
  exists cluster,
    (<[ClusterTopologyOwnedLabel := ""]>
       (<[ClusterLabelName := Cluster.Name cluster]>
          (default ∅ (ObjectMeta.Labels (Topology.ControlPlane_Metadata
                        (ClusterBlueprint.Topology (Scope.Blueprint s))))
           ∪ default ∅ (ObjectMeta.Labels (ClusterClass.Spec_ControlPlane_Metadata
                          (ClusterBlueprint.ClusterClass (Scope.Blueprint s))))))),
    (default ∅ (ObjectMeta.Annotations (Topology.ControlPlane_Metadata
                  (ClusterBlueprint.Topology (Scope.Blueprint s))))
     ∪ default ∅ (ObjectMeta.Annotations (ClusterClass.Spec_ControlPlane_Metadata
                    (ClusterBlueprint.ClusterClass (Scope.Blueprint s))))).
  split; [done|]. split; [|split; [|split; [|split]]].
  - destruct (replicas_version_frame _ _ _ _ _ contract.metadataPath H2 H3)
      as [_ Hq]. rewrite Hq by reflexivity.
    apply setPath_content in Hb as [_ Hb].
    by rewrite (NestedField_SetNestedField _ _ _ _ Hb).
  - apply lookup_insert_eq.
  - intros Hne. rewrite lookup_insert_ne by done. apply lookup_insert_eq.
  - intros k Hk1 Hk2. do 2 rewrite lookup_insert_ne by done.
    apply (mapindex_union _ _ k).
  - intros k. apply (mapindex_union _ _ k).
Qed.

(** X19. [computeControlPlane] changes the object generated from the
    template in its content only, and there only at the fields it sets: a
    field path that parts ways with [spec.replicas], with [spec.version] and,
    when the cluster class mandates infrastructure machines, with
    [spec.machineTemplate.infrastructureRef] and
    [spec.machineTemplate.metadata], reads as in the generated object. *)
Theorem computeControlPlane_frame (s : Scope.t) imt (r : Rand) cp r' :
  computeControlPlane s imt r = Returns ((Some cp, None), r') →
  ∃ cluster generated,
    ClusterState.Cluster (Scope.Current s) = Some cluster
    ∧ templateToObject (controlPlaneInput s cluster) r = Returns ((Some generated, None), r')
    ∧ cp = Unstructured.SetContent (Unstructured.content cp) generated
    ∧ ∀ q, diverge contract.replicasPath q = true →
           diverge contract.versionPath q = true →
           (HasControlPlaneInfrastructureMachine (Scope.Blueprint s) = true →
            diverge contract.infrastructureRefPath q = true
            ∧ diverge contract.metadataPath q = true) →
           contract.NestedField q (Unstructured.content cp)
             = contract.NestedField q (Unstructured.content generated).
Proof.
  intros Hcp. apply computeControlPlane_inv in Hcp
    as (cluster & generated & cp1 & cp2 & Hc & Ht & H1 & H2 & H3).
  exists cluster, generated. split; [done|]. split; [done|].
  destruct (HasControlPlaneInfrastructureMachine (Scope.Blueprint s)).
  - destruct H1 as (t & cpa & -> & Ha & Hb).
    apply setPath_content in Ha as [Ea Ha], Hb as [Eb Hb]. split.
    + destruct (replicas_version_frame _ _ _ _ _ [] H2 H3) as [-> _].
      rewrite Eb, Ea. reflexivity.
    + intros q Hr Hv Hq. destruct Hq as [Hi Hm]; [done|].
      destruct (replicas_version_frame _ _ _ _ _ q H2 H3) as [_ Hq]. rewrite Hq by done.
      rewrite (NestedField_SetNestedField_diverge _ q _ _ _ Hm Hb).
      by rewrite (NestedField_SetNestedField_diverge _ q _ _ _ Hi Ha).
  - subst cp1. split.
    + by destruct (replicas_version_frame _ _ _ _ _ [] H2 H3) as [-> _].
    + intros q Hr Hv _.
      destruct (replicas_version_frame _ _ _ _ _ q H2 H3) as [_ Hq]. by rewrite Hq.
Qed.

(** X20. Once set, the references of the Cluster keep their names: when
    the current Cluster references its infrastructure cluster (its control
    plane) by a non-empty name, the infrastructure (control-plane) reference
    of the desired Cluster has the same name. *)
Theorem cluster_reference_names_stable (s : Scope.t) (r : Rand) desired r' :
  computeDesiredState s r = Returns ((Some desired, None), r') →
  ∃ current cluster,
    ClusterState.Cluster (Scope.Current s) = Some current
    ∧ ClusterState.Cluster desired = Some cluster
    ∧ (∀ ref, Cluster.Spec_InfrastructureRef current = Some ref →
         nonempty (ObjectReference.Name ref) = true →
         ∃ ref', Cluster.Spec_InfrastructureRef cluster = Some ref'
                 ∧ ObjectReference.Name ref' = ObjectReference.Name ref)
    ∧ (∀ ref, Cluster.Spec_ControlPlaneRef current = Some ref →
         nonempty (ObjectReference.Name ref) = true →
         ∃ ref', Cluster.Spec_ControlPlaneRef cluster = Some ref'
                 ∧ ObjectReference.Name ref' = ObjectReference.Name ref).
Proof.
  intros H. apply computeDesiredState_success in H
    as (current & ic & r1 & imt & r2 & cp & r3 & Hcur & Hic & _ & Hcp & Hcluster & _).
  exists current, (desiredCluster current ic cp). split; [done|]. split; [done|]. split.
  - intros ref Href Hname. eexists. split; [done|].
    cbn [contract.ObjToRef ObjectReference.Name]. unfold Unstructured.GetName.
    revert Hic. rewrite computeInfrastructureCluster_eq, Hcur, templateToObject_eq.
    cbn [infrastructureClusterInput templateToInput.cluster templateToInput.currentObjectRef].
    rewrite Hcur. destruct (GenerateTemplate _ r) as [[generated|cause] r0]; [|done].
    intros [= <- _]. by rewrite reuseName_name, Href, Hname.
  - intros ref Href Hname. eexists. split; [done|].
    cbn [contract.ObjToRef ObjectReference.Name]. unfold Unstructured.GetName.
    apply computeControlPlane_inv in Hcp
      as (cluster & generated & cp1 & cp2 & Hc & Ht & H1 & H2 & H3).
    rewrite Hcur in Hc. injection Hc as <-.
    assert (Unstructured.name cp = Unstructured.name generated) as ->.
    { destruct (replicas_version_frame _ _ _ _ _ [] H2 H3) as [-> _].
      cbn [Unstructured.SetContent Unstructured.name].
      destruct (HasControlPlaneInfrastructureMachine (Scope.Blueprint s)); [|by subst].
      destruct H1 as (t & cpa & _ & Ha & Hb).
      apply setPath_content in Ha as [Ea _], Hb as [Eb _]. rewrite Eb, Ea. done. }
    revert Ht. rewrite templateToObject_eq.
    cbn [controlPlaneInput templateToInput.cluster templateToInput.currentObjectRef].
    rewrite Hcur. destruct (GenerateTemplate _ r2) as [[g|cause] r0]; [|done].
    intros [= <- _]. by rewrite reuseName_name, Href, Hname.
Qed.

(** X21. An error of [computeControlPlane] comes with no object, and it
    is the wrapped error of one of five steps: generating the object, setting
    the infrastructure reference or the machine metadata (only when the
    cluster class mandates infrastructure machines), setting the replicas
    (only when the topology gives them), setting the version. *)
Theorem computeControlPlane_error (s : Scope.t) imt (r : Rand) x err r' :
  computeControlPlane s imt r = Returns ((x, Some err), r') →
  x = None
  ∧ ∃ cause,
      err = Wrap cause
              ("failed to generate the ControlPlane object from the "
                 +:+ Unstructured.GetKind (ClusterBlueprint.ControlPlane_Template
                                             (Scope.Blueprint s)))
      ∨ (HasControlPlaneInfrastructureMachine (Scope.Blueprint s) = true
         ∧ (err = Wrap cause
                    "failed to spec.machineTemplate.infrastructureRef in the ControlPlane object"
            ∨ err = Wrap cause
                      "failed to spec.machineTemplate.metadata in the ControlPlane object"))
      ∨ (is_Some (Topology.ControlPlane_Replicas
                    (ClusterBlueprint.Topology (Scope.Blueprint s)))
         ∧ err = Wrap cause "failed to set spec.replicas in the ControlPlane object")
      ∨ err = Wrap cause "failed to set spec.version in the ControlPlane object".
Proof.
  unfold computeControlPlane.
  destruct (ClusterState.Cluster (Scope.Current s)) as [cluster|]; [|done].
  run. rewrite !mergeMap_union.
  destruct (templateToObject _ r) as [[[object [e|]] r2]|] eqn:Ht; [| |done].
  { intros [= <- <- <-]. split; [done|]. exists e. by left. }
  pose proof (templateToObject_returns _ _ _ _ _ Ht) as [[_ [? [=]]]|[[generated ->] _]].
  run. destruct (HasControlPlaneInfrastructureMachine (Scope.Blueprint s)).
  - destruct imt as [t|]; [|done]. run.
    destruct (contract.InfrastructureRef_Set generated t) as [cpa [e|]].
    { intros [= <- <- <-]. split; [done|]. exists e. right. left. split; [done|]. by left. }
    run. destruct (contract.Metadata_Set cpa _) as [cpb [e|]].
    { intros [= <- <- <-]. split; [done|]. exists e. right. left. split; [done|]. by right. }
    destruct (Topology.ControlPlane_Replicas _) as [n|].
    + destruct (contract.Replicas_Set cpb n) as [cp2 [e|]].
      { intros [= <- <- <-]. split; [done|]. exists e. right. right. left.
        split; [by eexists|done]. }
      destruct (contract.Version_Set cp2 _) as [cp3 [e|]]; [|done].
      intros [= <- <- <-]. split; [done|]. exists e. by do 3 right.
    + destruct (contract.Version_Set cpb _) as [cp3 [e|]]; [|done].
      intros [= <- <- <-]. split; [done|]. exists e. by do 3 right.
  - run. destruct (Topology.ControlPlane_Replicas _) as [n|].
    + destruct (contract.Replicas_Set generated n) as [cp2 [e|]].
      { intros [= <- <- <-]. split; [done|]. exists e. right. right. left.
        split; [by eexists|done]. }
      destruct (contract.Version_Set cp2 _) as [cp3 [e|]]; [|done].
      intros [= <- <- <-]. split; [done|]. exists e. by do 3 right.
    + destruct (contract.Version_Set generated _) as [cp3 [e|]]; [|done].
      intros [= <- <- <-]. split; [done|]. exists e. by do 3 right.
Qed.
(** X23. The infrastructure machine template of the control plane keeps
    its name: when the cluster class mandates infrastructure machines and the
    current ControlPlane object references its template by a non-empty name,
    the template of the desired state has that name, and so has the
    reference that the desired ControlPlane object holds to it. *)
Theorem controlPlane_template_name_stable (s : Scope.t) (r : Rand) desired r'
    (current : ControlPlaneState.t) (object : Unstructured.t) (ref : ObjectReference.t) :
  HasControlPlaneInfrastructureMachine (Scope.Blueprint s) = true →
  ClusterState.ControlPlane (Scope.Current s) = Some current →
  ControlPlaneState.Object current = Some object →
  contract.InfrastructureRef_Get object = (Some ref, None) →
  nonempty (ObjectReference.Name ref) = true →
  computeDesiredState s r = Returns ((Some desired, None), r') →
  ∃ state template controlPlane,
    ClusterState.ControlPlane desired = Some state
    ∧ ControlPlaneState.InfrastructureMachineTemplate state = Some template
    ∧ Unstructured.GetName template = ObjectReference.Name ref
    ∧ ControlPlaneState.Object state = Some controlPlane
    ∧ ∃ ref', contract.InfrastructureRef_Get controlPlane = (Some ref', None)
              ∧ ObjectReference.Name ref' = ObjectReference.Name ref.
Proof.
  intros Hhas Hstate Hobject Hget Hname H.
  apply computeDesiredState_success in H
    as (cluster & ic & r1 & imt & r2 & cp & r3 & Hcur & _ & Hstep & Hcp & _ & _ & Hdesired & _).
  unfold controlPlaneTemplateStep in Hstep. rewrite Hhas in Hstep.
  rewrite computeControlPlaneInfrastructureMachineTemplate_eq in Hstep.
  destruct (ClusterClass.Spec_ControlPlane_MachineInfrastructure _) as [mi|]; [|done].
  assert (currentControlPlaneTemplateRef s = (Some ref, None)) as Href.
  { unfold currentControlPlaneTemplateRef. by rewrite Hstate, Hobject. }
  rewrite Href, Hcur in Hstep. cbn [snd] in Hstep.
  rewrite templateToTemplate_eq in Hstep.
  cbn [controlPlaneTemplateInput templateToInput.template templateToInput.cluster
       templateToInput.templateClonedFromRef] in Hstep.
  rewrite Hcur in Hstep.
  destruct (ClusterBlueprint.ControlPlane_InfrastructureMachineTemplate _) as [source|];
    [|done].
  destruct (LocalObjectTemplate.Ref mi) as [cref|]; [|done].
  injection Hstep as <- _.
  match type of Hcp with
  | computeControlPlane _ (Some ?t) _ = _ => set (template := t) in *
  end.
  assert (Unstructured.GetName template = ObjectReference.Name ref) as Htemplate.
  { unfold template, Unstructured.GetName, clonedTemplate. rewrite reuseName_name.
    cbn [controlPlaneTemplateInput templateToInput.currentObjectRef].
    rewrite Href. cbn [fst]. by rewrite Hname. }
  clearbody template.
  eexists _, template, cp. split; [exact Hdesired|]. split; [done|].
  split; [exact Htemplate|]. split; [done|].
  exists (contract.ObjToRef template). split; [|exact Htemplate].
  apply computeControlPlane_inv in Hcp
    as (cluster' & generated & cp1 & cp2 & _ & _ & H1 & H2 & H3).
  rewrite Hhas in H1. destruct H1 as (t & cpa & [= <-] & Ha & Hb).
  apply InfrastructureRef_Get_refValue.
  destruct (replicas_version_frame _ _ _ _ _ contract.infrastructureRefPath H2 H3)
    as [_ Hq]. rewrite Hq by reflexivity.
  apply setPath_content in Ha as [_ Ha], Hb as [_ Hb].
  rewrite (NestedField_SetNestedField_diverge contract.metadataPath
             contract.infrastructureRefPath _ _ _ eq_refl Hb).
  by eapply NestedField_SetNestedField.
Qed.
End ControlPlane.

(** *** The loop over the machine deployments *)

Section Loop.
Context {C : Collaborators}.

(** The loop leaves alone the keys that name none of its machine
    deployments. *)
Lemma range_other (s : Scope.t) mds (k : string) : ∀ desired0 m0 (r : Rand) desired r',
  Forall (λ md, MachineDeploymentTopology.Name md ≠ k) mds →
  ClusterState.MachineDeployments desired0 = Some m0 →
  computeDesiredState_range s mds desired0 r = Returns ((Some desired, None), r') →
  ∃ m, ClusterState.MachineDeployments desired = Some m ∧ m !! k = m0 !! k.
Proof.
  induction mds as [|md mds IH]; intros desired0 m0 r desired r' Hall Hm0.
  - intros [= <- <-]. by exists m0.
  - rewrite computeDesiredState_range_cons.
    destruct (computeMachineDeployment s md r) as [[[x [e|]] r1]|]; [done| |done].
    rewrite Hm0. intros H. apply Forall_cons in Hall as [Hne Hall].
    apply (IH _ (<[MachineDeploymentTopology.Name md := x]> m0)) in H as (m & Hm & Hk);
      [|done..].
    exists m. split; [done|]. by rewrite Hk, lookup_insert_ne.
Qed.

(** The entry of a name is the state computed for the last machine
    deployment of that name, after all the machine deployments before it. *)
Lemma range_last (s : Scope.t) before md after : ∀ desired0 m0 (r : Rand) desired r',
  Forall (λ md', MachineDeploymentTopology.Name md' ≠ MachineDeploymentTopology.Name md)
    after →
  ClusterState.MachineDeployments desired0 = Some m0 →
  computeDesiredState_range s (before ++ md :: after) desired0 r
    = Returns ((Some desired, None), r') →
  ∃ m r4 state r5,
    ClusterState.MachineDeployments desired = Some m
    ∧ computedAll s before r r4
    ∧ computeMachineDeployment s md r4 = Returns ((state, None), r5)
    ∧ m !! MachineDeploymentTopology.Name md = Some state.
Proof.
  induction before as [|b before IH]; intros desired0 m0 r desired r' Hall Hm0;
    simpl app; rewrite computeDesiredState_range_cons.
  - destruct (computeMachineDeployment s md r) as [[[x [e|]] r1]|] eqn:Hmd; [done| |done].
    rewrite Hm0. intros H.
    eapply range_other in H as (m & Hm & Hk); [|done..].
    exists m, r, x, r1. split; [done|]. split; [constructor|]. split; [done|].
    by rewrite Hk, lookup_insert_eq.
  - destruct (computeMachineDeployment s b r) as [[[x [e|]] r1]|] eqn:Hb; [done| |done].
    rewrite Hm0. intros H.
    eapply IH in H as (m & r4 & state & r5 & Hm & Hcomputed & Hmd & Hk); [|done..].
    exists m, r4, state, r5. split; [done|]. split; [by econstructor|done].
Qed.

(** X22. When the topology lists several machine deployments of one
    name, the entry of that name in the desired state is the state computed
    for the last of them, from the state of the random source reached after
    the infrastructure cluster, the control plane and all the machine
    deployments listed before it. *)
Theorem machineDeployments_last_wins (s : Scope.t) (r : Rand) desired r' before md after :
  Topology.Workers (ClusterBlueprint.Topology (Scope.Blueprint s))
    = Some (before ++ md :: after)%list →
  Forall (λ md', MachineDeploymentTopology.Name md' ≠ MachineDeploymentTopology.Name md)
    after →
  computeDesiredState s r = Returns ((Some desired, None), r') →
  ∃ m ic r1 template r2 cp r3 r4 state r5,
    ClusterState.MachineDeployments desired = Some m
    ∧ computeInfrastructureCluster s r = Returns ((ic, None), r1)
    ∧ controlPlaneTemplateStep s r1 = Returns ((template, None), r2)
    ∧ computeControlPlane s template r2 = Returns ((cp, None), r3)
    ∧ computedAll s before r3 r4
    ∧ computeMachineDeployment s md r4 = Returns ((state, None), r5)
    ∧ m !! MachineDeploymentTopology.Name md = Some state.
Proof.
  intros Hworkers Hall. rewrite computeDesiredState_eq.
  destruct (computeInfrastructureCluster s r) as [[[ic [e|]] r1]|] eqn:Hic; [done| |done].
  destruct (controlPlaneTemplateStep s r1) as [[[template [e|]] r2]|] eqn:Ht; [done| |done].
  destruct (computeControlPlane s template r2) as [[[cp [e|]] r3]|] eqn:Hcp; [done| |done].
  rewrite computeCluster_eq.
  destruct (ClusterState.Cluster (Scope.Current s)) as [current|]; [|done].
  destruct ic as [ic|]; [|done]. destruct cp as [cp|]; [|done].
  cbv zeta. unfold HasMachineDeployments. rewrite Hworkers.
  rewrite length_app. cbn [length]. replace (0 <? _)%nat with true
    by (symmetry; apply Nat.ltb_lt; lia).
  intros H. eapply range_last in H as (m & r4 & state & r5 & Hm & Hcomputed & Hmd & Hk);
    [|done..].
  by exists m, (Some ic), r1, template, r2, (Some cp), r3, r4, state, r5.
Qed.
End Loop.

(** ** The properties on the concrete instance *)

Lemma Example_keys_distinct : labelKeysDistinct (C := Example.collaborators).
Proof. by repeat split. Qed.

Lemma Example_mandated :
  HasControlPlaneInfrastructureMachine (Scope.Blueprint Example.scope) = true.
Proof. vm_compute. reflexivity. Qed.


Lemma Example_cloned :
  templateToTemplate (C := Example.collaborators) (Example.cloneInput None) 0%nat
    = Returns (Run.cloned, 1%nat).
Proof. vm_compute. reflexivity. Qed.

Lemma Example_pass :
  computeDesiredState (C := Example.collaborators) Example.scope 0%nat
    = Returns ((Some Run.desired, None), 11%nat).
Proof. vm_compute; reflexivity. Qed.

Lemma Example_controlPlane :
  computeControlPlane (C := Example.collaborators) Example.scope
    (Some (Example.template "InfraMachineTemplate" "cpimt")) 0%nat
    = Returns ((Some Run.controlPlane, None), 2%nat).
Proof. vm_compute; reflexivity. Qed.

Lemma Example_machineDeployment name :
  computeMachineDeployment (C := Example.collaborators) (Example.scopeWithCurrent name)
    (Example.worker "default" "wg-a") 0%nat
    = Returns ((Some (Run.machineDeployment name), None), 3%nat)
  ∧ MachineDeploymentState.Object (Run.machineDeployment name)
      = Some (Run.machineDeploymentObject name)
  ∧ MachineDeployment.Name (Run.machineDeploymentObject name) = name.
Proof.
  unfold Run.machineDeploymentObject, Run.machineDeployment.
  rewrite computeMachineDeployment_eq. done.
Qed.

Lemma Example_store :
  templateToTemplate_store (C := Example.collaborators) (Some 5%positive)
    (Example.cloneInput None) Run.store0 0%nat
    = Returns ((fresh (dom Run.store0), <[fresh (dom Run.store0) := Run.cloned]> Run.store0),
               1%nat).
Proof. rewrite templateToTemplate_store_eq. done. Qed.

Lemma Example_clonedReusing :
  templateToTemplate (C := Example.collaborators) (Example.cloneInput (Some Example.existingRef))
    0%nat = Returns (Run.clonedReusing, 1%nat).
Proof. vm_compute. reflexivity. Qed.




(** An instance of C2: the pass on the example scope, with the worker groups wg-a and wg-b. *)
Lemma machineDeployments_keys_witness :
  computeDesiredState (C := Example.collaborators) Example.scope 0%nat
    = Returns ((Some Run.desired, None), 11%nat)
  ∧ dom (default ∅ (ClusterState.MachineDeployments Run.desired))
    = list_to_set (MachineDeploymentTopology.Name <$>
        default [] (Topology.Workers
                      (ClusterBlueprint.Topology (Scope.Blueprint Example.scope)))).
Proof.
  split; [exact Example_pass|].
  exact (machineDeployments_keys (C := Example.collaborators) Example.scope 0%nat
           Run.desired 11%nat Example_pass).
Defined.

(** An instance of C3: the cluster object, the control-plane infrastructure
    machine template and the machine deployment wg-a of the pass on the
    example scope. *)
Lemma computed_objects_labelled_witness :
  labelKeysDistinct (C := Example.collaborators)
  ∧ computeDesiredState (C := Example.collaborators) Example.scope 0%nat
      = Returns ((Some Run.desired, None), 11%nat)
  ∧ (∃ cluster, ClusterState.Cluster Run.desired = Some cluster
       ∧ topologyLabelled (C := Example.collaborators) (Cluster.Labels cluster) "c1")
  ∧ (∃ controlPlane template,
       ClusterState.ControlPlane Run.desired = Some controlPlane
       ∧ ControlPlaneState.InfrastructureMachineTemplate controlPlane = Some template
       ∧ topologyLabelled (C := Example.collaborators) (Unstructured.GetLabels template) "c1")
  ∧ ∃ m state object bootstrapTemplate infraMachineTemplate,
      ClusterState.MachineDeployments Run.desired = Some m
      ∧ m !! "wg-a" = Some (Some state)
      ∧ MachineDeploymentState.Object state = Some object
      ∧ MachineDeploymentState.BootstrapTemplate state = Some bootstrapTemplate
      ∧ MachineDeploymentState.InfrastructureMachineTemplate state = Some infraMachineTemplate
      ∧ topologyLabelled (C := Example.collaborators)
          (Unstructured.GetLabels bootstrapTemplate) "c1"
      ∧ topologyLabelled (C := Example.collaborators)
          (Unstructured.GetLabels infraMachineTemplate) "c1"
      ∧ topologyLabelled (C := Example.collaborators) (MachineDeployment.Labels object) "c1".
Proof.
  split; [exact Example_keys_distinct|]. split; [exact Example_pass|].
  destruct (computed_objects_labelled (C := Example.collaborators) Example.scope 0%nat
              Run.desired 11%nat Example_keys_distinct Example_pass)
    as (current & Hcurrent & (cluster & Hcluster & _ & Hlabels) & Htemplate & Hworkers & _).
  injection Hcurrent as <-.
  split; [by exists cluster|]. split; [exact (Htemplate Example_mandated)|].
  exact (Hworkers (Example.worker "default" "wg-a") (list_elem_of_here _ _)).
Defined.

(** An instance of C4: a cloning that reuses the name of its current reference, a cloning that generates a name, and a machine deployment that reuses the name of its current object. *)
Lemma names_reused_or_generated_witness :
  templateToTemplate (C := Example.collaborators) (Example.cloneInput (Some Example.existingRef))
    0%nat = Returns (Run.clonedReusing, 1%nat)
  ∧ Unstructured.GetName Run.clonedReusing = "c1-foo-existing"
  ∧ templateToTemplate (C := Example.collaborators) (Example.cloneInput None) 0%nat
      = Returns (Run.cloned, 1%nat)
  ∧ generatedFrom (C := Example.collaborators) "c1-foo-" (Unstructured.GetName Run.cloned) 1%nat
  ∧ computeMachineDeployment (C := Example.collaborators)
      (Example.scopeWithCurrent "c1-wg-a-existing") (Example.worker "default" "wg-a") 0%nat
      = Returns ((Some (Run.machineDeployment "c1-wg-a-existing"), None), 3%nat)
  ∧ MachineDeployment.Name (Run.machineDeploymentObject "c1-wg-a-existing")
      = "c1-wg-a-existing".
Proof.
  pose proof (names_reused_or_generated (C := Example.collaborators)) as (_ & Htemplate & Hmd).
  split; [exact Example_clonedReusing|].
  split; [exact (Htemplate _ _ _ _ Example_clonedReusing)|].
  split; [exact Example_cloned|].
  split; [exact (Htemplate _ _ _ _ Example_cloned)|].
  destruct (Example_machineDeployment "c1-wg-a-existing") as (Hrun & Hobject & _).
  split; [exact Hrun|].
  destruct (Hmd _ _ _ _ _ _ Hrun Hobject) as (cluster & _ & Hname). exact Hname.
Defined.

(** C4 as stated fails: the current MachineDeployment object of the worker
    group carries an empty name, so by the claim the name is to be generated;
    the computed object has the empty name of the current object, which no
    draw of the generator gives. *)
Lemma names_reused_or_generated_counterexample :
  currentObjectOf (Example.scopeWithCurrent "") "wg-a" = Some (Example.currentObject "")
  ∧ nonempty (MachineDeployment.Name (Example.currentObject "")) = false
  ∧ computeMachineDeployment (C := Example.collaborators) (Example.scopeWithCurrent "")
      (Example.worker "default" "wg-a") 0%nat
      = Returns ((Some (Run.machineDeployment ""), None), 3%nat)
  ∧ MachineDeploymentState.Object (Run.machineDeployment "")
      = Some (Run.machineDeploymentObject "")
  ∧ MachineDeployment.Name (Run.machineDeploymentObject "") = ""
  ∧ ¬ generatedFrom (C := Example.collaborators) "c1-wg-a-"
        (MachineDeployment.Name (Run.machineDeploymentObject "")) 3%nat.
Proof.
  destruct (Example_machineDeployment "") as (Hrun & Hobject & Hname).
  split; [done|]. split; [done|]. split; [done|]. split; [done|]. split; [done|].
  rewrite Hname. intros [r H]. simpl in H. unfold Example.generateName in H.
  by injection H.
Qed.



(** An instance of C7: the cloning of the template stored at address 5, which carries a resource version, a UID and a finalizer. *)
Lemma templateToTemplate_strips_and_copies_witness :
  Run.store0 !! 5%positive = Some (Example.template "FooTemplate" "t1")
  ∧ Unstructured.GetResourceVersion (Example.template "FooTemplate" "t1") = "42"
  ∧ templateToTemplate_store (C := Example.collaborators) (Some 5%positive)
      (Example.cloneInput None) Run.store0 0%nat
      = Returns ((fresh (dom Run.store0),
                  <[fresh (dom Run.store0) := Run.cloned]> Run.store0), 1%nat)
  ∧ (<[fresh (dom Run.store0) := Run.cloned]> Run.store0) !! 5%positive
      = Some (Example.template "FooTemplate" "t1")
  ∧ Unstructured.GetResourceVersion Run.cloned = ""
  ∧ Unstructured.GetUID Run.cloned = ""
  ∧ Unstructured.GetFinalizers Run.cloned = [].
Proof.
  assert (Run.store0 !! 5%positive = Some (Example.template "FooTemplate" "t1")) as Hsource
    by reflexivity.
  destruct (templateToTemplate_strips_and_copies (C := Example.collaborators) 5%positive
              (Example.template "FooTemplate" "t1") (Example.cloneInput None) Run.store0 0%nat
              _ _ _ Hsource Example_store)
    as (Hkept & _ & _ & t & Ht & _ & Hrv & Huid & Hfin).
  rewrite lookup_insert_eq in Ht. injection Ht as <-.
  split; [exact Hsource|]. split; [reflexivity|]. split; [exact Example_store|].
  split; [exact Hkept|]. split; [exact Hrv|]. split; [exact Huid|exact Hfin].
Defined.

(** An instance of C8: the cloning of the example template from the reference named t1. *)
Lemma templateToTemplate_provenance_witness :
  TemplateClonedFromNameAnnotation (Collaborators := Example.collaborators)
    ≠ TemplateClonedFromGroupKindAnnotation (Collaborators := Example.collaborators)
  ∧ templateToTemplate (C := Example.collaborators)
      (Example.cloneInput (Some Example.existingRef)) 0%nat
      = Returns (Run.clonedReusing, 1%nat)
  ∧ mapindex (Unstructured.GetAnnotations Run.clonedReusing) "cluster.x-k8s.io/cloned-from-name"
      = Some "t1".
Proof.
  assert (TemplateClonedFromNameAnnotation (Collaborators := Example.collaborators)
            ≠ TemplateClonedFromGroupKindAnnotation (Collaborators := Example.collaborators))
    as Hne by done.
  split; [exact Hne|]. split; [exact Example_clonedReusing|].
  destruct (templateToTemplate_provenance (C := Example.collaborators) _ _ _ _ Hne
              Example_clonedReusing) as (source & ref & _ & Href & Hname & _).
  injection Href as <-. exact Hname.
Defined.

(** C8 as stated fails: the source template carries the annotation
    "note", which the clone keeps next to the two provenance annotations; the
    annotations are not exactly the provenance annotations. The reference
    [{Name: "t1", Kind: "FooTemplate"}] has no group, and its group-kind
    string is the kind alone. *)
Lemma templateToTemplate_provenance_counterexample :
  templateToTemplate (C := Example.collaborators) (Example.cloneInput None) 0%nat
    = Returns (Run.cloned, 1%nat)
  ∧ templateToInput.templateClonedFromRef (Example.cloneInput None)
      = Some (ObjectReference.mk "FooTemplate" "" "t1" "")
  ∧ Unstructured.GetAnnotations Run.cloned
      = Some {[ "cluster.x-k8s.io/cloned-from-name" := "t1";
                "cluster.x-k8s.io/cloned-from-groupkind" := "FooTemplate";
                "note" := "kept" ]}
  ∧ Unstructured.GetAnnotations Run.cloned
      ≠ Some {[ "cluster.x-k8s.io/cloned-from-name" := "t1";
                "cluster.x-k8s.io/cloned-from-groupkind" := "FooTemplate" ]}.
Proof.
  split; [exact Example_cloned|]. split; [reflexivity|].
  assert (Unstructured.GetAnnotations Run.cloned
            = Some {[ "cluster.x-k8s.io/cloned-from-name" := "t1";
                      "cluster.x-k8s.io/cloned-from-groupkind" := "FooTemplate";
                      "note" := "kept" ]}) as H by (vm_compute; reflexivity).
  split; [exact H|]. rewrite H. intros Heq%(inj Some).
  apply (f_equal (λ m : gmap string string, m !! "note")) in Heq.
  vm_compute in Heq. discriminate.
Qed.

(** An instance of C9: the control plane of the example scope, whose topology asks for 3 replicas. *)
Lemma computeControlPlane_replicas_witness :
  computeControlPlane (C := Example.collaborators) Example.scope
    (Some (Example.template "InfraMachineTemplate" "cpimt")) 0%nat
    = Returns ((Some Run.controlPlane, None), 2%nat)
  ∧ contract.NestedField contract.replicasPath (Unstructured.content Run.controlPlane)
      = Some (VInt 3)
  ∧ contract.NestedField contract.versionPath (Unstructured.content Run.controlPlane)
      = Some (VString "v1.21.2").
Proof.
  split; [exact Example_controlPlane|].
  destruct (computeControlPlane_replicas (C := Example.collaborators) _ _ _ _ _
              Example_controlPlane) as (cluster & generated & _ & _ & Hreplicas & Hversion).
  split; [exact Hreplicas|exact Hversion].
Defined.

(** An instance of C10: the cloning of the example template, which carries a self-link. *)
Lemma templateToTemplate_clears_selfLink_witness :
  Unstructured.GetSelfLink (Example.template "FooTemplate" "t1") = "/apis/templates/t1"
  ∧ templateToTemplate (C := Example.collaborators) (Example.cloneInput None) 0%nat
      = Returns (Run.cloned, 1%nat)
  ∧ Unstructured.GetSelfLink Run.cloned = "".
Proof.
  split; [reflexivity|]. split; [exact Example_cloned|].
  exact (templateToTemplate_clears_selfLink (C := Example.collaborators) _ _ _ _ Example_cloned).
Defined.

(** ** The further properties on the concrete instance *)

Lemma Example_passWithRefs :
  computeDesiredState (C := Example.collaborators) Example.scopeWithRefs 0%nat
    = Returns ((Some Run.desiredWithRefs, None), 5%nat).
Proof. vm_compute; reflexivity. Qed.

Lemma Example_passDuplicate :
  computeDesiredState (C := Example.collaborators) Example.scopeDuplicateNames 0%nat
    = Returns ((Some Run.desiredDuplicate, None), 11%nat)
  ∧ ClusterState.MachineDeployments Run.desiredDuplicate
      = Some {["wg-a" := Run.machineDeploymentScaled]}
  ∧ ∃ state object,
      Run.machineDeploymentScaled = Some state
      ∧ MachineDeploymentState.Object state = Some object
      ∧ MachineDeployment.Spec_Replicas object = Some 5.
Proof.
  split; [vm_compute; reflexivity|]. split; [vm_compute; reflexivity|].
  unfold Run.machineDeploymentScaled. rewrite computeMachineDeployment_eq.
  by eexists _, _.
Qed.

Lemma Example_machineDeploymentReusing :
  currentBootstrapTemplateRefOf Example.scopeWithTemplates "wg-a"
    = Some Example.existingBootstrapRef
  ∧ currentInfraMachineTemplateRefOf Example.scopeWithTemplates "wg-a"
      = Some Example.existingRef
  ∧ computeMachineDeployment (C := Example.collaborators) Example.scopeWithTemplates
      (Example.worker "default" "wg-a") 0%nat
      = Returns ((Some Run.machineDeploymentReusing, None), 3%nat)
  ∧ computeMachineDeployment (C := Example.collaborators) Example.scopeWithTemplates
      (Example.worker "default" "wg-a") 4%nat
      = Returns ((Some Run.machineDeploymentReusingLater, None), 7%nat).
Proof.
  split; [vm_compute; reflexivity|]. split; [vm_compute; reflexivity|].
  unfold Run.machineDeploymentReusing, Run.machineDeploymentReusingLater.
  rewrite !computeMachineDeployment_eq. done.
Qed.

Lemma Example_infrastructureCluster :
  templateToObject (C := Example.collaborators)
    (infrastructureClusterInput Example.scope Example.cluster) 0%nat
    = Returns ((Some Run.infrastructureCluster, None), 2%nat).
Proof. vm_compute; reflexivity. Qed.

Lemma Example_brokenControlPlane :
  computeControlPlaneInfrastructureMachineTemplate (C := Example.collaborators)
    Example.scopeBrokenControlPlane 0%nat
    = Returns ((None,
                Some "failed to get spec.machineTemplate.infrastructureRef for the current ControlPlane object: failed to get spec.machineTemplate.infrastructureRef"),
               0%nat).
Proof. vm_compute; reflexivity. Qed.

Lemma Example_cluster (infrastructureCluster controlPlane : Unstructured.t) :
  computeCluster (C := Example.collaborators) Example.scopeWithRefs
    (Some infrastructureCluster) (Some controlPlane) 0%nat
    = Returns (desiredCluster (C := Example.collaborators) Example.clusterWithRefs
                 infrastructureCluster controlPlane, 0%nat).
Proof. by rewrite computeCluster_eq. Qed.

Lemma Example_clonedReusingLater :
  templateToTemplate (C := Example.collaborators)
    (Example.cloneInput (Some Example.existingRef)) 7%nat
    = Returns (Run.clonedReusingLater, 8%nat).
Proof. vm_compute. reflexivity. Qed.

(** An instance of X1: the pass on the example scope. *)
Lemma cluster_references_computed_objects_witness :
  computeDesiredState (C := Example.collaborators) Example.scope 0%nat
    = Returns ((Some Run.desired, None), 11%nat)
  ∧ ∃ cluster infrastructureCluster controlPlaneState controlPlane,
      ClusterState.Cluster Run.desired = Some cluster
      ∧ ClusterState.InfrastructureCluster Run.desired = Some infrastructureCluster
      ∧ ClusterState.ControlPlane Run.desired = Some controlPlaneState
      ∧ ControlPlaneState.Object controlPlaneState = Some controlPlane
      ∧ Cluster.Spec_InfrastructureRef cluster
          = Some (contract.ObjToRef infrastructureCluster)
      ∧ Cluster.Spec_ControlPlaneRef cluster = Some (contract.ObjToRef controlPlane).
Proof.
  split; [exact Example_pass|].
  exact (cluster_references_computed_objects (C := Example.collaborators) _ _ _ _
           Example_pass).
Defined.

(** An instance of X2: the cluster computed for a current cluster that
    carries the label team and the annotation owner. *)
Lemma computeCluster_keeps_current_witness :
  computeCluster (C := Example.collaborators) Example.scopeWithRefs
    (Some (Example.template "InfraCluster" "ic")) (Some (Example.template "ControlPlane" "cp"))
    0%nat
    = Returns (desiredCluster (C := Example.collaborators) Example.clusterWithRefs
                 (Example.template "InfraCluster" "ic")
                 (Example.template "ControlPlane" "cp"), 0%nat)
  ∧ mapindex (Cluster.Labels
                (desiredCluster (C := Example.collaborators) Example.clusterWithRefs
                   (Example.template "InfraCluster" "ic")
                   (Example.template "ControlPlane" "cp"))) "team" = Some "blue"
  ∧ Cluster.Annotations
      (desiredCluster (C := Example.collaborators) Example.clusterWithRefs
         (Example.template "InfraCluster" "ic") (Example.template "ControlPlane" "cp"))
    = Some {["owner" := "ops"]}.
Proof.
  destruct (computeCluster_keeps_current (C := Example.collaborators) _ _ _ _ _ _
              (Example_cluster (Example.template "InfraCluster" "ic")
                 (Example.template "ControlPlane" "cp")))
    as (current & Hcurrent & _ & _ & _ & Hannotations & Hlabels).
  injection Hcurrent as <-.
  split; [apply Example_cluster|]. split; [|exact Hannotations].
  by apply (Hlabels "team").
Defined.

(** An instance of X3: the worker group wg-a of the example scope. *)
Lemma machineDeployment_references_templates_witness :
  computeMachineDeployment (C := Example.collaborators)
    (Example.scopeWithCurrent "c1-wg-a-existing") (Example.worker "default" "wg-a") 0%nat
    = Returns ((Some (Run.machineDeployment "c1-wg-a-existing"), None), 3%nat)
  ∧ ∃ object bootstrapTemplate infraMachineTemplate,
      MachineDeploymentState.Object (Run.machineDeployment "c1-wg-a-existing") = Some object
      ∧ MachineDeploymentState.BootstrapTemplate (Run.machineDeployment "c1-wg-a-existing")
          = Some bootstrapTemplate
      ∧ MachineDeploymentState.InfrastructureMachineTemplate
          (Run.machineDeployment "c1-wg-a-existing") = Some infraMachineTemplate
      ∧ MachineDeployment.Spec_Template_Spec_Bootstrap_ConfigRef object
          = Some (contract.ObjToRef bootstrapTemplate)
      ∧ MachineDeployment.Spec_Template_Spec_InfrastructureRef object
          = contract.ObjToRef infraMachineTemplate.
Proof.
  destruct (Example_machineDeployment "c1-wg-a-existing") as (Hrun & _).
  split; [exact Hrun|].
  exact (machineDeployment_references_templates (C := Example.collaborators) _ _ _ _ _ Hrun).
Defined.

(** An instance of X4: the worker group wg-a of the example scope. *)
Lemma machineDeployment_deployment_label_witness :
  computeMachineDeployment (C := Example.collaborators)
    (Example.scopeWithCurrent "c1-wg-a-existing") (Example.worker "default" "wg-a") 0%nat
    = Returns ((Some (Run.machineDeployment "c1-wg-a-existing"), None), 3%nat)
  ∧ ∃ object bootstrapTemplate,
      MachineDeploymentState.Object (Run.machineDeployment "c1-wg-a-existing") = Some object
      ∧ MachineDeploymentState.BootstrapTemplate (Run.machineDeployment "c1-wg-a-existing")
          = Some bootstrapTemplate
      ∧ mapindex (Unstructured.GetLabels bootstrapTemplate)
          "topology.cluster.x-k8s.io/deployment-name" = Some "wg-a"
      ∧ mapindex (MachineDeployment.Labels object)
          "topology.cluster.x-k8s.io/deployment-name" = Some "wg-a"
      ∧ mapindex (MachineDeployment.Labels object) "tier" = None.
Proof.
  destruct (Example_machineDeployment "c1-wg-a-existing") as (Hrun & _).
  split; [exact Hrun|].
  destruct (machineDeployment_deployment_label (C := Example.collaborators) _ _ _ _ _ Hrun)
    as (object & bt & imt & Hobject & Hbt & _ & Hlbt & _ & Hlobject & _ & Hother).
  exists object, bt. split; [exact Hobject|]. split; [exact Hbt|].
  split; [exact Hlbt|]. split; [exact Hlobject|]. by apply (Hother "tier").
Defined.

(** An instance of X5: the worker group wg-a of the example scope, whose
    topology and class both give the label tier, and whose class alone gives
    the label zone. *)
Lemma machineDeployment_template_metadata_witness :
  computeMachineDeployment (C := Example.collaborators)
    (Example.scopeWithCurrent "c1-wg-a-existing") (Example.worker "default" "wg-a") 0%nat
    = Returns ((Some (Run.machineDeployment "c1-wg-a-existing"), None), 3%nat)
  ∧ ∃ object,
      MachineDeploymentState.Object (Run.machineDeployment "c1-wg-a-existing") = Some object
      ∧ mapindex (MachineDeployment.Spec_Template_Labels object) "tier" = Some "topology"
      ∧ mapindex (MachineDeployment.Spec_Template_Labels object) "zone" = Some "a".
Proof.
  destruct (Example_machineDeployment "c1-wg-a-existing") as (Hrun & _).
  split; [exact Hrun|].
  destruct (machineDeployment_template_metadata (C := Example.collaborators) _ _ _ _ _ Hrun)
    as (class & object & Hclass & Hobject & Hlabels & _).
  assert (Some Example.machineDeploymentBlueprint = Some class) as [= <-] by exact Hclass.
  exists object. split; [exact Hobject|].
  split; [by apply (Hlabels "tier")|by apply (Hlabels "zone")].
Defined.

(** An instance of X6: the worker group wg-a of the example scope, with 3
    replicas in the topology. *)
Lemma machineDeployment_spec_witness :
  computeMachineDeployment (C := Example.collaborators)
    (Example.scopeWithCurrent "c1-wg-a-existing") (Example.worker "default" "wg-a") 0%nat
    = Returns ((Some (Run.machineDeployment "c1-wg-a-existing"), None), 3%nat)
  ∧ ∃ object,
      MachineDeploymentState.Object (Run.machineDeployment "c1-wg-a-existing") = Some object
      ∧ MachineDeployment.Kind object = "MachineDeployment"
      ∧ MachineDeployment.APIVersion object = "cluster.x-k8s.io/v1alpha4"
      ∧ MachineDeployment.Namespace object = "default"
      ∧ MachineDeployment.Spec_ClusterName object = "c1"
      ∧ MachineDeployment.Spec_Template_Spec_Version object = Some "v1.21.2"
      ∧ MachineDeployment.Spec_Replicas object = Some 3.
Proof.
  destruct (Example_machineDeployment "c1-wg-a-existing") as (Hrun & _).
  split; [exact Hrun|].
  destruct (machineDeployment_spec (C := Example.collaborators) _ _ _ _ _ Hrun)
    as (cluster & object & Hcluster & Hobject & Hkind & Hversion & Hns & Hname & _ & Hv & Hr).
  assert (Some Example.cluster = Some cluster) as [= <-] by exact Hcluster.
  exists object. split; [exact Hobject|]. split; [exact Hkind|]. split; [exact Hversion|].
  split; [exact Hns|]. split; [exact Hname|]. split; [exact Hv|exact Hr].
Defined.

(** An instance of X8: the cloning of the example template. *)
Lemma templateToTemplate_keeps_source_witness :
  templateToTemplate (C := Example.collaborators) (Example.cloneInput None) 0%nat
    = Returns (Run.cloned, 1%nat)
  ∧ Unstructured.GetKind Run.cloned = "FooTemplate"
  ∧ Unstructured.GetNamespace Run.cloned = "default"
  ∧ Unstructured.content Run.cloned = Unstructured.content (Example.template "FooTemplate" "t1").
Proof.
  split; [exact Example_cloned|].
  destruct (templateToTemplate_keeps_source (C := Example.collaborators) _ _ _ _ Example_cloned)
    as (source & Hsource & _ & Hkind & Hns & Hcontent & _).
  injection Hsource as <-.
  split; [exact Hkind|]. split; [exact Hns|exact Hcontent].
Defined.

(** An instance of X9: the cloning that reuses the name of its current
    reference, run from two states of the random source. *)
Lemma templateToTemplate_stable_witness :
  templateToInput.currentObjectRef (Example.cloneInput (Some Example.existingRef))
    = Some Example.existingRef
  ∧ nonempty (ObjectReference.Name Example.existingRef) = true
  ∧ templateToTemplate (C := Example.collaborators)
      (Example.cloneInput (Some Example.existingRef)) 0%nat
      = Returns (Run.clonedReusing, 1%nat)
  ∧ templateToTemplate (C := Example.collaborators)
      (Example.cloneInput (Some Example.existingRef)) 7%nat
      = Returns (Run.clonedReusingLater, 8%nat)
  ∧ Run.clonedReusing = Run.clonedReusingLater
  ∧ Unstructured.GetName Run.clonedReusing = "c1-foo-existing".
Proof.
  split; [reflexivity|]. split; [reflexivity|]. split; [exact Example_clonedReusing|].
  split; [exact Example_clonedReusingLater|].
  exact (templateToTemplate_stable (C := Example.collaborators)
           (Example.cloneInput (Some Example.existingRef)) Example.existingRef
           _ _ _ _ _ _ eq_refl eq_refl Example_clonedReusing Example_clonedReusingLater).
Defined.

(** An instance of X10: the worker group whose current object references
    both of its templates, computed from two states of the random source. *)
Lemma computeMachineDeployment_stable_witness :
  currentBootstrapTemplateRefOf Example.scopeWithTemplates "wg-a"
    = Some Example.existingBootstrapRef
  ∧ nonempty (ObjectReference.Name Example.existingBootstrapRef) = true
  ∧ currentInfraMachineTemplateRefOf Example.scopeWithTemplates "wg-a"
      = Some Example.existingRef
  ∧ nonempty (ObjectReference.Name Example.existingRef) = true
  ∧ computeMachineDeployment (C := Example.collaborators) Example.scopeWithTemplates
      (Example.worker "default" "wg-a") 0%nat
      = Returns ((Some Run.machineDeploymentReusing, None), 3%nat)
  ∧ computeMachineDeployment (C := Example.collaborators) Example.scopeWithTemplates
      (Example.worker "default" "wg-a") 4%nat
      = Returns ((Some Run.machineDeploymentReusingLater, None), 7%nat)
  ∧ (Some Run.machineDeploymentReusing, (None : option error))
    = (Some Run.machineDeploymentReusingLater, None).
Proof.
  destruct Example_machineDeploymentReusing as (Hb & Hi & Hrun & Hlater).
  split; [exact Hb|]. split; [reflexivity|]. split; [exact Hi|]. split; [reflexivity|].
  split; [exact Hrun|]. split; [exact Hlater|].
  exact (computeMachineDeployment_stable (C := Example.collaborators)
           Example.scopeWithTemplates (Example.worker "default" "wg-a")
           Example.existingBootstrapRef Example.existingRef _ _ _ _ _ _
           Hb eq_refl Hi eq_refl Hrun Hlater).
Defined.

(** An instance of X12: the infrastructure cluster object of the example
    scope. *)
Lemma templateToObject_only_renames_witness :
  templateToObject (C := Example.collaborators)
    (infrastructureClusterInput Example.scope Example.cluster) 0%nat
    = Returns ((Some Run.infrastructureCluster, None), 2%nat)
  ∧ ∃ cluster,
      templateToInput.cluster (infrastructureClusterInput Example.scope Example.cluster)
        = Some cluster
      ∧ match GenerateTemplate (Collaborators := Example.collaborators)
                (generateInput (C := Example.collaborators)
                   (infrastructureClusterInput Example.scope Example.cluster) cluster)
                0%nat with
        | (inr cause, r1) =>
            Some Run.infrastructureCluster = None ∧ None = Some cause ∧ 2%nat = r1
        | (inl generated, r1) =>
            (None : option error) = None
            ∧ 2%nat = (GenerateName (Collaborators := Example.collaborators)
                         (templateToInput.namePrefix
                            (infrastructureClusterInput Example.scope Example.cluster))
                         r1).2
            ∧ ∃ object, Some Run.infrastructureCluster = Some object
                ∧ object = Unstructured.SetName (Unstructured.GetName object) generated
        end.
Proof.
  split; [exact Example_infrastructureCluster|].
  exact (templateToObject_only_renames (C := Example.collaborators) _ _ _ _ _
           Example_infrastructureCluster).
Defined.

(** An instance of X17: the pass on the example scope, whose cluster class
    mandates infrastructure machines for the control plane. *)
Lemma controlPlane_references_template_witness :
  HasControlPlaneInfrastructureMachine (Scope.Blueprint Example.scope) = true
  ∧ computeDesiredState (C := Example.collaborators) Example.scope 0%nat
      = Returns ((Some Run.desired, None), 11%nat)
  ∧ ∃ state object template,
      ClusterState.ControlPlane Run.desired = Some state
      ∧ ControlPlaneState.Object state = Some object
      ∧ ControlPlaneState.InfrastructureMachineTemplate state = Some template
      ∧ contract.InfrastructureRef_Get object = (Some (contract.ObjToRef template), None).
Proof.
  split; [exact Example_mandated|]. split; [exact Example_pass|].
  exact (controlPlane_references_template (C := Example.collaborators) _ _ _ _
           Example_mandated Example_pass).
Defined.

(** An instance of X18: the control plane of the example scope. *)
Lemma computeControlPlane_machine_metadata_witness :
  HasControlPlaneInfrastructureMachine (Scope.Blueprint Example.scope) = true
  ∧ computeControlPlane (C := Example.collaborators) Example.scope
      (Some (Example.template "InfraMachineTemplate" "cpimt")) 0%nat
      = Returns ((Some Run.controlPlane, None), 2%nat)
  ∧ ∃ labels annotations,
      contract.NestedField contract.metadataPath (Unstructured.content Run.controlPlane)
        = Some (VMap (<["labels" := VMap (VString <$> labels)]>
                     (<["annotations" := VMap (VString <$> annotations)]> ∅)))
      ∧ labels !! "topology.cluster.x-k8s.io/owned" = Some ""
      ∧ labels !! "cluster.x-k8s.io/cluster-name" = Some "c1".
Proof.
  split; [exact Example_mandated|]. split; [exact Example_controlPlane|].
  destruct (computeControlPlane_machine_metadata (C := Example.collaborators) _ _ _ _ _
              Example_mandated Example_controlPlane)
    as (cluster & labels & annotations & Hcluster & Hmetadata & Howned & Hname & _).
  assert (Some Example.cluster = Some cluster) as [= <-] by exact Hcluster.
  exists labels, annotations. split; [exact Hmetadata|]. split; [exact Howned|].
  by apply Hname.
Defined.

(** An instance of X19: the control plane of the example scope and the
    field spec.paused, which the source does not set. *)
Lemma computeControlPlane_frame_witness :
  computeControlPlane (C := Example.collaborators) Example.scope
    (Some (Example.template "InfraMachineTemplate" "cpimt")) 0%nat
    = Returns ((Some Run.controlPlane, None), 2%nat)
  ∧ ∃ generated,
      templateToObject (C := Example.collaborators)
        (controlPlaneInput Example.scope Example.cluster) 0%nat
        = Returns ((Some generated, None), 2%nat)
      ∧ Run.controlPlane
        = Unstructured.SetContent (Unstructured.content Run.controlPlane) generated
      ∧ contract.NestedField ["spec"; "paused"] (Unstructured.content Run.controlPlane)
        = contract.NestedField ["spec"; "paused"] (Unstructured.content generated).
Proof.
  split; [exact Example_controlPlane|].
  destruct (computeControlPlane_frame (C := Example.collaborators) _ _ _ _ _
              Example_controlPlane)
    as (cluster & generated & Hcluster & Hgenerated & Hfields & Hframe).
  assert (Some Example.cluster = Some cluster) as [= <-] by exact Hcluster.
  exists generated. split; [exact Hgenerated|]. split; [exact Hfields|].
  apply (Hframe ["spec"; "paused"]); [reflexivity|reflexivity|].
  intros _. split; reflexivity.
Defined.

(** An instance of X20: the pass on a current cluster that references the
    objects c1-infra-existing and c1-cp-existing. *)
Lemma cluster_reference_names_stable_witness :
  computeDesiredState (C := Example.collaborators) Example.scopeWithRefs 0%nat
    = Returns ((Some Run.desiredWithRefs, None), 5%nat)
  ∧ ∃ cluster,
      ClusterState.Cluster Run.desiredWithRefs = Some cluster
      ∧ (∃ ref, Cluster.Spec_InfrastructureRef cluster = Some ref
                ∧ ObjectReference.Name ref = "c1-infra-existing")
      ∧ (∃ ref, Cluster.Spec_ControlPlaneRef cluster = Some ref
                ∧ ObjectReference.Name ref = "c1-cp-existing").
Proof.
  split; [exact Example_passWithRefs|].
  destruct (cluster_reference_names_stable (C := Example.collaborators) _ _ _ _
              Example_passWithRefs)
    as (current & cluster & Hcurrent & Hcluster & Hinfrastructure & HcontrolPlane).
  assert (Some Example.clusterWithRefs = Some current) as [= <-] by exact Hcurrent.
  exists cluster. split; [exact Hcluster|].
  split; [exact (Hinfrastructure _ eq_refl eq_refl)|exact (HcontrolPlane _ eq_refl eq_refl)].
Defined.

(** An instance of X22: the topology that names wg-a twice; the entry of
    wg-a is the state of the second one, with 5 replicas. *)
Lemma machineDeployments_last_wins_witness :
  Topology.Workers (ClusterBlueprint.Topology (Scope.Blueprint Example.scopeDuplicateNames))
    = Some ([Example.worker "default" "wg-a"]
              ++ Example.scaledWorker "default" "wg-a" 5 :: [])%list
  ∧ computeDesiredState (C := Example.collaborators) Example.scopeDuplicateNames 0%nat
      = Returns ((Some Run.desiredDuplicate, None), 11%nat)
  ∧ ∃ m r4 state r5,
      ClusterState.MachineDeployments Run.desiredDuplicate = Some m
      ∧ computeMachineDeployment (C := Example.collaborators) Example.scopeDuplicateNames
          (Example.scaledWorker "default" "wg-a" 5) r4 = Returns ((state, None), r5)
      ∧ m !! "wg-a" = Some state.
Proof.
  destruct Example_passDuplicate as (Hrun & _).
  split; [reflexivity|]. split; [exact Hrun|].
  destruct (machineDeployments_last_wins (C := Example.collaborators)
              Example.scopeDuplicateNames 0%nat Run.desiredDuplicate 11%nat
              [Example.worker "default" "wg-a"] (Example.scaledWorker "default" "wg-a" 5) []
              eq_refl (Forall_nil_2 _) Hrun)
    as (m & ic & r1 & template & r2 & cp & r3 & r4 & state & r5 & Hm & _ & _ & _ & _ & Hmd & Hk).
  exists m, r4, state, r5. split; [exact Hm|]. split; [exact Hmd|exact Hk].
Defined.

(** An instance of X13: the worker group whose current object references
    both of its templates. *)
Lemma machineDeployment_template_names_witness :
  computeMachineDeployment (C := Example.collaborators) Example.scopeWithTemplates
    (Example.worker "default" "wg-a") 0%nat
    = Returns ((Some Run.machineDeploymentReusing, None), 3%nat)
  ∧ ∃ bootstrapTemplate infraMachineTemplate,
      MachineDeploymentState.BootstrapTemplate Run.machineDeploymentReusing
        = Some bootstrapTemplate
      ∧ MachineDeploymentState.InfrastructureMachineTemplate Run.machineDeploymentReusing
          = Some infraMachineTemplate
      ∧ Unstructured.GetName bootstrapTemplate = "c1-wg-a-bootstrap-existing"
      ∧ Unstructured.GetName infraMachineTemplate = "c1-foo-existing".
Proof.
  destruct Example_machineDeploymentReusing as (Hb & Hi & Hrun & _).
  split; [exact Hrun|].
  destruct (machineDeployment_template_names (C := Example.collaborators) _ _ _ _ _ Hrun)
    as (class & cluster & bt & imt & r1 & r2 & _ & _ & Hbt & Himt & Hbname & Hiname).
  exists bt, imt. split; [exact Hbt|]. split; [exact Himt|].
  simpl MachineDeploymentTopology.Name in Hbname, Hiname.
  rewrite Hb in Hbname. rewrite Hi in Hiname. split; [exact Hbname|exact Hiname].
Defined.

(** An instance of X14: a current control-plane object that holds no
    reference to an infrastructure machine template. *)
Lemma controlPlaneTemplate_error_witness :
  computeControlPlaneInfrastructureMachineTemplate (C := Example.collaborators)
    Example.scopeBrokenControlPlane 0%nat
    = Returns ((None,
                Some "failed to get spec.machineTemplate.infrastructureRef for the current ControlPlane object: failed to get spec.machineTemplate.infrastructureRef"),
               0%nat)
  ∧ ∃ current object cause,
      ClusterState.ControlPlane (Scope.Current Example.scopeBrokenControlPlane) = Some current
      ∧ ControlPlaneState.Object current = Some object
      ∧ (contract.InfrastructureRef_Get object).2 = Some cause.
Proof.
  split; [exact Example_brokenControlPlane|].
  destruct (controlPlaneTemplate_error (C := Example.collaborators) _ _ _ _ _
              Example_brokenControlPlane)
    as (current & object & cause & Hcurrent & Hobject & Hcause & _).
  exists current, object, cause. split; [exact Hcurrent|]. split; [exact Hobject|exact Hcause].
Defined.

Lemma Example_annotations_distinct :
  TemplateClonedFromNameAnnotation (Collaborators := Example.collaborators)
    ≠ TemplateClonedFromGroupKindAnnotation (Collaborators := Example.collaborators).
Proof. done. Qed.

Lemma Example_brokenControlPlaneTemplate :
  computeControlPlane (C := Example.collaborators) Example.scopeBrokenControlPlaneTemplate
    (Some (Example.template "InfraMachineTemplate" "cpimt")) 0%nat
    = Returns ((None,
                Some "failed to generate the ControlPlane object from the ControlPlaneTemplate: missing Spec.Template"),
               0%nat).
Proof. vm_compute; reflexivity. Qed.

(** An instance of X16: the worker group wg-a of the example scope, whose
    bootstrap template is cloned from the template bt of the class. *)
Lemma machineDeployment_templates_provenance_witness :
  TemplateClonedFromNameAnnotation (Collaborators := Example.collaborators)
    ≠ TemplateClonedFromGroupKindAnnotation (Collaborators := Example.collaborators)
  ∧ computeMachineDeployment (C := Example.collaborators)
      (Example.scopeWithCurrent "c1-wg-a-existing") (Example.worker "default" "wg-a") 0%nat
      = Returns ((Some (Run.machineDeployment "c1-wg-a-existing"), None), 3%nat)
  ∧ ∃ bootstrapTemplate,
      MachineDeploymentState.BootstrapTemplate (Run.machineDeployment "c1-wg-a-existing")
        = Some bootstrapTemplate
      ∧ mapindex (Unstructured.GetAnnotations bootstrapTemplate)
          "cluster.x-k8s.io/cloned-from-name" = Some "bt"
      ∧ mapindex (Unstructured.GetAnnotations bootstrapTemplate)
          "cluster.x-k8s.io/cloned-from-groupkind"
          = Some "BootstrapTemplate.infrastructure.cluster.x-k8s.io".
Proof.
  destruct (Example_machineDeployment "c1-wg-a-existing") as (Hrun & _).
  split; [exact Example_annotations_distinct|]. split; [exact Hrun|].
  destruct (machineDeployment_templates_provenance (C := Example.collaborators) _ _ _ _ _
              Example_annotations_distinct Hrun)
    as (class & bt & imt & Hclass & Hbt & _ & (_ & _ & _ & _ & Hname & Hgroupkind) & _).
  assert (Some Example.machineDeploymentBlueprint = Some class) as [= <-] by exact Hclass.
  exists bt. split; [exact Hbt|]. split; [exact Hname|exact Hgroupkind].
Defined.

(** An instance of X21: a control-plane template that the generator
    rejects. *)
Lemma computeControlPlane_error_witness :
  computeControlPlane (C := Example.collaborators) Example.scopeBrokenControlPlaneTemplate
    (Some (Example.template "InfraMachineTemplate" "cpimt")) 0%nat
    = Returns ((None,
                Some "failed to generate the ControlPlane object from the ControlPlaneTemplate: missing Spec.Template"),
               0%nat)
  ∧ ∃ cause,
      "failed to generate the ControlPlane object from the ControlPlaneTemplate: missing Spec.Template"
        = Wrap cause
            ("failed to generate the ControlPlane object from the "
               +:+ Unstructured.GetKind
                     (ClusterBlueprint.ControlPlane_Template
                        (Scope.Blueprint Example.scopeBrokenControlPlaneTemplate)))
      ∨ (HasControlPlaneInfrastructureMachine
           (Scope.Blueprint Example.scopeBrokenControlPlaneTemplate) = true
         ∧ ("failed to generate the ControlPlane object from the ControlPlaneTemplate: missing Spec.Template"
              = Wrap cause
                  "failed to spec.machineTemplate.infrastructureRef in the ControlPlane object"
            ∨ "failed to generate the ControlPlane object from the ControlPlaneTemplate: missing Spec.Template"
                = Wrap cause
                    "failed to spec.machineTemplate.metadata in the ControlPlane object"))
      ∨ (is_Some (Topology.ControlPlane_Replicas
                    (ClusterBlueprint.Topology
                       (Scope.Blueprint Example.scopeBrokenControlPlaneTemplate)))
         ∧ "failed to generate the ControlPlane object from the ControlPlaneTemplate: missing Spec.Template"
             = Wrap cause "failed to set spec.replicas in the ControlPlane object")
      ∨ "failed to generate the ControlPlane object from the ControlPlaneTemplate: missing Spec.Template"
          = Wrap cause "failed to set spec.version in the ControlPlane object".
Proof.
  split; [exact Example_brokenControlPlaneTemplate|].
  exact (proj2 (computeControlPlane_error (C := Example.collaborators) _ _ _ _ _ _
                  Example_brokenControlPlaneTemplate)).
Defined.

Lemma Example_passWithControlPlane :
  HasControlPlaneInfrastructureMachine (Scope.Blueprint Example.scopeWithControlPlane) = true
  ∧ (∃ current object,
       ClusterState.ControlPlane (Scope.Current Example.scopeWithControlPlane) = Some current
       ∧ ControlPlaneState.Object current = Some object
       ∧ contract.InfrastructureRef_Get object = (Some Example.existingRef, None))
  ∧ computeDesiredState (C := Example.collaborators) Example.scopeWithControlPlane 0%nat
      = Returns ((Some Run.desiredWithControlPlane, None), 5%nat).
Proof.
  split; [vm_compute; reflexivity|]. split; [|vm_compute; reflexivity].
  eexists _, _. split; [reflexivity|]. split; [reflexivity|]. vm_compute. reflexivity.
Qed.

(** An instance of X23: the pass on a current control plane that references
    the infrastructure machine template c1-foo-existing. *)
Lemma controlPlane_template_name_stable_witness :
  HasControlPlaneInfrastructureMachine (Scope.Blueprint Example.scopeWithControlPlane) = true
  ∧ computeDesiredState (C := Example.collaborators) Example.scopeWithControlPlane 0%nat
      = Returns ((Some Run.desiredWithControlPlane, None), 5%nat)
  ∧ ∃ state template controlPlane,
      ClusterState.ControlPlane Run.desiredWithControlPlane = Some state
      ∧ ControlPlaneState.InfrastructureMachineTemplate state = Some template
      ∧ Unstructured.GetName template = "c1-foo-existing"
      ∧ ControlPlaneState.Object state = Some controlPlane
      ∧ ∃ ref, contract.InfrastructureRef_Get controlPlane = (Some ref, None)
               ∧ ObjectReference.Name ref = "c1-foo-existing".
Proof.
  destruct Example_passWithControlPlane
    as (Hmandated & (current & object & Hcurrent & Hobject & Hget) & Hrun).
  split; [exact Hmandated|]. split; [exact Hrun|].
  exact (controlPlane_template_name_stable (C := Example.collaborators) _ _ _ _ _ _ _
           Hmandated Hcurrent Hobject Hget eq_refl Hrun).
Defined.
